(** * The job scheduler of yt_downloader/server.py

    A shallow embedding of the scheduling core of [server.py]: the task
    registry ([tasks], [task_order]), the admission pass
    ([try_schedule_next]), the worker body ([_run_task]), the progress
    reporter ([_progress_hook]) and the small operations around them
    ([update_task], [queue_tasks], [clear_completed_tasks],
    [set_concurrency], [gather_insights]), and of the code around it: the
    engine options ([build_options]), the views ([to_dict], [api_status],
    [download_task_file]) and the history file; followed by the properties
    the specification states of them and by further properties of the code.

    Conventions.
    - Python [int] is [Z]; Python [float] is a binary64 primitive float.
    - Python [str] is [string]; its characters are read as the code points
      0..255.  Case mapping is modelled for the ASCII letters only.
    - A [dict] is an association list in insertion order, as Python
      iterates it.
    - The module-level variables are the fields of [State]; a function that
      changes them is a function from state to state.
    - The wall clock is a sequence of readings, [utcnow]; the state counts
      the readings taken.
    - Every piece of code that runs with [task_lock] held is one atomic
      transition; the threads of the executor interleave between them
      ([step]).
    - The file system is an environment: [os.path.join], [os.path.isfile]
      and the success of [os.makedirs] are parameters; the history file is
      taken to be readable and writable. *)

From Stdlib Require Import ZArith NArith List String Ascii Bool Lia Floats.
From Stdlib Require Import Permutation Sorted.
Import ListNotations.
Local Open Scope Z_scope.
Set Warnings "-inexact-float".

(* ================================================================== *)
(** ** Python text *)

Module PyStr.

Definition code (c : ascii) : N := N_of_ascii c.

(** [str.isspace] on the code points below 256: TAB..CR, FS..US, space,
    NEL and NBSP. *)
Definition is_space (c : ascii) : bool :=
  let n := code c in
  ((9 <=? n) && (n <=? 13) || (28 <=? n) && (n <=? 32)
   || (n =? 133) || (n =? 160))%N.

(** The line boundaries of [str.splitlines] below 256: LF, VT, FF, CR, FS,
    GS, RS and NEL (CR LF counts once). *)
Definition is_linebreak (c : ascii) : bool :=
  let n := code c in
  ((10 <=? n) && (n <=? 13) || (28 <=? n) && (n <=? 30) || (n =? 133))%N.

Fixpoint lstrip (s : string) : string :=
  match s with
  | EmptyString => EmptyString
  | String c r => if is_space c then lstrip r else s
  end.

Fixpoint rstrip (s : string) : string :=
  match s with
  | EmptyString => EmptyString
  | String c r =>
      match rstrip r with
      | EmptyString => if is_space c then EmptyString else String c EmptyString
      | r' => String c r'
      end
  end.

(** [s.strip()] *)
Definition strip (s : string) : string := rstrip (lstrip s).

(** [s.splitlines()]: [cur] is the line being read, [after_cr] tells that
    the previous character was a CR (a following LF belongs to it). *)
Fixpoint splitlines_from (s cur : string) (after_cr : bool) : list string :=
  match s with
  | EmptyString =>
      match cur with EmptyString => [] | _ => [cur] end
  | String c r =>
      if (after_cr && (code c =? 10)%N)%bool then splitlines_from r cur false
      else if is_linebreak c
           then cur :: splitlines_from r EmptyString (code c =? 13)%N
           else splitlines_from r (cur ++ String c EmptyString)%string false
  end.

Definition splitlines (s : string) : list string :=
  splitlines_from s EmptyString false.

(** [s.split(sep)] for a one-character separator. *)
Fixpoint split_from (sep : ascii) (s cur : string) : list string :=
  match s with
  | EmptyString => [cur]
  | String c r =>
      if Ascii.eqb c sep then cur :: split_from sep r EmptyString
      else split_from sep r (cur ++ String c EmptyString)%string
  end.

Definition split (sep : ascii) (s : string) : list string :=
  split_from sep s EmptyString.

Definition upper (c : ascii) : ascii :=
  let n := code c in
  if ((97 <=? n) && (n <=? 122))%N then ascii_of_N (n - 32) else c.

Definition lower (c : ascii) : ascii :=
  let n := code c in
  if ((65 <=? n) && (n <=? 90))%N then ascii_of_N (n + 32) else c.

Fixpoint lower_all (s : string) : string :=
  match s with
  | EmptyString => EmptyString
  | String c r => String (lower c) (lower_all r)
  end.

(** [s.capitalize()]: first character upper case, the rest lower case. *)
Definition capitalize (s : string) : string :=
  match s with
  | EmptyString => EmptyString
  | String c r => String (upper c) (lower_all r)
  end.

(** The truth value of a string: [bool(s)]. *)
Definition truthy (s : string) : bool :=
  match s with EmptyString => false | _ => true end.

(** [x or d] where [x] is [None] or a string. *)
Definition or_default (x : option string) (d : string) : string :=
  match x with
  | Some s => if truthy s then s else d
  | None => d
  end.

(** Decimal digits of a natural number, most significant first, on exactly
    [width] positions when the number fits (the [%0<width>d] format for the
    non-negative numbers it is used on here). *)
Definition digit (n : N) : ascii := ascii_of_N (48 + n mod 10).

Fixpoint digits_from (width : nat) (n : N) (acc : string) : string :=
  match width with
  | O => acc
  | S w => digits_from w (n / 10)%N (String (digit n) acc)
  end.

Definition zero_padded (width : nat) (n : N) : string :=
  digits_from width n EmptyString.

(** [str(n)] for an integer. *)
Fixpoint nat_digits (fuel : nat) (n : N) (acc : string) : string :=
  match fuel with
  | O => acc
  | S f =>
      let acc' := String (digit n) acc in
      if (n / 10 =? 0)%N then acc' else nat_digits f (n / 10)%N acc'
  end.

Definition of_N (n : N) : string := nat_digits (S (N.to_nat (N.log2 n))) n EmptyString.

Definition of_Z (z : Z) : string :=
  match z with
  | Zneg p => String "-"%char (of_N (Npos p))
  | _ => of_N (Z.to_N z)
  end.

End PyStr.

(* ================================================================== *)
(** ** Python values and numbers *)

(** The values that reach this code from JSON payloads and from the
    retrieval engine's progress records. *)
Inductive pyval :=
| VNone
| VBool (b : bool)
| VInt (z : Z)
| VFloat (f : float)
| VStr (s : string).

(** The numbers the [progress] attribute holds: [round(percent, 1)] keeps an
    [int] an [int] and a [float] a [float]. *)
Inductive number :=
| NInt (z : Z)
| NFloat (f : float).

Module PyNum.

(** [bool(v)] *)
Definition truthy (v : pyval) : bool :=
  match v with
  | VNone => false
  | VBool b => b
  | VInt z => negb (z =? 0)
  | VFloat f => negb (PrimFloat.eqb f 0%float)
  | VStr s => PyStr.truthy s
  end.

(** [v or d] *)
Definition or_default (v d : pyval) : pyval := if truthy v then v else d.

(** [float(z)] for an integer: rounded to nearest even; [None] stands for
    OverflowError. *)
Definition float_of_Z (z : Z) : option float :=
  let f := SF2Prim (binary_normalize prec emax z 0 false) in
  if PrimFloat.is_infinity f then None else Some f.

(** Rounding of the quotient [n / d] ([0 < d]) to the nearest integer, ties
    to even. *)
Definition round_half_even (n d : Z) : Z :=
  let q := n / d in
  let r := n mod d in
  if 2 * r <? d then q
  else if d <? 2 * r then q + 1
  else if Z.even q then q else q + 1.

(** [round(x, 1)] on a float.  CPython rounds the exact binary value to one
    decimal (ties to even) and returns the float nearest to that decimal;
    NaN, the infinities, the zeros and the floats that are integers round to
    themselves. *)
Definition float_round1 (x : float) : float :=
  match Prim2SF x with
  | S754_finite s m e =>
      if 0 <=? e then x
      else
        match round_half_even (10 * Zpos m) (2 ^ (- e)) with
        | Zpos k =>
            SF2Prim (SFdiv prec emax (S754_finite s k 0) (S754_finite false 10 0))
        | _ => if s then (-0)%float else 0%float
        end
  | _ => x
  end.

(** [round(n, 1)] on a number. *)
Definition round1 (n : number) : number :=
  match n with
  | NInt z => NInt z
  | NFloat f => NFloat (float_round1 f)
  end.

(** [a + b]; [None] stands for OverflowError (an [int] too large for a
    float). *)
Definition add (a b : number) : option number :=
  match a, b with
  | NInt x, NInt y => Some (NInt (x + y))
  | NInt x, NFloat g =>
      match float_of_Z x with
      | Some f => Some (NFloat (PrimFloat.add f g))
      | None => None
      end
  | NFloat f, NInt y =>
      match float_of_Z y with
      | Some g => Some (NFloat (PrimFloat.add f g))
      | None => None
      end
  | NFloat f, NFloat g => Some (NFloat (PrimFloat.add f g))
  end.

(** [sum(xs)]: the items are added from left to right, starting from the
    integer 0. *)
Fixpoint sum_from (acc : number) (xs : list number) : option number :=
  match xs with
  | [] => Some acc
  | x :: r =>
      match add acc x with
      | Some acc' => sum_from acc' r
      | None => None
      end
  end.

Definition sum (xs : list number) : option number := sum_from (NInt 0) xs.

(** [a / n] for a positive integer [n] (true division, correctly rounded);
    [None] stands for OverflowError. *)
Definition truediv (a : number) (n : positive) : option float :=
  match a with
  | NInt 0 => Some 0%float
  | NInt (Zpos p) =>
      let f := SF2Prim (SFdiv prec emax (S754_finite false p 0) (S754_finite false n 0)) in
      if PrimFloat.is_infinity f then None else Some f
  | NInt (Zneg p) =>
      let f := SF2Prim (SFdiv prec emax (S754_finite true p 0) (S754_finite false n 0)) in
      if PrimFloat.is_infinity f then None else Some f
  | NFloat f =>
      match float_of_Z (Zpos n) with
      | Some g => Some (PrimFloat.div f g)
      | None => None
      end
  end.

(** [isinstance(v, (int, float))]: [bool] is a subclass of [int]. *)
Definition as_number (v : pyval) : option number :=
  match v with
  | VBool b => Some (NInt (if b then 1 else 0))
  | VInt z => Some (NInt z)
  | VFloat f => Some (NFloat f)
  | _ => None
  end.

(** Decimal text of an integer as [int(s)] accepts it: optional sign, then
    digits, single underscores allowed between digits. *)
Definition digit_value (c : ascii) : option Z :=
  let n := PyStr.code c in
  if ((48 <=? n) && (n <=? 57))%N then Some (Z.of_N n - 48) else None.

Fixpoint digits_value (s : string) (acc : Z) (after_digit : bool) : option Z :=
  match s with
  | EmptyString => if after_digit then Some acc else None
  | String c r =>
      match digit_value c with
      | Some d => digits_value r (10 * acc + d) true
      | None =>
          if (after_digit && (PyStr.code c =? 95)%N)%bool
          then digits_value r acc false
          else None
      end
  end.

Definition int_of_string (s : string) : option Z :=
  match PyStr.strip s with
  | String "-"%char r => option_map Z.opp (digits_value r 0 false)
  | String "+"%char r => digits_value r 0 false
  | t => digits_value t 0 false
  end.

(** [int(f)] for a float: truncation toward zero; [None] for NaN and the
    infinities (ValueError, OverflowError). *)
Definition int_of_float (f : float) : option Z :=
  match Prim2SF f with
  | S754_zero _ => Some 0
  | S754_finite s m e =>
      let a := if 0 <=? e then Zpos m * 2 ^ e else Zpos m / 2 ^ (- e) in
      Some (if s then - a else a)
  | _ => None
  end.

(** [int(v)]; [None] stands for ValueError or TypeError. *)
Definition py_int (v : pyval) : option Z :=
  match v with
  | VNone => None
  | VBool b => Some (if b then 1 else 0)
  | VInt z => Some z
  | VFloat f => int_of_float f
  | VStr s => int_of_string s
  end.

End PyNum.

(* ================================================================== *)
(** ** The wall clock *)

(** A reading of [datetime.utcnow()]. *)
Record datetime := {
  year : N; month : N; day : N;
  hour : N; minute : N; second : N;
  microsecond : N
}.

Module Clock.

(** [dt.isoformat()]: [YYYY-MM-DDTHH:MM:SS.ffffff], and
    [YYYY-MM-DDTHH:MM:SS] when [microsecond] is 0. *)
Definition isoformat (dt : datetime) : string :=
  (PyStr.zero_padded 4 (year dt) ++ "-" ++ PyStr.zero_padded 2 (month dt) ++ "-"
   ++ PyStr.zero_padded 2 (day dt) ++ "T" ++ PyStr.zero_padded 2 (hour dt) ++ ":"
   ++ PyStr.zero_padded 2 (minute dt) ++ ":" ++ PyStr.zero_padded 2 (second dt)
   ++ (if (microsecond dt =? 0)%N then ""
       else "." ++ PyStr.zero_padded 6 (microsecond dt)))%string.

(** [now_iso()] at the reading [dt]. *)
Definition now_iso (dt : datetime) : string := (isoformat dt ++ "Z")%string.

(** [dt.strftime("%H:%M:%S")] *)
Definition hms (dt : datetime) : string :=
  (PyStr.zero_padded 2 (hour dt) ++ ":" ++ PyStr.zero_padded 2 (minute dt) ++ ":"
   ++ PyStr.zero_padded 2 (second dt))%string.

End Clock.

(* ================================================================== *)
(** ** Tasks *)

(** The dataclass [DownloadTask], field by field.  [filepath] is
    [Optional[str]]; [eta] and [speed] hold whatever the engine reports. *)
Record DownloadTask := mkTask {
  url : string;
  output_dir : string;
  format_mode : string;
  audio_codec : string;
  subtitle_lang : string;
  proxy : string;
  playlist_limit : Z;
  filename_template : string;
  embed_subtitles : bool;
  embed_metadata : bool;
  keep_thumbnails : bool;
  simulate : bool;
  id : Z;
  filepath : option string;
  rate_limit : float;
  start_time : string;
  end_time : string;
  tags : list string;
  notes : string;
  priority : Z;
  quality_filter : string;
  quality_label : string;
  status : string;
  progress : number;
  eta : pyval;
  speed : pyval;
  message : string;
  created_at : string;
  last_update : string
}.

(** Attribute assignment, one function per attribute the program assigns. *)
Definition set_status (t : DownloadTask) (v : string) : DownloadTask :=
  {| url := url t;
     output_dir := output_dir t;
     format_mode := format_mode t;
     audio_codec := audio_codec t;
     subtitle_lang := subtitle_lang t;
     proxy := proxy t;
     playlist_limit := playlist_limit t;
     filename_template := filename_template t;
     embed_subtitles := embed_subtitles t;
     embed_metadata := embed_metadata t;
     keep_thumbnails := keep_thumbnails t;
     simulate := simulate t;
     id := id t;
     filepath := filepath t;
     rate_limit := rate_limit t;
     start_time := start_time t;
     end_time := end_time t;
     tags := tags t;
     notes := notes t;
     priority := priority t;
     quality_filter := quality_filter t;
     quality_label := quality_label t;
     status := v;
     progress := progress t;
     eta := eta t;
     speed := speed t;
     message := message t;
     created_at := created_at t;
     last_update := last_update t |}.

Definition set_progress (t : DownloadTask) (v : number) : DownloadTask :=
  {| url := url t;
     output_dir := output_dir t;
     format_mode := format_mode t;
     audio_codec := audio_codec t;
     subtitle_lang := subtitle_lang t;
     proxy := proxy t;
     playlist_limit := playlist_limit t;
     filename_template := filename_template t;
     embed_subtitles := embed_subtitles t;
     embed_metadata := embed_metadata t;
     keep_thumbnails := keep_thumbnails t;
     simulate := simulate t;
     id := id t;
     filepath := filepath t;
     rate_limit := rate_limit t;
     start_time := start_time t;
     end_time := end_time t;
     tags := tags t;
     notes := notes t;
     priority := priority t;
     quality_filter := quality_filter t;
     quality_label := quality_label t;
     status := status t;
     progress := v;
     eta := eta t;
     speed := speed t;
     message := message t;
     created_at := created_at t;
     last_update := last_update t |}.

Definition set_eta (t : DownloadTask) (v : pyval) : DownloadTask :=
  {| url := url t;
     output_dir := output_dir t;
     format_mode := format_mode t;
     audio_codec := audio_codec t;
     subtitle_lang := subtitle_lang t;
     proxy := proxy t;
     playlist_limit := playlist_limit t;
     filename_template := filename_template t;
     embed_subtitles := embed_subtitles t;
     embed_metadata := embed_metadata t;
     keep_thumbnails := keep_thumbnails t;
     simulate := simulate t;
     id := id t;
     filepath := filepath t;
     rate_limit := rate_limit t;
     start_time := start_time t;
     end_time := end_time t;
     tags := tags t;
     notes := notes t;
     priority := priority t;
     quality_filter := quality_filter t;
     quality_label := quality_label t;
     status := status t;
     progress := progress t;
     eta := v;
     speed := speed t;
     message := message t;
     created_at := created_at t;
     last_update := last_update t |}.

Definition set_speed (t : DownloadTask) (v : pyval) : DownloadTask :=
  {| url := url t;
     output_dir := output_dir t;
     format_mode := format_mode t;
     audio_codec := audio_codec t;
     subtitle_lang := subtitle_lang t;
     proxy := proxy t;
     playlist_limit := playlist_limit t;
     filename_template := filename_template t;
     embed_subtitles := embed_subtitles t;
     embed_metadata := embed_metadata t;
     keep_thumbnails := keep_thumbnails t;
     simulate := simulate t;
     id := id t;
     filepath := filepath t;
     rate_limit := rate_limit t;
     start_time := start_time t;
     end_time := end_time t;
     tags := tags t;
     notes := notes t;
     priority := priority t;
     quality_filter := quality_filter t;
     quality_label := quality_label t;
     status := status t;
     progress := progress t;
     eta := eta t;
     speed := v;
     message := message t;
     created_at := created_at t;
     last_update := last_update t |}.

Definition set_message (t : DownloadTask) (v : string) : DownloadTask :=
  {| url := url t;
     output_dir := output_dir t;
     format_mode := format_mode t;
     audio_codec := audio_codec t;
     subtitle_lang := subtitle_lang t;
     proxy := proxy t;
     playlist_limit := playlist_limit t;
     filename_template := filename_template t;
     embed_subtitles := embed_subtitles t;
     embed_metadata := embed_metadata t;
     keep_thumbnails := keep_thumbnails t;
     simulate := simulate t;
     id := id t;
     filepath := filepath t;
     rate_limit := rate_limit t;
     start_time := start_time t;
     end_time := end_time t;
     tags := tags t;
     notes := notes t;
     priority := priority t;
     quality_filter := quality_filter t;
     quality_label := quality_label t;
     status := status t;
     progress := progress t;
     eta := eta t;
     speed := speed t;
     message := v;
     created_at := created_at t;
     last_update := last_update t |}.

Definition set_filepath (t : DownloadTask) (v : option string) : DownloadTask :=
  {| url := url t;
     output_dir := output_dir t;
     format_mode := format_mode t;
     audio_codec := audio_codec t;
     subtitle_lang := subtitle_lang t;
     proxy := proxy t;
     playlist_limit := playlist_limit t;
     filename_template := filename_template t;
     embed_subtitles := embed_subtitles t;
     embed_metadata := embed_metadata t;
     keep_thumbnails := keep_thumbnails t;
     simulate := simulate t;
     id := id t;
     filepath := v;
     rate_limit := rate_limit t;
     start_time := start_time t;
     end_time := end_time t;
     tags := tags t;
     notes := notes t;
     priority := priority t;
     quality_filter := quality_filter t;
     quality_label := quality_label t;
     status := status t;
     progress := progress t;
     eta := eta t;
     speed := speed t;
     message := message t;
     created_at := created_at t;
     last_update := last_update t |}.

Definition set_last_update (t : DownloadTask) (v : string) : DownloadTask :=
  {| url := url t;
     output_dir := output_dir t;
     format_mode := format_mode t;
     audio_codec := audio_codec t;
     subtitle_lang := subtitle_lang t;
     proxy := proxy t;
     playlist_limit := playlist_limit t;
     filename_template := filename_template t;
     embed_subtitles := embed_subtitles t;
     embed_metadata := embed_metadata t;
     keep_thumbnails := keep_thumbnails t;
     simulate := simulate t;
     id := id t;
     filepath := filepath t;
     rate_limit := rate_limit t;
     start_time := start_time t;
     end_time := end_time t;
     tags := tags t;
     notes := notes t;
     priority := priority t;
     quality_filter := quality_filter t;
     quality_label := quality_label t;
     status := status t;
     progress := progress t;
     eta := eta t;
     speed := speed t;
     message := message t;
     created_at := created_at t;
     last_update := v |}.

(** The names [hasattr(task, key)] answers [True] for: the dataclass fields
    and the three methods (the names Python itself reserves, with two
    leading underscores, are left out). *)
Definition attribute_names : list string :=
  ["url"; "output_dir"; "format_mode"; "audio_codec"; "subtitle_lang"; "proxy";
   "playlist_limit"; "filename_template"; "embed_subtitles"; "embed_metadata";
   "keep_thumbnails"; "simulate"; "id"; "filepath"; "rate_limit"; "start_time";
   "end_time"; "tags"; "notes"; "priority"; "quality_filter"; "quality_label";
   "status"; "progress"; "eta"; "speed"; "message"; "created_at"; "last_update";
   "normalize_output"; "build_options"; "to_dict"]%string.

Definition hasattr_task (key : string) : bool :=
  existsb (String.eqb key) attribute_names.

(** One keyword argument of [update_task(task_id, **kwargs)]: the
    attributes the program passes, with values of the type each call site
    gives them, and [kw_other] for a keyword that names no attribute. *)
Inductive kwarg :=
| kw_status (v : string)
| kw_progress (v : number)
| kw_eta (v : pyval)
| kw_speed (v : pyval)
| kw_message (v : string)
| kw_filepath (v : string)
| kw_other (key : string) (v : pyval) (unknown : hasattr_task key = false).

Definition kw_key (kw : kwarg) : string :=
  match kw with
  | kw_status _ => "status"
  | kw_progress _ => "progress"
  | kw_eta _ => "eta"
  | kw_speed _ => "speed"
  | kw_message _ => "message"
  | kw_filepath _ => "filepath"
  | kw_other key _ _ => key
  end%string.

(** [setattr(task, key, value)] *)
Definition setattr_task (t : DownloadTask) (kw : kwarg) : DownloadTask :=
  match kw with
  | kw_status v => set_status t v
  | kw_progress v => set_progress t v
  | kw_eta v => set_eta t v
  | kw_speed v => set_speed t v
  | kw_message v => set_message t v
  | kw_filepath v => set_filepath t (Some v)
  | kw_other _ _ _ => t
  end.

(** The loop of [update_task] over [kwargs.items()]. *)
Fixpoint apply_kwargs (t : DownloadTask) (kwargs : list kwarg) : DownloadTask :=
  match kwargs with
  | [] => t
  | kw :: r =>
      apply_kwargs (if hasattr_task (kw_key kw) then setattr_task t kw else t) r
  end.

(* ================================================================== *)
(** ** Dictionaries and bounded sequences *)

Module Dict.
Section Dict.
Context {V : Type}.

(** [d.get(k)] *)
Fixpoint get (k : Z) (d : list (Z * V)) : option V :=
  match d with
  | [] => None
  | (k', v) :: r => if k' =? k then Some v else get k r
  end.

(** [k in d] *)
Definition mem (k : Z) (d : list (Z * V)) : bool :=
  match get k d with Some _ => true | None => false end.

(** [d[k] = v]: an existing key keeps its place, a new key goes last. *)
Fixpoint set (k : Z) (v : V) (d : list (Z * V)) : list (Z * V) :=
  match d with
  | [] => [(k, v)]
  | (k', v') :: r => if k' =? k then (k, v) :: r else (k', v') :: set k v r
  end.

(** [d.pop(k, None)] *)
Fixpoint pop (k : Z) (d : list (Z * V)) : list (Z * V) :=
  match d with
  | [] => []
  | (k', v') :: r => if k' =? k then r else (k', v') :: pop k r
  end.

Definition keys (d : list (Z * V)) : list Z := map fst d.
Definition values (d : list (Z * V)) : list V := map snd d.

End Dict.
End Dict.

(** [l.remove(x)]: the first occurrence goes. *)
Fixpoint list_remove (x : Z) (l : list Z) : list Z :=
  match l with
  | [] => []
  | y :: r => if y =? x then r else y :: list_remove x r
  end.

(** [x in l] *)
Definition list_mem (x : Z) (l : list Z) : bool := existsb (Z.eqb x) l.

(** [l[-n:]], the last [n] items. *)
Definition lastn {A} (n : nat) (l : list A) : list A :=
  skipn (List.length l - n)%nat l.

(** [append] on a [deque(maxlen=n)], and [(l + [x])[-n:]]. *)
Definition bounded_append {A} (n : nat) (l : list A) (x : A) : list A :=
  lastn n (l ++ [x]).

(* ================================================================== *)
(** ** The module state *)

Definition LOG_LIMIT : nat := 300.
Definition HISTORY_LIMIT : nat := 200.
Definition MAX_WORKERS : Z := 12.
Definition DEFAULT_CONCURRENCY : Z := 2.

(** One entry of the download history file. *)
Record HistoryRecord := {
  h_url : string;
  h_output : string;
  h_format : string;
  h_notes : string;
  h_tags : list string;
  h_quality : string;
  h_timestamp : string
}.

(** The module-level variables.  [task_counter] is the next value of
    [itertools.count(1)]; [history] is the content of the history file;
    [clock] counts the readings of the wall clock taken so far. *)
Record State := mkState {
  tasks : list (Z * DownloadTask);
  task_order : list Z;
  task_counter : Z;
  current_concurrency : Z;
  active_workers : Z;
  log_lines : list string;
  history : list HistoryRecord;
  clock : nat
}.

Definition set_tasks (s : State) (v : list (Z * DownloadTask)) : State :=
  {| tasks := v;
     task_order := task_order s;
     task_counter := task_counter s;
     current_concurrency := current_concurrency s;
     active_workers := active_workers s;
     log_lines := log_lines s;
     history := history s;
     clock := clock s |}.

Definition set_task_order (s : State) (v : list Z) : State :=
  {| tasks := tasks s;
     task_order := v;
     task_counter := task_counter s;
     current_concurrency := current_concurrency s;
     active_workers := active_workers s;
     log_lines := log_lines s;
     history := history s;
     clock := clock s |}.

Definition set_task_counter (s : State) (v : Z) : State :=
  {| tasks := tasks s;
     task_order := task_order s;
     task_counter := v;
     current_concurrency := current_concurrency s;
     active_workers := active_workers s;
     log_lines := log_lines s;
     history := history s;
     clock := clock s |}.

Definition set_current_concurrency (s : State) (v : Z) : State :=
  {| tasks := tasks s;
     task_order := task_order s;
     task_counter := task_counter s;
     current_concurrency := v;
     active_workers := active_workers s;
     log_lines := log_lines s;
     history := history s;
     clock := clock s |}.

Definition set_active_workers (s : State) (v : Z) : State :=
  {| tasks := tasks s;
     task_order := task_order s;
     task_counter := task_counter s;
     current_concurrency := current_concurrency s;
     active_workers := v;
     log_lines := log_lines s;
     history := history s;
     clock := clock s |}.

Definition set_log_lines (s : State) (v : list string) : State :=
  {| tasks := tasks s;
     task_order := task_order s;
     task_counter := task_counter s;
     current_concurrency := current_concurrency s;
     active_workers := active_workers s;
     log_lines := v;
     history := history s;
     clock := clock s |}.

Definition set_history (s : State) (v : list HistoryRecord) : State :=
  {| tasks := tasks s;
     task_order := task_order s;
     task_counter := task_counter s;
     current_concurrency := current_concurrency s;
     active_workers := active_workers s;
     log_lines := log_lines s;
     history := v;
     clock := clock s |}.

Definition set_clock (s : State) (v : nat) : State :=
  {| tasks := tasks s;
     task_order := task_order s;
     task_counter := task_counter s;
     current_concurrency := current_concurrency s;
     active_workers := active_workers s;
     log_lines := log_lines s;
     history := history s;
     clock := v |}.

Definition initial_state : State :=
  {| tasks := []; task_order := []; task_counter := 1;
     current_concurrency := DEFAULT_CONCURRENCY; active_workers := 0;
     log_lines := []; history := []; clock := O |}.

(* ================================================================== *)
(** ** [sorted] *)

(** Python's [sorted(xs, key=...)] is a stable sort; for a total order on
    the keys its result is the one stable arrangement, which insertion from
    the right computes: an item goes in front of the first item whose key
    is not smaller. *)
Section Sorted.
Context {A K : Type} (key : A -> K) (leb : K -> K -> bool).

Fixpoint insert_by (x : A) (l : list A) : list A :=
  match l with
  | [] => [x]
  | y :: r => if leb (key x) (key y) then x :: l else y :: insert_by x r
  end.

Fixpoint py_sorted (l : list A) : list A :=
  match l with
  | [] => []
  | x :: r => insert_by x (py_sorted r)
  end.

(** The order of the keys, on the items. *)
Definition key_le (x y : A) : Prop := leb (key x) (key y) = true.

End Sorted.

(** [<=] on the tuples [(int, str)]: first components first, then the
    strings by code points. *)
Definition key_leb (a b : Z * string) : bool :=
  if fst a <? fst b then true
  else if fst a =? fst b then String.leb (snd a) (snd b)
  else false.

(* ================================================================== *)
(** ** Requests and progress records *)

(** The JSON object posted to [/api/queue].  A key that is absent or
    [null] reads as [None]/[VNone]; the text fields are typed as text. *)
Record Payload := {
  p_urls : option string;
  p_output_dir : option string;
  p_format_mode : option string;
  p_audio_codec : option string;
  p_subtitle_lang : option string;
  p_proxy : option string;
  p_playlist_limit : pyval;
  p_filename_template : option string;
  p_embed_subtitles : pyval;
  p_embed_metadata : pyval;
  p_keep_thumbnails : pyval;
  p_simulate : pyval;
  p_rate_limit : pyval;
  p_start_time : option string;
  p_end_time : option string;
  p_tags : option string;
  p_notes : option string;
  p_priority : pyval;
  p_quality_filter : option string;
  p_quality_label : option string
}.

(** The progress record the engine hands to a progress hook: the keys
    [_progress_hook] reads.  [percent], [speed] and [eta] are free-form; the
    status text and the file names are text when present. *)
Record ProgressInfo := {
  i_percent : pyval;
  i_speed : pyval;
  i_eta : pyval;
  i_status : option string;
  i_filename : option string;
  i__filename : option string
}.

(** How [ydl.download] ends: it returns, or raises an [Exception] whose
    [str(exc)] is [msg]. *)
Inductive engine_outcome :=
| Returned
| Raised (msg : string).

(** How a call ends: it returns, or an exception leaves it. *)
Inductive completion :=
| Normal
| Propagated.

(* ================================================================== *)
(** ** The operations of server.py *)

Section Server.

(** The environment: the successive readings of [datetime.utcnow()], the
    install-dependent [DEFAULT_DOWNLOAD_DIR], and [float()] on text
    ([None] for ValueError). *)
Variable utcnow : nat -> datetime.
Variable DEFAULT_DOWNLOAD_DIR : string.
Variable float_of_str : string -> option float.

Definition read_clock (s : State) : datetime * State :=
  (utcnow (clock s), set_clock s (S (clock s))).

(** [append_log(message)] *)
Definition append_log (message : string) (s : State) : State :=
  let (dt, s1) := read_clock s in
  set_log_lines s1
    (bounded_append LOG_LIMIT (log_lines s1)
       ("[" ++ Clock.hms dt ++ "] " ++ message)%string).

(** [update_task(task_id, **kwargs)] *)
Definition update_task (task_id : Z) (kwargs : list kwarg) (s : State)
  : option DownloadTask * State :=
  match Dict.get task_id (tasks s) with
  | None => (None, s)
  | Some task =>
      let task1 := apply_kwargs task kwargs in
      let (dt, s1) := read_clock s in
      let task2 := set_last_update task1 (Clock.now_iso dt) in
      (Some task2, set_tasks s1 (Dict.set task_id task2 (tasks s1)))
  end.

(** [tid in tasks and tasks[tid].status == "Queued"] *)
Definition is_queued (s : State) (tid : Z) : bool :=
  match Dict.get tid (tasks s) with
  | Some t => (status t =? "Queued")%string
  | None => false
  end.

(** [lambda tid: (-tasks[tid].priority, tasks[tid].created_at)]; the ids it
    is applied to are ids of [tasks]. *)
Definition schedule_key (s : State) (tid : Z) : Z * string :=
  match Dict.get tid (tasks s) with
  | Some t => (- priority t, created_at t)
  | None => (0, EmptyString)
  end.

Definition queued_ids (s : State) : list Z :=
  py_sorted (schedule_key s) key_leb (filter (is_queued s) (task_order s)).

(** The [while] loop of [try_schedule_next]; the recursion is on
    [queued_ids], which loses its head at every turn. *)
Fixpoint schedule_loop (queued : list Z) (s : State) (to_start : list DownloadTask)
  : list DownloadTask * State :=
  match queued with
  | [] => (to_start, s)
  | tid :: rest =>
      if active_workers s <? current_concurrency s then
        match Dict.get tid (tasks s) with
        | Some task =>
            if (status task =? "Queued")%string then
              let (dt, s1) := read_clock s in
              let task' := set_last_update (set_status task "Scheduled") (Clock.now_iso dt) in
              let s2 := set_tasks s1 (Dict.set tid task' (tasks s1)) in
              let s3 := set_active_workers s2 (active_workers s2 + 1) in
              schedule_loop rest s3 (to_start ++ [task'])
            else schedule_loop rest s to_start
        | None => schedule_loop rest s to_start
        end
      else (to_start, s)
  end.

(** [try_schedule_next()], up to the release of the lock: the new state and
    [to_start], the tasks handed to the executor afterwards. *)
Definition try_schedule_next (s : State) : list DownloadTask * State :=
  schedule_loop (queued_ids s) s [].

(** [percent] as [_progress_hook] normalises it. *)
Definition pct_value (percent : pyval) : number :=
  match PyNum.as_number percent with
  | Some n => PyNum.round1 n
  | None => NFloat 0%float
  end.

(** [a or b] on two optional texts. *)
Definition first_truthy (a b : option string) : option string :=
  match a with
  | Some x => if PyStr.truthy x then a else b
  | None => b
  end.

Definition hook_kwargs (info : ProgressInfo) : list kwarg :=
  let status := PyStr.or_default (i_status info) "running" in
  let filename := first_truthy (i_filename info) (i__filename info) in
  [ kw_progress (pct_value (i_percent info));
    kw_status (PyStr.capitalize status);
    kw_eta (i_eta info);
    kw_speed (i_speed info);
    kw_message (PyStr.or_default filename status) ]
  ++ match filename with
     | Some f => if PyStr.truthy f then [kw_filepath f] else []
     | None => []
     end.

(** [_progress_hook(task_id, info)] *)
Definition _progress_hook (task_id : Z) (info : ProgressInfo) (s : State) : State :=
  snd (update_task task_id (hook_kwargs info) s).

(** [DownloadHistory.append(record)]: the file keeps the last 200 records
    (it is taken to be readable and writable). *)
Definition history_append (r : HistoryRecord) (s : State) : State :=
  set_history s (bounded_append HISTORY_LIMIT (history s) r).

(** The worker body [_run_task(task)], in the four stretches between which
    other threads may run. *)

(** From the entry to the call of the engine: the log line and the
    [Running] update. *)
Definition run_task_begin (task : DownloadTask) (s : State) : State :=
  let s1 := append_log ("Starting " ++ url task) s in
  snd (update_task (id task)
         [kw_status "Running"; kw_message "Preparing download";
          kw_progress (NFloat 0%float)] s1).

(** The [except] and [else] clauses. *)
Definition run_task_outcome (task : DownloadTask) (o : engine_outcome) (s : State)
  : State :=
  match o with
  | Raised msg =>
      let s1 := snd (update_task (id task) [kw_status "Failed"; kw_message msg] s) in
      append_log ("Failed " ++ url task ++ ": " ++ msg) s1
  | Returned =>
      let s1 := snd (update_task (id task)
                       [kw_status "Completed"; kw_message "Download finished";
                        kw_progress (NFloat 100%float)] s) in
      let (dt, s2) := read_clock s1 in
      let s3 := history_append
                  {| h_url := url task; h_output := output_dir task;
                     h_format := format_mode task; h_notes := notes task;
                     h_tags := tags task; h_quality := quality_filter task;
                     h_timestamp := Clock.now_iso dt |} s2 in
      append_log ("Finished " ++ url task) s3
  end.

(** The locked statement of the [finally] clause. *)
Definition release_worker (s : State) : State :=
  set_active_workers s (Z.max (active_workers s - 1) 0).

Definition run_hooks (task_id : Z) (hooks : list ProgressInfo) (s : State) : State :=
  fold_left (fun acc info => _progress_hook task_id info acc) hooks s.

(** [_run_task(task)] run without interruption.  [options_ok] tells whether
    [task.build_options()] returns (it creates the output directory and may
    raise); [hooks] are the progress records the engine delivers and [o] is
    how the engine ends.  The result holds the tasks the final admission
    pass hands to the executor. *)
Definition _run_task (task : DownloadTask) (options_ok : bool)
  (hooks : list ProgressInfo) (o : engine_outcome) (s : State)
  : completion * list DownloadTask * State :=
  let s1 := run_task_begin task s in
  if options_ok then
    let s2 := run_hooks (id task) hooks s1 in
    let s3 := run_task_outcome task o s2 in
    let s4 := release_worker s3 in
    let (to_start, s5) := try_schedule_next s4 in
    (Normal, to_start, s5)
  else (Propagated, [], s1).

(** [float(v)]; [None] stands for ValueError, TypeError or OverflowError. *)
Definition py_float (v : pyval) : option float :=
  match v with
  | VNone => None
  | VBool b => Some (if b then 1%float else 0%float)
  | VInt z => PyNum.float_of_Z z
  | VFloat f => Some f
  | VStr t => float_of_str t
  end.

(** [[x.strip() for x in xs if x.strip()]] *)
Definition stripped_nonempty (xs : list string) : list string :=
  map PyStr.strip (filter (fun x => PyStr.truthy (PyStr.strip x)) xs).

(** The body of the [for url in urls] loop of [queue_tasks]: the two
    default factories read the clock for [created_at] and [last_update]. *)
Definition new_task (template : DownloadTask) (u : string) (s : State)
  : DownloadTask * State :=
  let tid := task_counter s in
  let s0 := set_task_counter s (tid + 1) in
  let (dt1, s1) := read_clock s0 in
  let (dt2, s2) := read_clock s1 in
  let task :=
    {| url := u; output_dir := output_dir template;
       format_mode := format_mode template; audio_codec := audio_codec template;
       subtitle_lang := subtitle_lang template; proxy := proxy template;
       playlist_limit := playlist_limit template;
       filename_template := filename_template template;
       embed_subtitles := embed_subtitles template;
       embed_metadata := embed_metadata template;
       keep_thumbnails := keep_thumbnails template; simulate := simulate template;
       id := tid; filepath := None; rate_limit := rate_limit template;
       start_time := start_time template; end_time := end_time template;
       tags := tags template; notes := notes template;
       priority := priority template; quality_filter := quality_filter template;
       quality_label := quality_label template;
       status := "Queued"; progress := NFloat 0%float; eta := VNone; speed := VNone;
       message := "Queued";
       created_at := Clock.now_iso dt1; last_update := Clock.now_iso dt2 |} in
  let s3 := set_tasks s2 (Dict.set tid task (tasks s2)) in
  let s4 := set_task_order s3 (task_order s3 ++ [tid]) in
  (task, append_log ("Queued " ++ u) s4).

Fixpoint queue_loop (template : DownloadTask) (urls : list string) (s : State)
  (created : list DownloadTask) : list DownloadTask * State :=
  match urls with
  | [] => (created, s)
  | u :: r =>
      let (task, s') := new_task template u s in
      queue_loop template r s' (created ++ [task])
  end.

(** The request fields of [queue_tasks] after the defaults and conversions;
    [None] when [int()] or [float()] raises.  The runtime fields of the
    result are not used. *)
Definition request_template (payload : Payload) : option DownloadTask :=
  match PyNum.py_int (PyNum.or_default (p_playlist_limit payload) (VInt 0)),
        py_float (PyNum.or_default (p_rate_limit payload) (VFloat 0%float)),
        PyNum.py_int (PyNum.or_default (p_priority payload) (VInt 3)) with
  | Some limit, Some rate, Some priority_val =>
      Some
        {| url := EmptyString;
           output_dir := PyStr.or_default (p_output_dir payload) DEFAULT_DOWNLOAD_DIR;
           format_mode := PyStr.or_default (p_format_mode payload) "Smart (best combined)";
           audio_codec := PyStr.or_default (p_audio_codec payload) "mp3";
           subtitle_lang := PyStr.or_default (p_subtitle_lang payload) "";
           proxy := PyStr.or_default (p_proxy payload) "";
           playlist_limit := limit;
           filename_template :=
             PyStr.or_default (p_filename_template payload) "%(title)s.%(ext)s";
           embed_subtitles := PyNum.truthy (p_embed_subtitles payload);
           embed_metadata := PyNum.truthy (p_embed_metadata payload);
           keep_thumbnails := PyNum.truthy (p_keep_thumbnails payload);
           simulate := PyNum.truthy (p_simulate payload);
           id := 0; filepath := None; rate_limit := rate;
           start_time := PyStr.or_default (p_start_time payload) "";
           end_time := PyStr.or_default (p_end_time payload) "";
           tags := stripped_nonempty
                     (PyStr.split ","%char (PyStr.or_default (p_tags payload) ""));
           notes := PyStr.or_default (p_notes payload) "";
           priority := Z.max 1 (Z.min priority_val 10);
           quality_filter := PyStr.or_default (p_quality_filter payload) "best";
           quality_label := PyStr.or_default (p_quality_label payload) "Auto (best)";
           status := "Queued"; progress := NFloat 0%float; eta := VNone;
           speed := VNone; message := "Queued";
           created_at := EmptyString; last_update := EmptyString |}
  | _, _, _ => None
  end.

(** [queue_tasks(payload)]: the created tasks and the new state, or [None]
    when a conversion raises (before anything is changed). *)
Definition queue_tasks (payload : Payload) (s : State)
  : option (list DownloadTask * State) :=
  let urls := stripped_nonempty
                (PyStr.splitlines (PyStr.or_default (p_urls payload) "")) in
  match urls with
  | [] => Some ([], s)
  | _ =>
      match request_template payload with
      | Some template => Some (queue_loop template urls s [])
      | None => None
      end
  end.

(** [task.status in ("Completed", "Failed")] *)
Definition is_terminal (t : DownloadTask) : bool :=
  ((status t =? "Completed") || (status t =? "Failed"))%string.

Fixpoint clear_loop (to_remove : list Z) (s : State) (removed : Z) : Z * State :=
  match to_remove with
  | [] => (removed, s)
  | tid :: r =>
      let s1 := set_tasks s (Dict.pop tid (tasks s)) in
      let s2 := if list_mem tid (task_order s1)
                then set_task_order s1 (list_remove tid (task_order s1))
                else s1 in
      clear_loop r s2 (removed + 1)
  end.

(** [clear_completed_tasks()] *)
Definition clear_completed_tasks (s : State) : Z * State :=
  let to_remove :=
    map fst (filter (fun kv => is_terminal (snd kv)) (tasks s)) in
  let (removed, s1) := clear_loop to_remove s 0 in
  if removed =? 0 then (removed, s1)
  else (removed,
        append_log ("Cleared " ++ PyStr.of_Z removed ++ " finished task(s)") s1).

(** [set_concurrency(value)] *)
Definition set_concurrency (value : Z) (s : State) : State :=
  let s1 := set_current_concurrency s (Z.max 1 (Z.min value MAX_WORKERS)) in
  append_log ("Concurrency tuned to " ++ PyStr.of_Z (current_concurrency s1)) s1.

(** The handler of [POST /api/queue] up to its response. *)
Definition api_add_to_queue (payload : Payload) (s : State)
  : option (list DownloadTask * list DownloadTask * State) :=
  match queue_tasks payload s with
  | Some (created, s1) =>
      let (to_start, s2) := try_schedule_next s1 in
      Some (created, to_start, s2)
  | None => None
  end.

(** The handler of [POST /api/start]: [concurrency] is the posted value
    ([None] when the key is absent, which reads [current_concurrency]); the
    result is [None] when [int()] raises. *)
Definition api_start_queue (concurrency : option pyval) (s : State)
  : option (list DownloadTask * State) :=
  match PyNum.py_int (match concurrency with
                      | Some v => v
                      | None => VInt (current_concurrency s)
                      end) with
  | Some n => Some (try_schedule_next (set_concurrency n s))
  | None => None
  end.

(** [[tasks[tid] for tid in task_order if tid in tasks]], the display order
    of [/api/status]. *)
Definition ordered_tasks (s : State) : list DownloadTask :=
  flat_map (fun tid => match Dict.get tid (tasks s) with
                       | Some t => [t]
                       | None => []
                       end) (task_order s).

(** The dictionary [gather_insights] returns. *)
Record Insights := {
  queued : Z;
  scheduled : Z;
  running : Z;
  completed : Z;
  failed : Z;
  avg_progress : float
}.

(** [Counter(...).get(name, 0)] *)
Definition count_status (name : string) (snapshot : list DownloadTask) : Z :=
  Z.of_nat (List.length (filter (fun t => (status t =? name)%string) snapshot)).

(** [gather_insights()]; [None] stands for the OverflowError that the sum or
    the division of integer progress values beyond the float range raises. *)
Definition gather_insights (s : State) : option Insights :=
  let snapshot := Dict.values (tasks s) in
  let total := List.length snapshot in
  let avg :=
    match total with
    | O => Some 0%float
    | S _ =>
        match PyNum.sum (map progress snapshot) with
        | Some sm => PyNum.truediv sm (Pos.of_nat total)
        | None => None
        end
    end in
  match avg with
  | Some a =>
      Some {| queued := count_status "Queued" snapshot;
              scheduled := count_status "Scheduled" snapshot;
              running := count_status "Running" snapshot;
              completed := count_status "Completed" snapshot;
              failed := count_status "Failed" snapshot;
              avg_progress := PyNum.float_round1 a |}
  | None => None
  end.

(* ------------------------------------------------------------------ *)
(** *** The threads *)

(** Where a worker thread stands in [_run_task]. *)
Inductive phase :=
| Submitted      (* handed to the executor, [_run_task] not yet entered *)
| Downloading    (* inside [ydl.download] *)
| Finishing      (* past the [except]/[else] clause, before [finally] *)
| Releasing.     (* [active_workers] decremented, before [try_schedule_next] *)

Definition phase_eqb (a b : phase) : bool :=
  match a, b with
  | Submitted, Submitted | Downloading, Downloading
  | Finishing, Finishing | Releasing, Releasing => true
  | _, _ => false
  end.

(** A worker thread: the task object it was given and where it stands. *)
Record Worker := { w_task : DownloadTask; w_phase : phase }.

(** The whole system: the module state and the threads of the executor. *)
Record System := { st : State; pool : list Worker }.

Definition initial_system : System := {| st := initial_state; pool := [] |}.

Definition matches (tid : Z) (ph : phase) (w : Worker) : bool :=
  (id (w_task w) =? tid) && phase_eqb (w_phase w) ph.

(** The first worker of [tid] in phase [ph]. *)
Definition find_worker (tid : Z) (ph : phase) (p : list Worker) : option Worker :=
  find (matches tid ph) p.

(** That worker moves to phase [ph']. *)
Fixpoint move_worker (tid : Z) (ph ph' : phase) (p : list Worker) : list Worker :=
  match p with
  | [] => []
  | w :: r =>
      if matches tid ph w then {| w_task := w_task w; w_phase := ph' |} :: r
      else w :: move_worker tid ph ph' r
  end.

(** That worker ends. *)
Fixpoint drop_worker (tid : Z) (ph : phase) (p : list Worker) : list Worker :=
  match p with
  | [] => []
  | w :: r => if matches tid ph w then r else w :: drop_worker tid ph r
  end.

Definition submit_all (to_start : list DownloadTask) (p : list Worker) : list Worker :=
  p ++ map (fun t => {| w_task := t; w_phase := Submitted |}) to_start.

(** What can happen next: a request arrives, or a worker thread runs its
    next stretch. *)
Inductive event :=
| EvQueue (payload : Payload)          (* [queue_tasks] of a request *)
| EvSchedule                           (* [try_schedule_next] of a request *)
| EvSetConcurrency (value : Z)         (* [set_concurrency] of a request *)
| EvClear                              (* [clear_completed_tasks] *)
| EvBegin (tid : Z) (options_ok : bool)
| EvProgress (tid : Z) (info : ProgressInfo)
| EvEngineDone (tid : Z) (o : engine_outcome)
| EvRelease (tid : Z)
| EvReschedule (tid : Z).

(** One atomic transition; [None] when the event cannot happen now. *)
Definition step (ev : event) (sys : System) : option System :=
  let s := st sys in
  let p := pool sys in
  match ev with
  | EvQueue payload =>
      match queue_tasks payload s with
      | Some (_, s') => Some {| st := s'; pool := p |}
      | None => Some sys
      end
  | EvSchedule =>
      let (to_start, s') := try_schedule_next s in
      Some {| st := s'; pool := submit_all to_start p |}
  | EvSetConcurrency value =>
      Some {| st := set_concurrency value s; pool := p |}
  | EvClear =>
      Some {| st := snd (clear_completed_tasks s); pool := p |}
  | EvBegin tid options_ok =>
      match find_worker tid Submitted p with
      | Some w =>
          Some {| st := run_task_begin (w_task w) s;
                  pool := if options_ok
                          then move_worker tid Submitted Downloading p
                          else drop_worker tid Submitted p |}
      | None => None
      end
  | EvProgress tid info =>
      match find_worker tid Downloading p with
      | Some w => Some {| st := _progress_hook (id (w_task w)) info s; pool := p |}
      | None => None
      end
  | EvEngineDone tid o =>
      match find_worker tid Downloading p with
      | Some w =>
          Some {| st := run_task_outcome (w_task w) o s;
                  pool := move_worker tid Downloading Finishing p |}
      | None => None
      end
  | EvRelease tid =>
      match find_worker tid Finishing p with
      | Some w =>
          Some {| st := release_worker s;
                  pool := move_worker tid Finishing Releasing p |}
      | None => None
      end
  | EvReschedule tid =>
      match find_worker tid Releasing p with
      | Some w =>
          let (to_start, s') := try_schedule_next s in
          Some {| st := s'; pool := submit_all to_start (drop_worker tid Releasing p) |}
      | None => None
      end
  end.

(** A run: the events one after the other. *)
Fixpoint run (evs : list event) (sys : System) : option System :=
  match evs with
  | [] => Some sys
  | ev :: r =>
      match step ev sys with
      | Some sys' => run r sys'
      | None => None
      end
  end.

End Server.

(* ================================================================== *)
(** ** Engine options, views and the history file *)

(** [l[start:]] for an integer [start]; a negative [start] counts from the
    end. *)
Definition slice_from {A} (start : Z) (l : list A) : list A :=
  let n := Z.of_nat (List.length l) in
  let i := if start <? 0 then Z.max (start + n) 0 else Z.min start n in
  skipn (Z.to_nat i) l.

(** [DownloadHistory.tail(limit)]: [history[-limit:]] of the file's
    content. *)
Definition history_tail (limit : Z) (s : State) : list HistoryRecord :=
  slice_from (- limit) (history s).

(** The values of the options dictionary [build_options] fills.  A progress
    hook is [functools.partial(_progress_hook, task_id)], told by its
    [task_id]. *)
Inductive optval :=
| OBool (b : bool)
| OInt (z : Z)
| OStr (s : string)
| OList (l : list string)
| OPostprocessors (l : list (list (string * string)))
| OHooks (l : list Z).

(** A dictionary with text keys, in insertion order. *)
Module Opts.

Fixpoint get (k : string) (d : list (string * optval)) : option optval :=
  match d with
  | [] => None
  | (k', v) :: r => if (k' =? k)%string then Some v else get k r
  end.

(** [d[k] = v] *)
Fixpoint set (k : string) (v : optval) (d : list (string * optval))
  : list (string * optval) :=
  match d with
  | [] => [(k, v)]
  | (k', v') :: r =>
      if (k' =? k)%string then (k, v) :: r else (k', v') :: set k v r
  end.

(** [if c: d[k] = v] *)
Definition set_if (c : bool) (k : string) (v : optval) (d : list (string * optval))
  : list (string * optval) :=
  if c then set k v d else d.

(** [d.update({...})] *)
Definition update (kvs d : list (string * optval)) : list (string * optval) :=
  fold_left (fun acc kv => set (fst kv) (snd kv) acc) kvs d.

End Opts.

(** [bool(l)] for a list. *)
Definition list_truthy {A} (l : list A) : bool :=
  match l with [] => false | _ => true end.

(** [bool(x)] for a float: every float but the two zeros. *)
Definition float_truthy (x : float) : bool := negb (PrimFloat.eqb x 0%float).

(** The answer of [GET /download/<task_id>]. *)
Inductive response :=
| Abort404
| SendFile (path : string).

(** The dictionary [DownloadTask.to_dict] returns. *)
Record TaskView := {
  v_id : Z;
  v_url : string;
  v_format_mode : string;
  v_status : string;
  v_progress : number;
  v_eta : pyval;
  v_speed : pyval;
  v_message : string;
  v_created_at : string;
  v_last_update : string;
  v_output_dir : string;
  v_tags : list string;
  v_notes : string;
  v_priority : Z;
  v_rate_limit : float;
  v_quality_filter : string;
  v_quality_label : string;
  v_download_ready : bool
}.

(** The body of the answer of [GET /api/status] (the constant [presets]
    left out). *)
Record StatusView := {
  sv_tasks : list TaskView;
  sv_concurrency : Z;
  sv_active_workers : Z;
  sv_history : list HistoryRecord;
  sv_insights : Insights;
  sv_log : list string
}.

Section Files.

(** The environment of the methods that touch the file system:
    [os.path.join], whether [os.makedirs(target, exist_ok=True)] returns
    (it raises OSError otherwise), and [os.path.isfile]. *)
Variable DEFAULT_DOWNLOAD_DIR : string.
Variable path_join : string -> string -> string.
Variable makedirs : string -> bool.
Variable isfile : string -> bool.

(** [task.normalize_output()]; [None] when [os.makedirs] raises. *)
Definition normalize_output (t : DownloadTask) : option string :=
  let stripped := PyStr.strip (output_dir t) in
  let target := if PyStr.truthy stripped then stripped else DEFAULT_DOWNLOAD_DIR in
  if makedirs target then Some target else None.

(** The [if]/[elif] chain on [format_mode]: the format string and the
    options it adds. *)
Definition preset_options (mode : string) (options : list (string * optval))
  : string * list (string * optval) :=
  if (mode =? "Smart (best combined)")%string then ("bv*+ba/b"%string, options)
  else if (mode =? "Video + Audio (muxed)")%string
  then ("bestvideo[ext=mp4]+bestaudio[ext=m4a]/best"%string, options)
  else if (mode =? "Audio only")%string then ("bestaudio"%string, options)
  else if (mode =? "Subtitle + metadata")%string
  then ("best"%string,
        Opts.update [("writesubtitles"%string, OBool true);
                     ("writeautomaticsub"%string, OBool true)] options)
  else if (mode =? "Playlist (flat)")%string
  then ("bestaudio/best"%string, Opts.set "flat_playlist" (OBool true) options)
  else ("best"%string, options).

(** Whether [quality_filter] replaces the preset's format string. *)
Definition quality_applies (t : DownloadTask) : bool :=
  PyStr.truthy (quality_filter t)
  && negb (quality_filter t =? "best")%string
  && negb ((format_mode t =? "Audio only")%string
           || (format_mode t =? "Playlist (flat)")%string).

(** [f"{start}-{end}" if end else f"{start}-"] *)
Definition section_marker (t : DownloadTask) : string :=
  let start := if PyStr.truthy (start_time t) then start_time t else "00:00"%string in
  if PyStr.truthy (end_time t) then (start ++ "-" ++ end_time t)%string
  else (start ++ "-")%string.

(** [task.build_options()]; [None] when [os.makedirs] raises or when
    [int(self.rate_limit * 1024)] does (NaN and the infinities). *)
Definition build_options (t : DownloadTask) : option (list (string * optval)) :=
  match normalize_output t with
  | None => None
  | Some resolved_dir =>
      let options :=
        [("outtmpl"%string,
          OStr (path_join resolved_dir
                  (if PyStr.truthy (filename_template t) then filename_template t
                   else "%(title)s.%(ext)s"%string)));
         ("nopart"%string, OBool true);
         ("noplaylist"%string, OBool false);
         ("restrictfilenames"%string, OBool true);
         ("simulate"%string, OBool (simulate t));
         ("progress_hooks"%string, OHooks [])] in
      let (format_string, options) := preset_options (format_mode t) options in
      let final_format :=
        if quality_applies t then quality_filter t else format_string in
      let options := Opts.set "format" (OStr final_format) options in
      let options :=
        Opts.set_if
          (PyStr.truthy (audio_codec t) && (format_mode t =? "Audio only")%string)
          "postprocessors"
          (OPostprocessors
             [[("key", "FFmpegExtractAudio");
               ("preferredcodec", audio_codec t);
               ("preferredquality", "192")]%string]) options in
      let options :=
        Opts.set_if (embed_subtitles t) "embedsubtitles" (OBool true) options in
      let options :=
        Opts.set_if (embed_metadata t) "addmetadata" (OBool true) options in
      let options :=
        Opts.set_if (keep_thumbnails t) "writethumbnail" (OBool true) options in
      let options :=
        if PyStr.truthy (subtitle_lang t) then
          let languages :=
            stripped_nonempty (PyStr.split ","%char (subtitle_lang t)) in
          Opts.set_if (list_truthy languages) "subtitleslangs" (OList languages)
            options
        else options in
      let options :=
        Opts.set_if (PyStr.truthy (proxy t)) "proxy" (OStr (PyStr.strip (proxy t)))
          options in
      match (if float_truthy (rate_limit t) then
               match PyNum.int_of_float (PrimFloat.mul (rate_limit t) 1024%float) with
               | Some z => Some (Opts.set "ratelimit" (OInt z) options)
               | None => None
               end
             else Some options) with
      | None => None
      | Some options =>
          let sections :=
            if PyStr.truthy (start_time t) || PyStr.truthy (end_time t)
            then [section_marker t] else [] in
          let options :=
            Opts.set_if (list_truthy sections) "download_sections" (OList sections)
              options in
          let options :=
            Opts.set_if (0 <? playlist_limit t) "max_downloads"
              (OInt (playlist_limit t)) options in
          Some options
      end
  end.

(** Whether [task.build_options()] returns, as [_run_task] and the event
    [EvBegin] take it. *)
Definition options_ok_for (t : DownloadTask) : bool :=
  match build_options t with Some _ => true | None => false end.

(** [task.to_dict()] *)
Definition to_dict (t : DownloadTask) : TaskView :=
  {| v_id := id t; v_url := url t; v_format_mode := format_mode t;
     v_status := status t; v_progress := PyNum.round1 (progress t);
     v_eta := eta t; v_speed := speed t; v_message := message t;
     v_created_at := created_at t; v_last_update := last_update t;
     v_output_dir := output_dir t; v_tags := tags t; v_notes := notes t;
     v_priority := priority t; v_rate_limit := rate_limit t;
     v_quality_filter := quality_filter t; v_quality_label := quality_label t;
     v_download_ready :=
       match filepath t with
       | Some f => PyStr.truthy f && (status t =? "Completed")%string && isfile f
       | None => false
       end |}.

(** [download_task_file(task_id)] *)
Definition download_task_file (task_id : Z) (s : State) : response :=
  match Dict.get task_id (tasks s) with
  | None => Abort404
  | Some task =>
      if negb (status task =? "Completed")%string then Abort404
      else match filepath task with
           | None => Abort404
           | Some f =>
               if negb (PyStr.truthy f) then Abort404
               else if isfile f then SendFile f else Abort404
           end
  end.

(** The answer of [POST /api/queue], for a handler that runs without
    interruption: [created] holds the task objects of the registry, so
    [to_dict] reads them as the admission pass has left them. *)
Definition api_add_to_queue_answer (utcnow : nat -> datetime)
  (float_of_str : string -> option float) (payload : Payload) (s : State)
  : option (list TaskView * Z * State) :=
  match api_add_to_queue utcnow DEFAULT_DOWNLOAD_DIR float_of_str payload s with
  | Some (created, _, s2) =>
      Some (map to_dict
              (flat_map (fun t => match Dict.get (id t) (tasks s2) with
                                  | Some t' => [t']
                                  | None => []
                                  end) created),
            Z.of_nat (List.length created), s2)
  | None => None
  end.

(** [api_status()], taken at one moment; [None] when [gather_insights]
    raises. *)
Definition api_status (s : State) : option StatusView :=
  match gather_insights s with
  | Some ins =>
      Some {| sv_tasks := map to_dict (ordered_tasks s);
              sv_concurrency := current_concurrency s;
              sv_active_workers := active_workers s;
              sv_history := history_tail 12 s;
              sv_insights := ins;
              sv_log := log_lines s |}
  | None => None
  end.

End Files.

(* ================================================================== *)
(** ** The vocabulary of the properties *)

(** What [update_task] leaves alone. *)
Definition same_scheduler (s s' : State) : Prop :=
  task_order s' = task_order s /\ task_counter s' = task_counter s
  /\ current_concurrency s' = current_concurrency s
  /\ active_workers s' = active_workers s
  /\ log_lines s' = log_lines s /\ history s' = history s.

(** A dictionary has one entry per key. *)
Definition dict_wf {V} (d : list (Z * V)) : Prop := NoDup (Dict.keys d).

(** The entries [clear_completed_tasks] keeps. *)
Definition live (kv : Z * DownloadTask) : bool := negb (is_terminal (snd kv)).

(** [d.pop(k)] for every [k] of [ks], in turn. *)
Definition pop_all {V} (ks : list Z) (d : list (Z * V)) : list (Z * V) :=
  fold_left (fun acc k => Dict.pop k acc) ks d.

(** [l.remove(k)] for every [k] of [ks], in turn. *)
Definition remove_all (ks : list Z) (l : list Z) : list Z :=
  fold_left (fun acc k => list_remove k acc) ks l.

(** [[d[tid]] if tid in d else []] *)
Definition lookup_list (d : list (Z * DownloadTask)) (tid : Z) : list DownloadTask :=
  match Dict.get tid d with Some t => [t] | None => [] end.

(** The task [t] once admitted at the clock reading [stamp]. *)
Definition scheduled_from (t : DownloadTask) (stamp : string) : DownloadTask :=
  set_last_update (set_status t "Scheduled") stamp.

(** What an admission pass leaves alone. *)
Definition same_frame (s s' : State) : Prop :=
  task_order s' = task_order s /\ task_counter s' = task_counter s
  /\ current_concurrency s' = current_concurrency s
  /\ log_lines s' = log_lines s /\ history s' = history s.

(** [(tid, t')] was admitted from [s] to [s']: the task at [tid] was
    Queued and is now [t'], the same task marked Scheduled. *)
Definition admitted_entry (s s' : State) (e : Z * DownloadTask) : Prop :=
  exists t stamp,
    Dict.get (fst e) (tasks s) = Some t /\ status t = "Queued"%string
    /\ snd e = scheduled_from t stamp
    /\ Dict.get (fst e) (tasks s') = Some (snd e).



(** The phases in which a worker has yet to write the final status. *)
Definition active_phase (ph : phase) : bool :=
  match ph with
  | Submitted | Downloading => true
  | _ => false
  end.

(** The status text [_progress_hook] stores. *)
Definition hook_status (info : ProgressInfo) : string :=
  PyStr.capitalize (PyStr.or_default (i_status info) "running").

(** The engine reports no status text that reads, once capitalised, as one
    of the scheduler's own [Queued], [Completed] and [Failed]. *)
Definition engine_text_ok (info : ProgressInfo) : Prop :=
  hook_status info <> "Queued"%string
  /\ hook_status info <> "Completed"%string
  /\ hook_status info <> "Failed"%string.

(** The same, of the progress record an event carries. *)
Definition event_ok (ev : event) : Prop :=
  match ev with
  | EvProgress _ info => engine_text_ok info
  | _ => True
  end.

(** What the registry holds for a worker that has not finished. *)
Definition worker_ok (s : State) (w : Worker) : Prop :=
  match w_phase w with
  | Submitted =>
      exists t, Dict.get (id (w_task w)) (tasks s) = Some t
                /\ status t = "Scheduled"%string
  | Downloading =>
      exists t, Dict.get (id (w_task w)) (tasks s) = Some t
                /\ status t <> "Queued"%string /\ is_terminal t = false
  | _ => True
  end.

(** No two unfinished workers have the same task. *)
Fixpoint uniq_active (p : list Worker) : Prop :=
  match p with
  | [] => True
  | w :: r =>
      (active_phase (w_phase w) = true ->
       forall w', In w' r -> active_phase (w_phase w') = true ->
                  id (w_task w') <> id (w_task w))
      /\ uniq_active r
  end.

(** The invariant of the system. *)
Record Inv (sys : System) : Prop := {
  inv_wf : dict_wf (tasks (st sys));
  inv_id : forall k t, Dict.get k (tasks (st sys)) = Some t -> id t = k;
  inv_fresh : forall k t, Dict.get k (tasks (st sys)) = Some t ->
                          k < task_counter (st sys);
  inv_pool : Forall (worker_ok (st sys)) (pool sys);
  inv_uniq : uniq_active (pool sys)
}.

(** The change of status [a] to [b] that the event [ev] may make at the
    task [tid]. *)
Definition status_step (ev : event) (tid : Z) (a b : string) : Prop :=
  a = b
  \/ (a = "Queued"%string /\ b = "Scheduled"%string
      /\ (ev = EvSchedule \/ exists k, ev = EvReschedule k))
  \/ (a = "Scheduled"%string /\ b = "Running"%string
      /\ exists ok, ev = EvBegin tid ok)
  \/ (exists info, ev = EvProgress tid info
        /\ a <> "Queued"%string /\ a <> "Completed"%string /\ a <> "Failed"%string
        /\ b = hook_status info)
  \/ (exists o, ev = EvEngineDone tid o
        /\ a <> "Queued"%string /\ a <> "Completed"%string /\ a <> "Failed"%string
        /\ b = match o with
               | Returned => "Completed"
               | Raised _ => "Failed"
               end%string).

(** Every task of the registry stays, with its status changed as
    [status_step] allows and unchanged altogether when it was finished, or
    is finished and goes with [clear_completed_tasks]. *)
Definition kept_or_cleared (ev : event) (s s' : State) : Prop :=
  forall tid t, Dict.get tid (tasks s) = Some t ->
    (exists t', Dict.get tid (tasks s') = Some t'
                /\ status_step ev tid (status t) (status t')
                /\ (is_terminal t = true -> t' = t))
    \/ (ev = EvClear /\ is_terminal t = true /\ Dict.get tid (tasks s') = None).

(** A task that enters the registry is Queued, comes from a submission and
    has an id that was never used. *)
Definition born_queued (ev : event) (s s' : State) : Prop :=
  forall tid t', Dict.get tid (tasks s) = None -> Dict.get tid (tasks s') = Some t' ->
    status t' = "Queued"%string /\ (exists payload, ev = EvQueue payload)
    /\ task_counter s <= tid.

(** The thread [executor.submit(_run_task, t)] creates. *)
Definition new_worker (t : DownloadTask) : Worker :=
  {| w_task := t; w_phase := Submitted |}.

(** [a] stands somewhere before [b] in [l]. *)
Fixpoint before {A} (a b : A) (l : list A) : Prop :=
  match l with
  | [] => False
  | x :: r => (x = a /\ In b r) \/ before a b r
  end.

(** The order sequence holds every id once, and only ids already given out. *)
Definition order_ok (s : State) : Prop :=
  NoDup (task_order s)
  /\ forall tid, In tid (task_order s) -> tid < task_counter s.

(** No live worker holds the task [tid]. *)
Definition no_worker_of (tid : Z) (p : list Worker) : Prop :=
  forall w, In w p -> active_phase (w_phase w) = true -> id (w_task w) <> tid.

(** What a request fixes of a task: every field but the seven the program
    assigns afterwards ([status], [progress], [eta], [speed], [message],
    [filepath], [last_update]). *)
Definition request_of (t : DownloadTask) :=
  (url t, output_dir t, format_mode t, audio_codec t, subtitle_lang t, proxy t,
   playlist_limit t, filename_template t, embed_subtitles t, embed_metadata t,
   keep_thumbnails t, simulate t, id t, rate_limit t, start_time t, end_time t,
   tags t, notes t, priority t, quality_filter t, quality_label t, created_at t).

(** A reading whose fields fit the widths [isoformat] prints them on. *)
Definition printable (dt : datetime) : Prop :=
  (year dt < 10000 /\ month dt < 100 /\ day dt < 100 /\ hour dt < 100
   /\ minute dt < 100 /\ second dt < 100 /\ microsecond dt < 1000000)%N.

(** The fields of a reading, the most significant first. *)
Definition chrono (dt : datetime) : list N :=
  [year dt; month dt; day dt; hour dt; minute dt; second dt; microsecond dt].

(** The order of time: the first field that differs decides. *)
Fixpoint lex_compare (a b : list N) : comparison :=
  match a, b with
  | [], [] => Eq
  | [], _ :: _ => Lt
  | _ :: _, [] => Gt
  | x :: a', y :: b' =>
      match (x ?= y)%N with
      | Eq => lex_compare a' b'
      | c => c
      end
  end.

(** The texts of the first [n] readings of the clock are in order. *)
Definition stamps_ordered (utcnow : nat -> datetime) (n : nat) : Prop :=
  forall i j, (i < j)%nat -> (j < n)%nat ->
    String.leb (Clock.now_iso (utcnow i)) (Clock.now_iso (utcnow j)) = true.

(** Every task was stamped by a reading of the clock already taken, and of
    two tasks the one that comes first in the order sequence by the earlier
    reading. *)
Definition stamped (utcnow : nat -> datetime) (s : State) : Prop :=
  (forall a ta, Dict.get a (tasks s) = Some ta ->
     exists i, (i < clock s)%nat /\ created_at ta = Clock.now_iso (utcnow i))
  /\ (forall a b ta tb,
        before a b (task_order s) ->
        Dict.get a (tasks s) = Some ta -> Dict.get b (tasks s) = Some tb ->
        exists i j, (i < j)%nat /\ (j < clock s)%nat
                    /\ created_at ta = Clock.now_iso (utcnow i)
                    /\ created_at tb = Clock.now_iso (utcnow j)).

(** A worker that has not yet run the locked statement of its [finally]
    clause. *)
Definition busy (w : Worker) : bool := negb (phase_eqb (w_phase w) Releasing).

(** The start of a worker at which [build_options] raises. *)
Definition failed_start (ev : event) : bool :=
  match ev with
  | EvBegin _ false => true
  | _ => false
  end.

(* ================================================================== *)
(** ** A concrete environment *)

(** A wall clock that starts [start] microseconds after 2024-01-01 12:00:00
    and advances by one microsecond per reading. *)
Definition tick_clock (start : N) (n : nat) : datetime :=
  let us := (start + N.of_nat n)%N in
  {| year := 2024; month := 1; day := 1; hour := 12;
     minute := ((us / 60000000) mod 60)%N;
     second := ((us / 1000000) mod 60)%N;
     microsecond := (us mod 1000000)%N |}.

(** No text is a float. *)
Definition no_float_text (t : string) : option float := None.

(** A payload that sets [urls] and [priority] only. *)
Definition payload_of (urls : string) (prio : pyval) : Payload :=
  {| p_urls := Some urls; p_output_dir := None; p_format_mode := None;
     p_audio_codec := None; p_subtitle_lang := None; p_proxy := None;
     p_playlist_limit := VNone; p_filename_template := None;
     p_embed_subtitles := VNone; p_embed_metadata := VNone;
     p_keep_thumbnails := VNone; p_simulate := VNone; p_rate_limit := VNone;
     p_start_time := None; p_end_time := None; p_tags := None; p_notes := None;
     p_priority := prio; p_quality_filter := None; p_quality_label := None |}.

(** A task with the given id, priority, status and creation stamp. *)
Definition sample_task (tid prio : Z) (stat created : string) : DownloadTask :=
  {| url := "https://example.org/v"; output_dir := "/srv/downloads";
     format_mode := "Smart (best combined)"; audio_codec := "mp3";
     subtitle_lang := ""; proxy := ""; playlist_limit := 0;
     filename_template := "%(title)s.%(ext)s"; embed_subtitles := false;
     embed_metadata := false; keep_thumbnails := false; simulate := false;
     id := tid; filepath := None; rate_limit := 0%float; start_time := "";
     end_time := ""; tags := []; notes := ""; priority := prio;
     quality_filter := "best"; quality_label := "Auto (best)";
     status := stat; progress := NFloat 0%float; eta := VNone; speed := VNone;
     message := stat; created_at := created; last_update := created |}.

(** A state whose registry holds the given tasks, in that order. *)
Definition state_of (ts : list DownloadTask) (limit active : Z) : State :=
  {| tasks := map (fun t => (id t, t)) ts; task_order := map id ts;
     task_counter := 1 + fold_right Z.max 0 (map id ts);
     current_concurrency := limit; active_workers := active;
     log_lines := []; history := []; clock := O |}.

(** A progress record with a percentage, a status text and a file name. *)
Definition info_of (percent : pyval) (stat fname : option string) : ProgressInfo :=
  {| i_percent := percent; i_speed := VNone; i_eta := VNone;
     i_status := stat; i_filename := fname; i__filename := None |}.

(** The text of a line feed. *)
Definition LF : string := String (ascii_of_N 10) EmptyString.



(** One job from submission to the end of its download, with two progress
    records on the way. *)
Definition lifecycle_run : list event :=
  [EvQueue (payload_of "https://a" VNone); EvSchedule; EvBegin 1 true;
   EvProgress 1 (info_of (VFloat 40%float) (Some "downloading"%string) None);
   EvProgress 1 (info_of (VFloat 100%float) (Some "finished"%string)
                   (Some "/srv/downloads/a.mp4"%string));
   EvEngineDone 1 Returned].

(** The system after the events [evs], from the start. *)
Definition run_from_start (evs : list event) : System :=
  match run (tick_clock 1) "/srv/downloads" no_float_text evs initial_system with
  | Some sys => sys
  | None => initial_system
  end.

(** Four URLs are queued under the limit 1; the first job runs to its end
    and is cleared. *)
Definition cleared_run : list event :=
  [EvSetConcurrency 1;
   EvQueue (payload_of ("https://a" ++ LF ++ "https://b" ++ LF ++ "https://c"
                        ++ LF ++ "https://d") VNone);
   EvSchedule; EvBegin 1 true; EvEngineDone 1 Returned; EvRelease 1;
   EvReschedule 1; EvClear].

(** A request for one URL with white space around it, and three tags of
    which one is blank. *)
Definition tagged_payload : Payload :=
  {| p_urls := Some ("  https://a  " ++ LF)%string; p_output_dir := None;
     p_format_mode := None; p_audio_codec := None; p_subtitle_lang := None;
     p_proxy := None; p_playlist_limit := VNone; p_filename_template := None;
     p_embed_subtitles := VNone; p_embed_metadata := VNone;
     p_keep_thumbnails := VNone; p_simulate := VNone; p_rate_limit := VNone;
     p_start_time := None; p_end_time := None;
     p_tags := Some " music, ,live set "%string; p_notes := None;
     p_priority := VNone; p_quality_filter := None; p_quality_label := None |}.

(** The task 1 of [sample_task] with the given rate limit. *)
Definition limited_task (rate : float) : DownloadTask :=
  {| url := "https://example.org/v"; output_dir := "/srv/downloads";
     format_mode := "Smart (best combined)"; audio_codec := "mp3";
     subtitle_lang := ""; proxy := ""; playlist_limit := 0;
     filename_template := "%(title)s.%(ext)s"; embed_subtitles := false;
     embed_metadata := false; keep_thumbnails := false; simulate := false;
     id := 1; filepath := None; rate_limit := rate; start_time := "";
     end_time := ""; tags := []; notes := ""; priority := 3;
     quality_filter := "best"; quality_label := "Auto (best)";
     status := "Queued"; progress := NFloat 0%float; eta := VNone; speed := VNone;
     message := "Queued"; created_at := "2024-01-01T12:00:00.000001Z";
     last_update := "2024-01-01T12:00:00.000001Z" |}.

(** After the failed start of job 1: the limit goes to 2, job 2 is
    admitted and runs to its end, and the finished jobs are cleared. *)
Definition after_failed_start : list event :=
  [EvSetConcurrency 2; EvSchedule; EvBegin 2 true; EvEngineDone 2 Returned;
   EvRelease 2; EvReschedule 2; EvClear].

(** An audio job with a quality filter, padded subtitle languages, a blank
    proxy, an end time and no start time, and a playlist limit. *)
Definition audio_task : DownloadTask :=
  {| url := "https://example.org/v"; output_dir := "  ";
     format_mode := "Audio only"; audio_codec := "opus";
     subtitle_lang := " en, ,de "; proxy := "  "; playlist_limit := 5;
     filename_template := ""; embed_subtitles := false;
     embed_metadata := true; keep_thumbnails := false; simulate := false;
     id := 1; filepath := None; rate_limit := 2.5%float; start_time := "";
     end_time := "01:30"; tags := []; notes := ""; priority := 3;
     quality_filter := "bestvideo[height<=720]+bestaudio/best";
     quality_label := "720p";
     status := "Scheduled"; progress := NFloat 0%float; eta := VNone; speed := VNone;
     message := "Queued"; created_at := "2024-01-01T12:00:00.000001Z";
     last_update := "2024-01-01T12:00:00.000001Z" |}.

(** A file system in which every directory can be made, with [/] between
    the parts of a path. *)
Definition posix_join (a b : string) : string := (a ++ "/" ++ b)%string.
Definition always (p : string) : bool := true.

(** Three URLs queued under the default limit 2. *)
Definition three_waiting : list event :=
  [EvQueue (payload_of ("https://a" ++ LF ++ "https://b" ++ LF ++ "https://c") VNone)].

(* ================================================================== *)
(** * Properties *)

Example strip_ex : PyStr.strip "  a b	 "%string = "a b"%string.
Proof. reflexivity. Qed.

Example splitlines_ex :
  PyStr.splitlines (String "a" (String (ascii_of_N 13) (String (ascii_of_N 10)
     (String (ascii_of_N 10) (String "b" (String (ascii_of_N 10) EmptyString))))))
  = ["a"; ""; "b"]%string.
Proof. reflexivity. Qed.

Example capitalize_ex : PyStr.capitalize "downLOADing"%string = "Downloading"%string.
Proof. reflexivity. Qed.

Example of_Z_ex : PyStr.of_Z 1200 = "1200"%string /\ PyStr.of_Z 0 = "0"%string
                  /\ PyStr.of_Z (-7) = "-7"%string.
Proof. repeat split; reflexivity. Qed.

Example float_round1_ex :
  PyNum.float_round1 45.678%float = 45.7%float
  /\ PyNum.float_round1 0.25%float = 0.2%float
  /\ PyNum.float_round1 0.35%float = 0.3%float
  /\ PyNum.float_round1 2.675%float = 2.7%float
  /\ PyNum.float_round1 100%float = 100%float
  /\ PyNum.float_round1 99.96%float = 100%float.
Proof. vm_compute. repeat split; reflexivity. Qed.

Example truediv_ex :
  PyNum.truediv (NFloat 150%float) 2 = Some 75%float
  /\ PyNum.truediv (NInt 1) 3 = Some 0.33333333333333331%float.
Proof. vm_compute. repeat split; reflexivity. Qed.

Example py_int_ex :
  PyNum.py_int (VStr " 12 ") = Some 12 /\ PyNum.py_int (VStr "1_0") = Some 10
  /\ PyNum.py_int (VStr "x") = None /\ PyNum.py_int (VFloat 3.7%float) = Some 3
  /\ PyNum.py_int (VStr "-4") = Some (-4).
Proof. vm_compute. repeat split; reflexivity. Qed.

Example now_iso_ex :
  Clock.now_iso {| year := 2024; month := 1; day := 2; hour := 3; minute := 4;
                   second := 5; microsecond := 67 |} = "2024-01-02T03:04:05.000067Z"%string
  /\ Clock.now_iso {| year := 2024; month := 1; day := 2; hour := 3; minute := 4;
                   second := 5; microsecond := 0 |} = "2024-01-02T03:04:05Z"%string.
Proof. split; reflexivity. Qed.

(* ------------------------------------------------------------------ *)
(** ** Dictionaries *)

Section DictFacts.
Context {V : Type}.
Implicit Types (d : list (Z * V)) (k : Z) (v : V).

Lemma get_set_same d k v : Dict.get k (Dict.set k v d) = Some v.
Proof.
  induction d as [|[k' v'] d IH]; simpl.
  - now rewrite Z.eqb_refl.
  - destruct (k' =? k) eqn:E; simpl.
    + now rewrite Z.eqb_refl.
    + now rewrite E.
Qed.

Lemma get_set_other d k k' v :
  k <> k' -> Dict.get k' (Dict.set k v d) = Dict.get k' d.
Proof.
  intros Hne. induction d as [|[k0 v0] d IH]; simpl.
  - destruct (k =? k') eqn:E; [apply Z.eqb_eq in E; contradiction | reflexivity].
  - destruct (k0 =? k) eqn:E; simpl.
    + apply Z.eqb_eq in E. subst k0.
      destruct (k =? k') eqn:E'; [apply Z.eqb_eq in E'; contradiction | reflexivity].
    + destruct (k0 =? k'); [reflexivity | exact IH].
Qed.

Lemma get_In d k v : Dict.get k d = Some v -> In (k, v) d.
Proof.
  induction d as [|[k0 v0] d IH]; simpl; [discriminate|].
  destruct (k0 =? k) eqn:E.
  - apply Z.eqb_eq in E. intros [= ->]. subst. now left.
  - intros H. right. auto.
Qed.

Lemma get_None_keys d k : Dict.get k d = None <-> ~ In k (Dict.keys d).
Proof.
  induction d as [|[k0 v0] d IH]; simpl.
  - tauto.
  - destruct (k0 =? k) eqn:E.
    + apply Z.eqb_eq in E. split; [discriminate | intros H; exfalso; apply H; now left].
    + apply Z.eqb_neq in E. rewrite IH. tauto.
Qed.

Lemma keys_set_present d k v v0 :
  Dict.get k d = Some v0 -> Dict.keys (Dict.set k v d) = Dict.keys d.
Proof.
  unfold Dict.keys. induction d as [|[k1 v1] d IH]; simpl; [discriminate|].
  destruct (k1 =? k) eqn:E; simpl.
  - apply Z.eqb_eq in E. now subst.
  - intros H. now rewrite IH.
Qed.

Lemma keys_set_absent d k v :
  Dict.get k d = None -> Dict.keys (Dict.set k v d) = Dict.keys d ++ [k].
Proof.
  unfold Dict.keys. induction d as [|[k1 v1] d IH]; simpl; [reflexivity|].
  destruct (k1 =? k) eqn:E; simpl; [discriminate|].
  intros H. now rewrite IH.
Qed.

End DictFacts.

(* ------------------------------------------------------------------ *)
(** ** update_task *)

Lemma apply_kwargs_known t kw r :
  hasattr_task (kw_key kw) = true ->
  apply_kwargs t (kw :: r) = apply_kwargs (setattr_task t kw) r.
Proof. intros H. simpl. now rewrite H. Qed.


Lemma apply_kwargs_app t k1 k2 :
  apply_kwargs t (k1 ++ k2) = apply_kwargs (apply_kwargs t k1) k2.
Proof. revert t. induction k1 as [|kw k1 IH]; intros t; simpl; [reflexivity | apply IH]. Qed.

Lemma update_task_absent utcnow tid kwargs s :
  Dict.get tid (tasks s) = None -> update_task utcnow tid kwargs s = (None, s).
Proof. intros H. unfold update_task. now rewrite H. Qed.

Lemma update_task_present utcnow tid kwargs s task :
  Dict.get tid (tasks s) = Some task ->
  let task' := set_last_update (apply_kwargs task kwargs)
                 (Clock.now_iso (utcnow (clock s))) in
  update_task utcnow tid kwargs s
  = (Some task',
     set_tasks (set_clock s (S (clock s))) (Dict.set tid task' (tasks s))).
Proof. intros H. unfold update_task. rewrite H. reflexivity. Qed.



(* ------------------------------------------------------------------ *)
(** ** The progress reporter *)

Lemma round_half_even_nearest n d :
  0 < d -> 2 * Z.abs (n - PyNum.round_half_even n d * d) <= d.
Proof.
  intros Hd. unfold PyNum.round_half_even.
  pose proof (Z.div_mod n d ltac:(lia)) as Hdm.
  pose proof (Z.mod_pos_bound n d Hd) as Hr.
  destruct (2 * (n mod d) <? d) eqn:E1.
  - apply Z.ltb_lt in E1. nia.
  - apply Z.ltb_ge in E1.
    destruct (d <? 2 * (n mod d)) eqn:E2.
    + apply Z.ltb_lt in E2. nia.
    + apply Z.ltb_ge in E2. destruct (Z.even (n / d)); nia.
Qed.

Lemma hook_kwargs_apply task info :
  let status_text := PyStr.or_default (i_status info) "running" in
  let filename := first_truthy (i_filename info) (i__filename info) in
  let task' := apply_kwargs task (hook_kwargs info) in
  progress task' = pct_value (i_percent info)
  /\ status task' = PyStr.capitalize status_text
  /\ eta task' = i_eta info
  /\ speed task' = i_speed info
  /\ message task' = PyStr.or_default filename status_text
  /\ filepath task' = match filename with
                      | Some f => if PyStr.truthy f then Some f else filepath task
                      | None => filepath task
                      end.
Proof.
  cbv zeta. unfold hook_kwargs.
  rewrite apply_kwargs_app.
  do 5 (rewrite apply_kwargs_known by reflexivity).
  cbn [apply_kwargs setattr_task].
  destruct (first_truthy (i_filename info) (i__filename info)) as [f|];
    [destruct (PyStr.truthy f)|];
    try (rewrite apply_kwargs_known by reflexivity);
    cbn; repeat split; reflexivity.
Qed.

(** C8, as the code has it.  [_progress_hook(task_id, info)] applies the
    normalised record through [update_task]: the stored percentage is
    [round(percent, 1)], whatever its size (an integer as it is; a float
    with a fractional part as the float nearest to k/10, k being the integer
    nearest to ten times its exact value, ties to even; no limit to a range
    is applied), and the float 0.0 when [percent] is missing or no number; the
    status is the capitalised status text (["running"] when there is none);
    the file name the record carries, when it carries one, goes to
    [filepath], and [last_update] is refreshed. *)
Theorem progress_hook_spec utcnow (tid : Z) (info : ProgressInfo) (s : State)
  (task : DownloadTask) :
  Dict.get tid (tasks s) = Some task ->
  let status_text := PyStr.or_default (i_status info) "running" in
  let filename := first_truthy (i_filename info) (i__filename info) in
  _progress_hook utcnow tid info s = snd (update_task utcnow tid (hook_kwargs info) s)
  /\ (exists task',
        Dict.get tid (tasks (_progress_hook utcnow tid info s)) = Some task'
        /\ progress task' = pct_value (i_percent info)
        /\ status task' = PyStr.capitalize status_text
        /\ eta task' = i_eta info
        /\ speed task' = i_speed info
        /\ message task' = PyStr.or_default filename status_text
        /\ filepath task' = match filename with
                            | Some f => if PyStr.truthy f then Some f else filepath task
                            | None => filepath task
                            end
        /\ last_update task' = Clock.now_iso (utcnow (clock s)))
  /\ (PyNum.as_number (i_percent info) = None ->
        pct_value (i_percent info) = NFloat 0%float)
  /\ (forall z, i_percent info = VInt z -> pct_value (i_percent info) = NInt z)
  /\ (forall x, i_percent info = VFloat x ->
        pct_value (i_percent info) = NFloat (PyNum.float_round1 x))
  /\ (forall x sign m e, Prim2SF x = S754_finite sign m e -> e < 0 ->
        let k := PyNum.round_half_even (10 * Zpos m) (2 ^ (- e)) in
        2 * Z.abs (10 * Zpos m - k * 2 ^ (- e)) <= 2 ^ (- e)
        /\ PyNum.float_round1 x
           = match k with
             | Zpos p =>
                 SF2Prim (SFdiv prec emax (S754_finite sign p 0)
                            (S754_finite false 10 0))
             | _ => if sign then (-0)%float else 0%float
             end).
Proof.
  intros Hget. cbv zeta.
  split; [reflexivity|].
  split.
  - unfold _progress_hook. rewrite (update_task_present _ _ _ _ _ Hget). cbn [snd].
    pose proof (hook_kwargs_apply task info) as H. cbv zeta in H.
    remember (apply_kwargs task (hook_kwargs info)) as updated eqn:E. clear E.
    destruct H as (H1 & H2 & H3 & H4 & H5 & H6).
    exists (set_last_update updated (Clock.now_iso (utcnow (clock s)))).
    split; [cbn; apply get_set_same|].
    cbn [progress status eta speed message filepath last_update set_last_update].
    split; [exact H1|]. split; [exact H2|]. split; [exact H3|].
    split; [exact H4|]. split; [exact H5|]. split; [exact H6|].
    reflexivity.
  - split; [intros H; unfold pct_value; now rewrite H|].
    split; [intros z H; unfold pct_value; now rewrite H|].
    split; [intros x H; unfold pct_value; now rewrite H|].
    intros x sign m e Hx He. split.
    + apply round_half_even_nearest. apply Z.pow_pos_nonneg; lia.
    + unfold PyNum.float_round1. rewrite Hx.
      destruct (0 <=? e) eqn:E; [apply Z.leb_le in E; lia | reflexivity].
Qed.

(** A record with 45.678 percent, the status text [downloading] and a file
    name, for a running task. *)
Lemma progress_hook_spec_witness :
  let s := state_of [sample_task 1 3 "Running" "2024-01-01T12:00:00.000001Z"] 2 1 in
  let info := info_of (VFloat 45.678%float) (Some "downloading"%string)
                (Some "/srv/downloads/a.mp4"%string) in
  exists task',
    Dict.get 1 (tasks (_progress_hook (tick_clock 9) 1 info s)) = Some task'
    /\ progress task' = NFloat 45.7%float
    /\ status task' = "Downloading"%string
    /\ filepath task' = Some "/srv/downloads/a.mp4"%string.
Proof.
  cbv zeta.
  pose proof (progress_hook_spec (tick_clock 9) 1
                (info_of (VFloat 45.678%float) (Some "downloading"%string)
                   (Some "/srv/downloads/a.mp4"%string))
                (state_of [sample_task 1 3 "Running" "2024-01-01T12:00:00.000001Z"] 2 1)
                _ eq_refl) as H.
  cbv zeta in H. destruct H as (_ & (task' & Hg & Hp & Hs & _ & _ & _ & Hf & _) & _).
  exists task'. split; [exact Hg|]. split; [|split].
  - rewrite Hp. vm_compute. reflexivity.
  - rewrite Hs. reflexivity.
  - rewrite Hf. reflexivity.
Defined.

(** C8 as stated fails in its "clamped": a percentage outside 0..100 is
    stored as it comes, 250.0 as 250.0 and -20 as -20. *)
Lemma progress_hook_no_clamp :
  let s := state_of [sample_task 1 3 "Running" "2024-01-01T12:00:00.000001Z"] 2 1 in
  (exists t,
     Dict.get 1 (tasks (_progress_hook (tick_clock 9) 1
                          (info_of (VFloat 250%float) (Some "downloading"%string) None) s))
     = Some t
     /\ progress t = NFloat 250%float
     /\ PrimFloat.ltb 100%float 250%float = true)
  /\ (exists t,
        Dict.get 1 (tasks (_progress_hook (tick_clock 9) 1
                             (info_of (VInt (-20)) (Some "downloading"%string) None) s))
        = Some t
        /\ progress t = NInt (-20)
        /\ -20 < 0).
Proof.
  cbv zeta. split.
  - eexists. split; [vm_compute; reflexivity|].
    split; vm_compute; reflexivity.
  - eexists. split; [vm_compute; reflexivity|].
    split; vm_compute; reflexivity.
Qed.

(* ------------------------------------------------------------------ *)
(** ** Submission *)

Lemma stripped_nonempty_nil xs :
  (forall x, In x xs -> PyStr.strip x = EmptyString) -> stripped_nonempty xs = [].
Proof.
  intros H. unfold stripped_nonempty.
  induction xs as [|x xs IH]; simpl; [reflexivity|].
  rewrite (H x (or_introl eq_refl)). simpl. apply IH.
  intros y Hy. apply H. now right.
Qed.

(** C9. [queue_tasks(payload)] on a payload whose [urls] is absent, empty, or
    made of lines that are all blank after [strip()]: the call returns the
    empty list without raising, and the state (registry, order sequence, id
    counter and the rest) is exactly the one it started from. *)
Theorem queue_tasks_blank utcnow download_dir float_of_str (payload : Payload)
  (s : State) :
  (forall line,
     In line (PyStr.splitlines (PyStr.or_default (p_urls payload) "")) ->
     PyStr.strip line = EmptyString) ->
  queue_tasks utcnow download_dir float_of_str payload s = Some ([], s).
Proof.
  intros H. unfold queue_tasks. now rewrite (stripped_nonempty_nil _ H).
Qed.

(** Three blank lines; the priority, which is no number, is not looked at. *)
Lemma queue_tasks_blank_witness :
  queue_tasks (tick_clock 0) "/srv/downloads" no_float_text
    (payload_of ("  " ++ LF ++ LF ++ "	 " ++ LF) (VStr "not a number"))
    initial_state
  = Some ([], initial_state).
Proof.
  apply queue_tasks_blank.
  intros line Hin. vm_compute in Hin.
  repeat (destruct Hin as [<- | Hin]; [reflexivity|]). contradiction.
Defined.

(* ------------------------------------------------------------------ *)
(** ** Insights *)

Lemma count_status_absent name snapshot :
  (forall t, In t snapshot -> status t <> name) -> count_status name snapshot = 0.
Proof.
  intros H. unfold count_status.
  induction snapshot as [|t r IH]; simpl; [reflexivity|].
  destruct (String.eqb_spec (status t) name) as [E|E].
  - exfalso. exact (H t (or_introl eq_refl) E).
  - apply IH. intros u Hu. apply H. now right.
Qed.

Lemma count_status_nonneg name snapshot : 0 <= count_status name snapshot.
Proof. unfold count_status. lia. Qed.

(** C10. [gather_insights()] on an empty registry returns (it does not
    divide by the job count): every count is 0 and [avg_progress] is 0.0;
    and whenever it returns, each of the five counts is the number of tasks
    with that status, hence 0 for a status no task has. *)
Theorem gather_insights_total (s : State) :
  (tasks s = [] ->
     gather_insights s
     = Some {| queued := 0; scheduled := 0; running := 0; completed := 0;
               failed := 0; avg_progress := 0%float |})
  /\ (forall ins, gather_insights s = Some ins ->
        queued ins = count_status "Queued" (Dict.values (tasks s))
        /\ scheduled ins = count_status "Scheduled" (Dict.values (tasks s))
        /\ running ins = count_status "Running" (Dict.values (tasks s))
        /\ completed ins = count_status "Completed" (Dict.values (tasks s))
        /\ failed ins = count_status "Failed" (Dict.values (tasks s)))
  /\ (forall name,
        (forall t, In t (Dict.values (tasks s)) -> status t <> name) ->
        count_status name (Dict.values (tasks s)) = 0).
Proof.
  split; [|split].
  - intros H. unfold gather_insights. rewrite H. reflexivity.
  - intros ins H. unfold gather_insights in H.
    destruct (List.length (Dict.values (tasks s))) eqn:El.
    + injection H as <-. repeat split.
    + destruct (PyNum.sum (map progress (Dict.values (tasks s)))) as [sm|];
        [|discriminate].
      destruct (PyNum.truediv sm _) as [a|]; [|discriminate].
      injection H as <-. repeat split.
  - intros name H. now apply count_status_absent.
Qed.

(** The empty registry, and one with a task at 50.0 and one at 100.0. *)
Lemma gather_insights_total_witness :
  gather_insights initial_state
  = Some {| queued := 0; scheduled := 0; running := 0; completed := 0;
            failed := 0; avg_progress := 0%float |}
  /\ gather_insights
       (state_of [set_progress (sample_task 1 3 "Running" "a") (NFloat 50%float);
                  set_progress (sample_task 2 3 "Completed" "b") (NFloat 100%float)] 2 1)
     = Some {| queued := 0; scheduled := 0; running := 1; completed := 1;
               failed := 0; avg_progress := 75%float |}.
Proof.
  split.
  - apply (proj1 (gather_insights_total initial_state)). reflexivity.
  - vm_compute. reflexivity.
Defined.

(* ------------------------------------------------------------------ *)
(** ** Clearing finished tasks *)

Lemma append_log_fields utcnow msg s :
  let s' := append_log utcnow msg s in
  tasks s' = tasks s /\ task_order s' = task_order s
  /\ task_counter s' = task_counter s
  /\ current_concurrency s' = current_concurrency s
  /\ active_workers s' = active_workers s /\ history s' = history s
  /\ log_lines s'
     = bounded_append LOG_LIMIT (log_lines s)
         ("[" ++ Clock.hms (utcnow (clock s)) ++ "] " ++ msg)%string
  /\ clock s' = S (clock s).
Proof. cbv zeta. unfold append_log, read_clock. cbn. repeat split. Qed.

Lemma list_remove_absent x l : list_mem x l = false -> list_remove x l = l.
Proof.
  unfold list_mem. induction l as [|y r IH]; simpl; [reflexivity|].
  rewrite (Z.eqb_sym x y). destruct (y =? x); simpl; [discriminate|].
  intros H. now rewrite IH.
Qed.

Lemma clear_loop_spec to_remove : forall s removed,
  let r := clear_loop to_remove s removed in
  fst r = removed + Z.of_nat (List.length to_remove)
  /\ tasks (snd r) = pop_all to_remove (tasks s)
  /\ task_order (snd r) = remove_all to_remove (task_order s)
  /\ task_counter (snd r) = task_counter s
  /\ current_concurrency (snd r) = current_concurrency s
  /\ active_workers (snd r) = active_workers s
  /\ log_lines (snd r) = log_lines s /\ history (snd r) = history s
  /\ clock (snd r) = clock s.
Proof.
  induction to_remove as [|tid rest IH]; intros s removed; cbv zeta.
  - simpl. repeat split. lia.
  - cbn [clear_loop].
    set (s1 := set_tasks s (Dict.pop tid (tasks s))).
    set (s2 := if list_mem tid (task_order s1)
               then set_task_order s1 (list_remove tid (task_order s1)) else s1).
    specialize (IH s2 (removed + 1)). cbv zeta in IH.
    destruct IH as (H1 & H2 & H3 & H4 & H5 & H6 & H7 & H8 & H9).
    assert (Ht : tasks s2 = Dict.pop tid (tasks s))
      by (unfold s2; destruct (list_mem tid (task_order s1)); reflexivity).
    assert (Ho : task_order s2 = list_remove tid (task_order s)).
    { unfold s2. destruct (list_mem tid (task_order s1)) eqn:E; cbn.
      - reflexivity.
      - symmetry. now apply list_remove_absent. }
    assert (Hrest : task_counter s2 = task_counter s
                    /\ current_concurrency s2 = current_concurrency s
                    /\ active_workers s2 = active_workers s
                    /\ log_lines s2 = log_lines s /\ history s2 = history s
                    /\ clock s2 = clock s)
      by (unfold s2; destruct (list_mem tid (task_order s1)); repeat split).
    destruct Hrest as (R1 & R2 & R3 & R4 & R5 & R6).
    rewrite H1, H2, H3, H4, H5, H6, H7, H8, H9, Ht, Ho.
    repeat split; try assumption. cbn [List.length]. lia.
Qed.

Lemma pop_absent {V} k (d : list (Z * V)) : ~ In k (Dict.keys d) -> Dict.pop k d = d.
Proof.
  induction d as [|[k0 v0] d IH]; simpl; [reflexivity|].
  intros H. destruct (k0 =? k) eqn:E.
  - apply Z.eqb_eq in E. exfalso. apply H. now left.
  - rewrite IH; [reflexivity | tauto].
Qed.

Lemma pop_all_cons_other {V} ks k (v : V) d :
  ~ In k ks -> pop_all ks ((k, v) :: d) = (k, v) :: pop_all ks d.
Proof.
  revert d. induction ks as [|k0 ks IH]; intros d H; [reflexivity|].
  unfold pop_all in *. simpl.
  destruct (k =? k0) eqn:E.
  - apply Z.eqb_eq in E. exfalso. apply H. now left.
  - apply IH. intros Hin. apply H. now right.
Qed.

Lemma keys_filter_incl {V} (P : Z * V -> bool) d k :
  In k (Dict.keys (filter P d)) -> In k (Dict.keys d).
Proof.
  unfold Dict.keys. rewrite !in_map_iff. intros [kv [E Hin]].
  apply filter_In in Hin. exists kv. tauto.
Qed.

Lemma pop_all_terminal (d : list (Z * DownloadTask)) :
  dict_wf d ->
  pop_all (map fst (filter (fun kv => is_terminal (snd kv)) d)) d = filter live d.
Proof.
  unfold dict_wf. induction d as [|[k t] d IH]; intros Hwf; [reflexivity|].
  inversion Hwf as [|? ? Hk Hwf']; subst.
  cbn [filter snd live]. unfold live at 1. cbn [snd].
  destruct (is_terminal t) eqn:E; cbn [negb map fst].
  - unfold pop_all. cbn [fold_left Dict.pop]. rewrite Z.eqb_refl. now apply IH.
  - rewrite pop_all_cons_other.
    + f_equal. now apply IH.
    + intros Hin. apply Hk. eapply keys_filter_incl. exact Hin.
Qed.

Lemma get_filter_live (d : list (Z * DownloadTask)) k :
  dict_wf d ->
  Dict.get k (filter live d)
  = match Dict.get k d with
    | Some t => if is_terminal t then None else Some t
    | None => None
    end.
Proof.
  unfold dict_wf. induction d as [|[k0 t] d IH]; intros Hwf; [reflexivity|].
  inversion Hwf as [|? ? Hk Hwf']; subst.
  cbn [filter Dict.get]. unfold live at 1. cbn [snd].
  destruct (k0 =? k) eqn:E.
  - apply Z.eqb_eq in E. subst k0.
    destruct (is_terminal t); cbn [negb Dict.get].
    + apply get_None_keys. intros Hin. apply Hk. eapply keys_filter_incl. exact Hin.
    + now rewrite Z.eqb_refl.
  - destruct (is_terminal t); cbn [negb Dict.get]; [|rewrite E]; now apply IH.
Qed.





Lemma clear_completed_tasks_fields utcnow s :
  let r := clear_completed_tasks utcnow s in
  let to_remove := map fst (filter (fun kv => is_terminal (snd kv)) (tasks s)) in
  fst r = Z.of_nat (List.length to_remove)
  /\ tasks (snd r) = pop_all to_remove (tasks s)
  /\ task_order (snd r) = remove_all to_remove (task_order s)
  /\ task_counter (snd r) = task_counter s
  /\ current_concurrency (snd r) = current_concurrency s
  /\ active_workers (snd r) = active_workers s
  /\ history (snd r) = history s.
Proof.
  cbv zeta. unfold clear_completed_tasks.
  pose proof (clear_loop_spec
                (map fst (filter (fun kv => is_terminal (snd kv)) (tasks s))) s 0) as H.
  cbv zeta in H.
  destruct (clear_loop _ s 0) as [removed s1]. cbn [fst snd] in H.
  destruct H as (H1 & H2 & H3 & H4 & H5 & H6 & H7 & H8 & H9).
  destruct (removed =? 0); cbn [fst snd].
  - repeat split; try assumption; lia.
  - pose proof (append_log_fields utcnow
        ("Cleared " ++ PyStr.of_Z removed ++ " finished task(s)")%string s1) as L.
    cbv zeta in L. destruct L as (L1 & L2 & L3 & L4 & L5 & L6 & _).
    rewrite L1, L2, L3, L4, L5, L6. repeat split; try assumption; lia.
Qed.



(* ------------------------------------------------------------------ *)
(** ** The admission pass *)

Lemma schedule_loop_spec utcnow queued : forall s acc,
  exists adm,
    fst (schedule_loop utcnow queued s acc) = acc ++ map snd adm
    /\ same_frame s (snd (schedule_loop utcnow queued s acc))
    /\ active_workers (snd (schedule_loop utcnow queued s acc))
       = active_workers s + Z.of_nat (List.length adm)
    /\ (adm <> [] ->
        active_workers (snd (schedule_loop utcnow queued s acc))
        <= current_concurrency s)
    /\ Dict.keys (tasks (snd (schedule_loop utcnow queued s acc)))
       = Dict.keys (tasks s)
    /\ (forall tid, ~ In tid (map fst adm) ->
          Dict.get tid (tasks (snd (schedule_loop utcnow queued s acc)))
          = Dict.get tid (tasks s))
    /\ Forall (fun e => In (fst e) queued
                        /\ admitted_entry s (snd (schedule_loop utcnow queued s acc)) e)
         adm
    /\ NoDup (map fst adm).
Proof.
  induction queued as [|tid rest IH]; intros s acc.
  - exists []. cbn. rewrite app_nil_r. repeat split; try lia; try constructor.
    intros H. now contradiction H.
  - cbn [schedule_loop].
    destruct (active_workers s <? current_concurrency s) eqn:Hcap.
    2:{ exists []. cbn. rewrite app_nil_r. repeat split; try lia; try constructor.
        intros H. now contradiction H. }
    apply Z.ltb_lt in Hcap.
    assert (Hskip :
      exists adm,
        fst (schedule_loop utcnow rest s acc) = acc ++ map snd adm
        /\ same_frame s (snd (schedule_loop utcnow rest s acc))
        /\ active_workers (snd (schedule_loop utcnow rest s acc))
           = active_workers s + Z.of_nat (List.length adm)
        /\ (adm <> [] ->
            active_workers (snd (schedule_loop utcnow rest s acc))
            <= current_concurrency s)
        /\ Dict.keys (tasks (snd (schedule_loop utcnow rest s acc)))
           = Dict.keys (tasks s)
        /\ (forall tid0, ~ In tid0 (map fst adm) ->
              Dict.get tid0 (tasks (snd (schedule_loop utcnow rest s acc)))
              = Dict.get tid0 (tasks s))
        /\ Forall (fun e => In (fst e) (tid :: rest)
                            /\ admitted_entry s (snd (schedule_loop utcnow rest s acc)) e)
             adm
        /\ NoDup (map fst adm)).
    { destruct (IH s acc) as (adm & H1 & H2 & H3 & H4 & H5 & H6 & H7 & H8).
      exists adm. do 6 (split; [assumption|]). split; [|assumption].
      eapply Forall_impl; [|exact H7]. intros e [Hin He]. split; [now right | exact He]. }
    destruct (Dict.get tid (tasks s)) as [task|] eqn:Hget; [|exact Hskip].
    destruct (String.eqb_spec (status task) "Queued") as [Hq|Hq]; [|exact Hskip].
    clear Hskip. cbn [read_clock].
    set (task' := set_last_update (set_status task "Scheduled")
                    (Clock.now_iso (utcnow (clock s)))).
    set (s3 := set_active_workers _ _).
    assert (Hg3 : forall k, k <> tid -> Dict.get k (tasks s3) = Dict.get k (tasks s))
      by (intros k Hk; cbn; apply get_set_other; congruence).
    assert (Ht3 : Dict.get tid (tasks s3) = Some task') by (cbn; apply get_set_same).
    destruct (IH s3 (acc ++ [task'])) as (adm & H1 & H2 & H3 & H4 & H5 & H6 & H7 & H8).
    assert (Hfresh : ~ In tid (map fst adm)).
    { intros Hin. apply in_map_iff in Hin. destruct Hin as [e [Ee Hin]].
      rewrite Forall_forall in H7. destruct (H7 e Hin) as [_ (t & stamp & G & Hs & _)].
      rewrite Ee, Ht3 in G. injection G as <-. cbn in Hs. discriminate. }
    exists ((tid, task') :: adm).
    split; [rewrite H1, <- app_assoc; reflexivity|].
    split; [destruct H2 as (A & B & C & D & E); repeat split; assumption|].
    split; [rewrite H3; cbn [List.length]; cbn; lia|].
    split.
    { intros _. destruct adm as [|e adm'].
      - rewrite H3. cbn. lia.
      - rewrite H4 by discriminate. cbn. lia. }
    split; [rewrite H5; cbn; eapply keys_set_present; exact Hget|].
    split.
    { intros k Hk. cbn [map fst] in Hk.
      rewrite H6 by (intros Hin; apply Hk; now right).
      apply Hg3. intros ->. apply Hk. now left. }
    split; [|constructor; assumption].
    constructor.
    + split; [now left|]. exists task, (Clock.now_iso (utcnow (clock s))).
      cbn [fst snd]. repeat split; try assumption.
      rewrite H6 by exact Hfresh. exact Ht3.
    + rewrite Forall_forall in H7 |- *. intros e Hin.
      destruct (H7 e Hin) as [Hr (t & stamp & G & Hs & Et & G')].
      split; [now right|]. exists t, stamp.
      repeat split; try assumption.
      rewrite <- G. symmetry. apply Hg3. intros E. apply Hfresh.
      apply in_map_iff. exists e. split; [exact E | exact Hin].
Qed.

Section SortedFacts.
Context {A K : Type} (key : A -> K) (leb : K -> K -> bool).

Lemma insert_by_perm x l : Permutation (x :: l) (insert_by key leb x l).
Proof.
  induction l as [|y r IH]; simpl; [apply Permutation_refl|].
  destruct (leb (key x) (key y)); [apply Permutation_refl|].
  eapply Permutation_trans; [apply perm_swap|]. now apply perm_skip.
Qed.

Lemma py_sorted_perm l : Permutation l (py_sorted key leb l).
Proof.
  induction l as [|x r IH]; simpl; [apply perm_nil|].
  eapply Permutation_trans; [apply perm_skip, IH | apply insert_by_perm].
Qed.

Lemma py_sorted_In x l : In x (py_sorted key leb l) <-> In x l.
Proof.
  split; intros H.
  - eapply Permutation_in; [apply Permutation_sym, py_sorted_perm | exact H].
  - eapply Permutation_in; [apply py_sorted_perm | exact H].
Qed.

End SortedFacts.

Lemma queued_ids_In s tid :
  In tid (queued_ids s) <-> In tid (task_order s) /\ is_queued s tid = true.
Proof. unfold queued_ids. rewrite py_sorted_In. apply filter_In. Qed.

Lemma is_queued_true s tid :
  is_queued s tid = true <->
  exists t, Dict.get tid (tasks s) = Some t /\ status t = "Queued"%string.
Proof.
  unfold is_queued. destruct (Dict.get tid (tasks s)) as [t|].
  - destruct (String.eqb_spec (status t) "Queued") as [E|E].
    + split; [intros _; now exists t | reflexivity].
    + split; [discriminate | intros (t' & [= <-] & Hs); contradiction].
  - split; [discriminate | intros (t' & [=] & _)].
Qed.

(** The admission pass: [adm] lists the admitted ids with the tasks handed
    to the executor. *)
Lemma try_schedule_next_spec utcnow s :
  exists adm,
    fst (try_schedule_next utcnow s) = map snd adm
    /\ same_frame s (snd (try_schedule_next utcnow s))
    /\ active_workers (snd (try_schedule_next utcnow s))
       = active_workers s + Z.of_nat (List.length adm)
    /\ (adm <> [] ->
        active_workers (snd (try_schedule_next utcnow s)) <= current_concurrency s)
    /\ Dict.keys (tasks (snd (try_schedule_next utcnow s))) = Dict.keys (tasks s)
    /\ (forall tid, ~ In tid (map fst adm) ->
          Dict.get tid (tasks (snd (try_schedule_next utcnow s)))
          = Dict.get tid (tasks s))
    /\ Forall (fun e => In (fst e) (task_order s)
                        /\ admitted_entry s (snd (try_schedule_next utcnow s)) e) adm
    /\ NoDup (map fst adm).
Proof.
  unfold try_schedule_next.
  destruct (schedule_loop_spec utcnow (queued_ids s) s [])
    as (adm & H1 & H2 & H3 & H4 & H5 & H6 & H7 & H8).
  exists adm. do 6 (split; [assumption|]). split; [|assumption].
  eapply Forall_impl; [|exact H7]. intros e [Hin He]. split; [|exact He].
  apply queued_ids_In in Hin. tauto.
Qed.

(** A task that is not Queued is not touched by a pass. *)
Lemma try_schedule_next_keeps utcnow s tid t :
  Dict.get tid (tasks s) = Some t -> status t <> "Queued"%string ->
  Dict.get tid (tasks (snd (try_schedule_next utcnow s))) = Some t.
Proof.
  intros G Hs.
  destruct (try_schedule_next_spec utcnow s) as (adm & _ & _ & _ & _ & _ & H6 & H7 & _).
  rewrite H6; [exact G|].
  intros Hin. apply in_map_iff in Hin. destruct Hin as [e [Ee Hin]].
  rewrite Forall_forall in H7. destruct (H7 e Hin) as [_ (t' & stamp & G' & Hq & _)].
  rewrite Ee, G in G'. injection G' as <-. contradiction.
Qed.

Lemma try_schedule_next_active utcnow s :
  active_workers s <= active_workers (snd (try_schedule_next utcnow s))
  /\ active_workers (snd (try_schedule_next utcnow s))
     <= Z.max (active_workers s) (current_concurrency s)
  /\ current_concurrency (snd (try_schedule_next utcnow s)) = current_concurrency s.
Proof.
  destruct (try_schedule_next_spec utcnow s) as (adm & _ & H2 & H3 & H4 & _).
  destruct H2 as (_ & _ & Hc & _).
  split; [lia|]. split; [|exact Hc].
  destruct adm as [|e adm']; [cbn in H3; lia|].
  specialize (H4 ltac:(discriminate)). lia.
Qed.


(* ------------------------------------------------------------------ *)
(** ** Concurrency tuning *)

Lemma set_concurrency_fields utcnow n s :
  let s' := set_concurrency utcnow n s in
  current_concurrency s' = Z.max 1 (Z.min n MAX_WORKERS)
  /\ tasks s' = tasks s /\ task_order s' = task_order s
  /\ task_counter s' = task_counter s
  /\ active_workers s' = active_workers s /\ history s' = history s
  /\ log_lines s'
     = bounded_append LOG_LIMIT (log_lines s)
         ("[" ++ Clock.hms (utcnow (clock s)) ++ "] Concurrency tuned to "
          ++ PyStr.of_Z (Z.max 1 (Z.min n MAX_WORKERS)))%string.
Proof. cbv zeta. unfold set_concurrency, append_log, read_clock. cbn. repeat split. Qed.



(* ------------------------------------------------------------------ *)
(** ** The worker *)

Lemma get_Some_keys {V} (d : list (Z * V)) k :
  In k (Dict.keys d) <-> exists v, Dict.get k d = Some v.
Proof.
  destruct (Dict.get k d) as [v|] eqn:G.
  - split; [intros _; now exists v|].
    intros _. apply get_In in G. unfold Dict.keys. apply in_map_iff.
    exists (k, v). tauto.
  - split; [intros H; apply get_None_keys in G; contradiction|].
    intros [v [=]].
Qed.

(** [update_task] changes the registry at [tid] only, and nothing else but
    the clock. *)
Lemma update_task_frame utcnow tid kwargs s :
  let s' := snd (update_task utcnow tid kwargs s) in
  Dict.keys (tasks s') = Dict.keys (tasks s)
  /\ (forall k, k <> tid -> Dict.get k (tasks s') = Dict.get k (tasks s))
  /\ same_scheduler s s'
  /\ (Dict.get tid (tasks s) = None -> s' = s)
  /\ (forall t, Dict.get tid (tasks s) = Some t ->
        Dict.get tid (tasks s')
        = Some (set_last_update (apply_kwargs t kwargs)
                  (Clock.now_iso (utcnow (clock s))))
        /\ clock s' = S (clock s)).
Proof.
  cbv zeta. destruct (Dict.get tid (tasks s)) as [t|] eqn:G.
  - rewrite (update_task_present _ _ _ _ _ G). cbn [snd].
    split; [cbn; eapply keys_set_present; exact G|].
    split; [intros k Hk; cbn; apply get_set_other; congruence|].
    split; [repeat split|].
    split; [discriminate|].
    intros t' [= <-]. split; [cbn; apply get_set_same | reflexivity].
  - rewrite (update_task_absent _ _ _ _ G). cbn [snd].
    split; [reflexivity|]. split; [reflexivity|]. split; [repeat split|].
    split; [reflexivity | discriminate].
Qed.

Lemma progress_hook_frame utcnow tid info s :
  Dict.keys (tasks (_progress_hook utcnow tid info s)) = Dict.keys (tasks s)
  /\ same_scheduler s (_progress_hook utcnow tid info s).
Proof.
  unfold _progress_hook.
  pose proof (update_task_frame utcnow tid (hook_kwargs info) s) as H. cbv zeta in H.
  tauto.
Qed.

Lemma same_scheduler_trans a b c :
  same_scheduler a b -> same_scheduler b c -> same_scheduler a c.
Proof.
  unfold same_scheduler. intros (A1 & A2 & A3 & A4 & A5 & A6) (B1 & B2 & B3 & B4 & B5 & B6).
  repeat split; congruence.
Qed.

Lemma run_hooks_frame utcnow tid hooks : forall s,
  Dict.keys (tasks (run_hooks utcnow tid hooks s)) = Dict.keys (tasks s)
  /\ same_scheduler s (run_hooks utcnow tid hooks s).
Proof.
  unfold run_hooks. induction hooks as [|info hooks IH]; intros s; cbn [fold_left].
  - split; [reflexivity | repeat split].
  - destruct (IH (_progress_hook utcnow tid info s)) as [K S].
    destruct (progress_hook_frame utcnow tid info s) as [K' S'].
    split; [congruence | eapply same_scheduler_trans; eassumption].
Qed.

Lemma run_task_begin_frame utcnow task s :
  Dict.keys (tasks (run_task_begin utcnow task s)) = Dict.keys (tasks s)
  /\ active_workers (run_task_begin utcnow task s) = active_workers s
  /\ current_concurrency (run_task_begin utcnow task s) = current_concurrency s
  /\ task_order (run_task_begin utcnow task s) = task_order s
  /\ task_counter (run_task_begin utcnow task s) = task_counter s.
Proof.
  unfold run_task_begin.
  match goal with |- context [update_task utcnow ?i ?k ?x] =>
    pose proof (update_task_frame utcnow i k x) as H end.
  cbv zeta in H. destruct H as (K & _ & (S1 & S2 & S3 & S4 & _) & _).
  pose proof (append_log_fields utcnow ("Starting " ++ url task)%string s) as L.
  cbv zeta in L. destruct L as (L1 & L2 & L3 & L4 & L5 & _).
  repeat split; congruence.
Qed.



(* ------------------------------------------------------------------ *)
(** ** Frames of the remaining operations *)

Lemma run_task_outcome_frame utcnow task o s :
  let s' := run_task_outcome utcnow task o s in
  Dict.keys (tasks s') = Dict.keys (tasks s)
  /\ (forall k, k <> id task -> Dict.get k (tasks s') = Dict.get k (tasks s))
  /\ task_order s' = task_order s /\ task_counter s' = task_counter s
  /\ current_concurrency s' = current_concurrency s
  /\ active_workers s' = active_workers s
  /\ (forall t, Dict.get (id task) (tasks s) = Some t ->
        exists t', Dict.get (id task) (tasks s') = Some t'
                   /\ id t' = id t
                   /\ status t' = match o with
                                  | Returned => "Completed"
                                  | Raised _ => "Failed"
                                  end%string).
Proof.
  cbv zeta. destruct o as [|msg]; cbn [run_task_outcome].
  - match goal with |- context [update_task utcnow ?i ?k ?x] =>
      pose proof (update_task_frame utcnow i k x) as U; cbv zeta in U;
      set (s1 := snd (update_task utcnow i k x)) in * end.
    destruct U as (K & G & (S1 & S2 & S3 & S4 & _) & _ & P).
    cbn [read_clock].
    match goal with |- context [append_log utcnow ?m ?x] =>
      pose proof (append_log_fields utcnow m x) as L; cbv zeta in L end.
    destruct L as (L1 & L2 & L3 & L4 & L5 & _).
    rewrite L1, L2, L3, L4, L5. cbn.
    repeat split; try assumption.
    intros t Gt. destruct (P t Gt) as [Pg _]. eexists. split; [exact Pg|].
    split; reflexivity.
  - match goal with |- context [update_task utcnow ?i ?k ?x] =>
      pose proof (update_task_frame utcnow i k x) as U; cbv zeta in U;
      set (s1 := snd (update_task utcnow i k x)) in * end.
    destruct U as (K & G & (S1 & S2 & S3 & S4 & _) & _ & P).
    match goal with |- context [append_log utcnow ?m ?x] =>
      pose proof (append_log_fields utcnow m x) as L; cbv zeta in L end.
    destruct L as (L1 & L2 & L3 & L4 & L5 & _).
    rewrite L1, L2, L3, L4, L5.
    repeat split; try assumption.
    intros t Gt. destruct (P t Gt) as [Pg _]. eexists. split; [exact Pg|].
    split; reflexivity.
Qed.

Lemma new_task_spec utcnow template u s :
  let r := new_task utcnow template u s in
  task_counter (snd r) = task_counter s + 1
  /\ current_concurrency (snd r) = current_concurrency s
  /\ active_workers (snd r) = active_workers s
  /\ task_order (snd r) = task_order s ++ [task_counter s]
  /\ tasks (snd r) = Dict.set (task_counter s) (fst r) (tasks s)
  /\ id (fst r) = task_counter s
  /\ status (fst r) = "Queued"%string
  /\ priority (fst r) = priority template
  /\ created_at (fst r) = Clock.now_iso (utcnow (clock s))
  /\ clock (snd r) = (clock s + 3)%nat.
Proof.
  cbv zeta. unfold new_task. cbn [read_clock]. cbn [fst snd].
  match goal with |- context [append_log utcnow ?m ?x] =>
    pose proof (append_log_fields utcnow m x) as L; cbv zeta in L end.
  destruct L as (L1 & L2 & L3 & L4 & L5 & _ & _ & L8).
  rewrite L1, L2, L3, L4, L5, L8. cbn. repeat split. lia.
Qed.

Lemma dict_wf_set {V} (d : list (Z * V)) k v : dict_wf d -> dict_wf (Dict.set k v d).
Proof.
  unfold dict_wf. intros H.
  destruct (Dict.get k d) as [v0|] eqn:G.
  - now rewrite (keys_set_present d k v v0 G).
  - rewrite (keys_set_absent d k v G).
    apply NoDup_app; [exact H | repeat constructor; intros [] |].
    intros x Hx [<-|[]]. apply get_None_keys in G. contradiction.
Qed.

Lemma queue_loop_spec utcnow template urls : forall s created,
  let r := queue_loop utcnow template urls s created in
  task_counter s <= task_counter (snd r)
  /\ current_concurrency (snd r) = current_concurrency s
  /\ active_workers (snd r) = active_workers s
  /\ (forall k, k < task_counter s ->
        Dict.get k (tasks (snd r)) = Dict.get k (tasks s))
  /\ (forall k t, Dict.get k (tasks (snd r)) = Some t ->
        Dict.get k (tasks s) = Some t
        \/ (task_counter s <= k < task_counter (snd r) /\ id t = k
            /\ status t = "Queued"%string))
  /\ (dict_wf (tasks s) -> dict_wf (tasks (snd r))).
Proof.
  induction urls as [|u urls IH]; intros s created; cbv zeta.
  - cbn. repeat split; try lia; auto.
  - cbn [queue_loop].
    pose proof (new_task_spec utcnow template u s) as N. cbv zeta in N.
    destruct (new_task utcnow template u s) as [task s1]. cbn [fst snd] in N.
    destruct N as (N1 & N2 & N3 & _ & N5 & N6 & N7 & _).
    specialize (IH s1 (created ++ [task])). cbv zeta in IH.
    destruct IH as (I1 & I2 & I3 & I4 & I5 & I6).
    split; [lia|]. split; [congruence|]. split; [congruence|].
    split.
    { intros k Hk. rewrite I4 by lia. rewrite N5. apply get_set_other. lia. }
    split.
    { intros k t G. destruct (I5 k t G) as [G1|(B & E & S)].
      - rewrite N5 in G1. destruct (Z.eq_dec k (task_counter s)) as [->|Hne].
        + rewrite get_set_same in G1. injection G1 as <-. right.
          repeat split; try assumption; lia.
        + rewrite get_set_other in G1 by congruence. now left.
      - right. repeat split; try assumption; lia. }
    intros W. apply I6. rewrite N5. now apply dict_wf_set.
Qed.

Lemma queue_tasks_spec utcnow dir fos payload s created s' :
  queue_tasks utcnow dir fos payload s = Some (created, s') ->
  task_counter s <= task_counter s'
  /\ current_concurrency s' = current_concurrency s
  /\ active_workers s' = active_workers s
  /\ (forall k, k < task_counter s -> Dict.get k (tasks s') = Dict.get k (tasks s))
  /\ (forall k t, Dict.get k (tasks s') = Some t ->
        Dict.get k (tasks s) = Some t
        \/ (task_counter s <= k < task_counter s' /\ id t = k
            /\ status t = "Queued"%string))
  /\ (dict_wf (tasks s) -> dict_wf (tasks s')).
Proof.
  unfold queue_tasks.
  destruct (stripped_nonempty _) as [|u urls].
  - intros [= <- <-]. repeat split; try lia; auto.
  - destruct (request_template dir fos payload) as [template|]; [|discriminate].
    intros H.
    assert (E : queue_loop utcnow template (u :: urls) s [] = (created, s'))
      by congruence.
    pose proof (queue_loop_spec utcnow template (u :: urls) s []) as Q. cbv zeta in Q.
    rewrite E in Q. exact Q.
Qed.

(* ------------------------------------------------------------------ *)
(** ** The worker count *)

(** What a transition does to the limit and to the worker count. *)
Lemma step_counts utcnow dir fos ev sys sys' :
  step utcnow dir fos ev sys = Some sys' ->
  let a := active_workers (st sys) in
  let a' := active_workers (st sys') in
  let l := current_concurrency (st sys) in
  let l' := current_concurrency (st sys') in
  match ev with
  | EvSetConcurrency n => l' = Z.max 1 (Z.min n MAX_WORKERS) /\ a' = a
  | EvSchedule | EvReschedule _ => l' = l /\ a <= a' <= Z.max a l
  | EvRelease _ => l' = l /\ a' = Z.max (a - 1) 0
  | _ => l' = l /\ a' = a
  end.
Proof.
  cbv zeta. destruct sys as [s p]. cbn [st pool].
  destruct ev as [payload| |n| |tid ok|tid info|tid o|tid|tid]; cbn [step st pool].
  - destruct (queue_tasks utcnow dir fos payload s) as [[created s1]|] eqn:Q.
    + intros [= <-]. cbn [st].
      destruct (queue_tasks_spec _ _ _ _ _ _ _ Q) as (_ & L & A & _). tauto.
    + intros [= <-]. tauto.
  - pose proof (try_schedule_next_active utcnow s) as (A1 & A2 & A3).
    destruct (try_schedule_next utcnow s) as [to_start s1]. cbn [snd] in *.
    intros [= <-]. cbn [st]. lia.
  - intros [= <-]. cbn [st].
    pose proof (set_concurrency_fields utcnow n s) as F. cbv zeta in F. tauto.
  - intros [= <-]. cbn [st].
    pose proof (clear_completed_tasks_fields utcnow s) as F. cbv zeta in F. tauto.
  - destruct (find_worker tid Submitted p) as [w|]; [|discriminate].
    intros [= <-]. cbn [st].
    pose proof (run_task_begin_frame utcnow (w_task w) s) as F. tauto.
  - destruct (find_worker tid Downloading p) as [w|]; [|discriminate].
    intros [= <-]. cbn [st].
    destruct (progress_hook_frame utcnow (id (w_task w)) info s)
      as (_ & _ & _ & L & A & _). tauto.
  - destruct (find_worker tid Downloading p) as [w|]; [|discriminate].
    intros [= <-]. cbn [st].
    pose proof (run_task_outcome_frame utcnow (w_task w) o s) as F. cbv zeta in F.
    tauto.
  - destruct (find_worker tid Finishing p) as [w|]; [|discriminate].
    intros [= <-]. cbn [st]. split; reflexivity.
  - destruct (find_worker tid Releasing p) as [w|]; [|discriminate].
    pose proof (try_schedule_next_active utcnow s) as (A1 & A2 & A3).
    destruct (try_schedule_next utcnow s) as [to_start s1]. cbn [snd] in *.
    intros [= <-]. cbn [st]. lia.
Qed.


Lemma step_keeps_ceiling utcnow dir fos ev sys sys' :
  step utcnow dir fos ev sys = Some sys' ->
  0 <= active_workers (st sys) <= MAX_WORKERS
  /\ 1 <= current_concurrency (st sys) <= MAX_WORKERS ->
  0 <= active_workers (st sys') <= MAX_WORKERS
  /\ 1 <= current_concurrency (st sys') <= MAX_WORKERS.
Proof.
  intros Hstep Hb.
  pose proof (step_counts utcnow dir fos ev sys sys' Hstep) as C. cbv zeta in C.
  unfold MAX_WORKERS in *. destruct ev; lia.
Qed.

Lemma run_keeps_ceiling utcnow dir fos evs : forall sys sys',
  run utcnow dir fos evs sys = Some sys' ->
  0 <= active_workers (st sys) <= MAX_WORKERS
  /\ 1 <= current_concurrency (st sys) <= MAX_WORKERS ->
  0 <= active_workers (st sys') <= MAX_WORKERS
  /\ 1 <= current_concurrency (st sys') <= MAX_WORKERS.
Proof.
  induction evs as [|ev evs IH]; intros sys sys'; cbn [run].
  - intros [= <-]. auto.
  - destruct (step utcnow dir fos ev sys) as [sys1|] eqn:E; [|discriminate].
    intros Hrun Hb. apply (IH sys1 sys' Hrun).
    eapply step_keeps_ceiling; eassumption.
Qed.





(* ------------------------------------------------------------------ *)
(** ** The status of a job *)

Lemma is_terminal_false t :
  is_terminal t = false <->
  status t <> "Completed"%string /\ status t <> "Failed"%string.
Proof.
  unfold is_terminal.
  destruct (String.eqb_spec (status t) "Completed"),
           (String.eqb_spec (status t) "Failed"); cbn; split; intros H;
    try discriminate; try tauto; split; assumption.
Qed.

Lemma is_terminal_true t :
  is_terminal t = true ->
  status t = "Completed"%string \/ status t = "Failed"%string.
Proof.
  unfold is_terminal.
  destruct (String.eqb_spec (status t) "Completed"),
           (String.eqb_spec (status t) "Failed"); cbn; intros H;
    try discriminate; tauto.
Qed.

Lemma is_terminal_not_queued t :
  is_terminal t = true -> status t <> "Queued"%string.
Proof.
  intros H E. apply is_terminal_true in H. rewrite E in H.
  destruct H as [H|H]; discriminate H.
Qed.

Lemma worker_ok_active s w :
  worker_ok s w -> active_phase (w_phase w) = true ->
  exists t, Dict.get (id (w_task w)) (tasks s) = Some t
            /\ status t <> "Queued"%string /\ is_terminal t = false.
Proof.
  unfold worker_ok. destruct (w_phase w); cbn; try discriminate.
  - intros (t & G & S) _. exists t. split; [exact G|]. rewrite is_terminal_false, S.
    repeat split; discriminate.
  - auto.
Qed.

(** A worker's record carries over when its task does. *)
Lemma worker_ok_transfer s s' w :
  worker_ok s w ->
  (forall t, Dict.get (id (w_task w)) (tasks s) = Some t ->
             Dict.get (id (w_task w)) (tasks s') = Some t) ->
  worker_ok s' w.
Proof.
  unfold worker_ok. intros H T. destruct (w_phase w); auto.
  - destruct H as (t & G & S). exists t. auto.
  - destruct H as (t & G & S). exists t. auto.
Qed.

Lemma find_worker_some tid ph p w :
  find_worker tid ph p = Some w ->
  In w p /\ id (w_task w) = tid /\ w_phase w = ph.
Proof.
  unfold find_worker. intros H. apply find_some in H. destruct H as [Hin Hm].
  unfold matches in Hm. apply andb_prop in Hm. destruct Hm as [Hi Hp].
  apply Z.eqb_eq in Hi. split; [exact Hin|]. split; [exact Hi|].
  destruct (w_phase w), ph; cbn in Hp; congruence.
Qed.

Lemma matches_true tid ph w :
  matches tid ph w = true <-> id (w_task w) = tid /\ w_phase w = ph.
Proof.
  unfold matches. rewrite andb_true_iff, Z.eqb_eq.
  destruct (w_phase w), ph; cbn; intuition congruence.
Qed.

Lemma In_move_worker tid ph ph' p w' :
  In w' (move_worker tid ph ph' p) ->
  In w' p
  \/ exists w, In w p /\ matches tid ph w = true
               /\ w' = {| w_task := w_task w; w_phase := ph' |}.
Proof.
  induction p as [|w0 r IH]; cbn; [tauto|].
  destruct (matches tid ph w0) eqn:M; cbn.
  - intros [<-|H]; [right; exists w0; tauto | tauto].
  - intros [<-|H]; [tauto|]. destruct (IH H) as [H'|(w & Hw & Mw & E)]; [tauto|].
    right. exists w. tauto.
Qed.

Lemma In_drop_worker tid ph p w' : In w' (drop_worker tid ph p) -> In w' p.
Proof.
  induction p as [|w0 r IH]; cbn; [tauto|].
  destruct (matches tid ph w0); cbn; [tauto|]. intros [<-|H]; tauto.
Qed.

Lemma uniq_active_drop tid ph p : uniq_active p -> uniq_active (drop_worker tid ph p).
Proof.
  induction p as [|w0 r IH]; cbn; [tauto|]. intros [H0 Hr].
  destruct (matches tid ph w0); cbn; [exact Hr|].
  split; [|now apply IH]. intros A w' Hin. apply H0; [exact A|].
  eapply In_drop_worker. exact Hin.
Qed.

Lemma uniq_active_move tid ph ph' p :
  (active_phase ph' = true -> active_phase ph = true) ->
  uniq_active p -> uniq_active (move_worker tid ph ph' p).
Proof.
  intros Hph. induction p as [|w0 r IH]; cbn; [tauto|]. intros [H0 Hr].
  destruct (matches tid ph w0) eqn:M; cbn.
  - split; [|exact Hr]. intros A. apply matches_true in M. destruct M as [_ M].
    apply H0. rewrite M. now apply Hph.
  - split; [|now apply IH]. intros A w' Hin A'.
    destruct (In_move_worker _ _ _ _ _ Hin) as [H|(w & Hw & Mw & ->)].
    + now apply H0.
    + cbn in *. apply matches_true in Mw. destruct Mw as [_ Mw].
      apply H0; [exact A | exact Hw |]. rewrite Mw. now apply Hph.
Qed.

Lemma uniq_active_app p q :
  uniq_active p -> uniq_active q ->
  (forall w w', In w p -> In w' q -> active_phase (w_phase w) = true ->
                active_phase (w_phase w') = true ->
                id (w_task w') <> id (w_task w)) ->
  uniq_active (p ++ q).
Proof.
  intros Hp Hq Hx. induction p as [|w0 r IH]; cbn; [exact Hq|].
  destruct Hp as [H0 Hr]. split.
  - intros A w' Hin A'. apply in_app_or in Hin. destruct Hin as [Hin|Hin].
    + now apply H0.
    + apply (Hx w0 w'); auto. now left.
  - apply IH; [exact Hr|]. intros w w' Hw. apply Hx. now right.
Qed.

(** The pool after a worker of [tid] in an unfinished phase has moved on (or
    stayed), when the registry changed at [tid] only. *)
Lemma pool_ok_move s s' tid ph ph' p w :
  uniq_active p -> Forall (worker_ok s) p ->
  find_worker tid ph p = Some w -> active_phase ph = true ->
  (forall w', worker_ok s w' ->
              (active_phase (w_phase w') = true -> id (w_task w') <> tid) ->
              worker_ok s' w') ->
  worker_ok s' {| w_task := w_task w; w_phase := ph' |} ->
  Forall (worker_ok s') (move_worker tid ph ph' p).
Proof.
  intros Hu Hf Hfind Hact Hother Hnew.
  induction p as [|w0 r IH]; [discriminate|].
  cbn in Hfind |- *. destruct Hu as [H0 Hr]. inversion Hf as [|? ? Hw0 Hfr]; subst.
  unfold find_worker in Hfind. cbn in Hfind.
  destruct (matches tid ph w0) eqn:M.
  - injection Hfind as <-. apply matches_true in M. destruct M as [Mi Mp].
    constructor; [exact Hnew|].
    rewrite Forall_forall in Hfr |- *. intros w' Hin.
    apply Hother; [now apply Hfr|]. intros A. rewrite <- Mi.
    apply H0; [rewrite Mp; exact Hact | exact Hin | exact A].
  - constructor; [|now apply IH].
    apply Hother; [exact Hw0|]. intros A E.
    destruct (find_worker_some _ _ _ _ Hfind) as (Hin & Hi & Hp).
    apply (H0 A w Hin); [rewrite Hp; exact Hact | congruence].
Qed.

Lemma pool_ok_drop s s' tid ph p w :
  uniq_active p -> Forall (worker_ok s) p ->
  find_worker tid ph p = Some w -> active_phase ph = true ->
  (forall w', worker_ok s w' ->
              (active_phase (w_phase w') = true -> id (w_task w') <> tid) ->
              worker_ok s' w') ->
  Forall (worker_ok s') (drop_worker tid ph p).
Proof.
  intros Hu Hf Hfind Hact Hother.
  induction p as [|w0 r IH]; [discriminate|].
  cbn in Hfind |- *. destruct Hu as [H0 Hr]. inversion Hf as [|? ? Hw0 Hfr]; subst.
  unfold find_worker in Hfind. cbn in Hfind.
  destruct (matches tid ph w0) eqn:M.
  - injection Hfind as <-. apply matches_true in M. destruct M as [Mi Mp].
    rewrite Forall_forall in Hfr |- *. intros w' Hin.
    apply Hother; [now apply Hfr|]. intros A. rewrite <- Mi.
    apply H0; [rewrite Mp; exact Hact | exact Hin | exact A].
  - constructor; [|now apply IH].
    apply Hother; [exact Hw0|]. intros A E.
    destruct (find_worker_some _ _ _ _ Hfind) as (Hin & Hi & Hp).
    apply (H0 A w Hin); [rewrite Hp; exact Hact | congruence].
Qed.

Lemma move_worker_same tid ph p : move_worker tid ph ph p = p.
Proof.
  induction p as [|w0 r IH]; cbn; [reflexivity|].
  destruct (matches tid ph w0) eqn:M.
  - apply matches_true in M. destruct M as [_ M]. destruct w0 as [t q]. cbn in *.
    now subst.
  - now rewrite IH.
Qed.

Lemma pool_ok_move_inactive s tid ph ph' p :
  active_phase ph' = false -> Forall (worker_ok s) p ->
  Forall (worker_ok s) (move_worker tid ph ph' p).
Proof.
  intros Hph Hf. rewrite Forall_forall in Hf |- *. intros w' Hin.
  destruct (In_move_worker _ _ _ _ _ Hin) as [H|(w & Hw & Mw & ->)]; [now apply Hf|].
  unfold worker_ok. cbn. destruct ph'; try discriminate; exact I.
Qed.

Lemma pool_ok_sub s p q :
  (forall w, In w q -> In w p) -> Forall (worker_ok s) p -> Forall (worker_ok s) q.
Proof. rewrite !Forall_forall. auto. Qed.

Lemma apply_kwargs_id kwargs : forall t, id (apply_kwargs t kwargs) = id t.
Proof.
  induction kwargs as [|kw r IH]; intros t; cbn [apply_kwargs]; [reflexivity|].
  rewrite IH. destruct (hasattr_task (kw_key kw)); [|reflexivity].
  destruct kw; reflexivity.
Qed.

Lemma kept_same ev s s' :
  tasks s' = tasks s -> kept_or_cleared ev s s' /\ born_queued ev s s'.
Proof.
  intros E. split.
  - intros tid t G. left. exists t. rewrite E. split; [exact G|].
    split; [now left | reflexivity].
  - intros tid t' G G'. rewrite E in G'. congruence.
Qed.

Lemma worker_ok_same_tasks s s' w : tasks s' = tasks s -> worker_ok s w -> worker_ok s' w.
Proof. intros E H. apply (worker_ok_transfer s s' w H). intros t. now rewrite E. Qed.

Lemma inv_same_tasks sys s' p' :
  Inv sys -> tasks s' = tasks (st sys) -> task_counter s' = task_counter (st sys) ->
  Forall (worker_ok (st sys)) p' -> uniq_active p' ->
  Inv {| st := s'; pool := p' |}.
Proof.
  intros [W I F P U] Et Ec Hp Hu. constructor; cbn [st pool].
  - now rewrite Et.
  - intros k t. rewrite Et. apply I.
  - intros k t. rewrite Et, Ec. apply F.
  - eapply Forall_impl; [|exact Hp]. intros w. now apply worker_ok_same_tasks.
  - exact Hu.
Qed.

(** A worker of [tid], in the unfinished phase [ph], writes the status [b] to
    its task and moves to [ph'] (or dies); nothing else of the registry
    changes. *)
Lemma update_at_sound sys s' p' tid ph ph' w b :
  Inv sys ->
  find_worker tid ph (pool sys) = Some w -> active_phase ph = true ->
  Dict.keys (tasks s') = Dict.keys (tasks (st sys)) ->
  (forall k, k <> tid -> Dict.get k (tasks s') = Dict.get k (tasks (st sys))) ->
  task_counter s' = task_counter (st sys) ->
  (forall t, Dict.get tid (tasks (st sys)) = Some t ->
     exists t', Dict.get tid (tasks s') = Some t' /\ id t' = id t /\ status t' = b) ->
  (p' = move_worker tid ph ph' (pool sys)
   /\ match ph' with
      | Submitted => b = "Scheduled"%string
      | Downloading =>
          b <> "Queued"%string /\ b <> "Completed"%string /\ b <> "Failed"%string
      | _ => True
      end)
  \/ p' = drop_worker tid ph (pool sys) ->
  Inv {| st := s'; pool := p' |}
  /\ exists t, Dict.get tid (tasks (st sys)) = Some t
               /\ worker_ok (st sys) w
               /\ exists t', Dict.get tid (tasks s') = Some t' /\ status t' = b.
Proof.
  intros [W Hid F P U] Hfind Hact Hk Ho Hc Hat Hp.
  destruct (find_worker_some _ _ _ _ Hfind) as (Hin & Hi & Hph).
  assert (Hw : worker_ok (st sys) w) by (rewrite Forall_forall in P; now apply P).
  destruct (worker_ok_active _ _ Hw ltac:(now rewrite Hph)) as (t & G & _).
  rewrite Hi in G. destruct (Hat t G) as (t' & G' & Eid & Est).
  assert (Hother : forall w', worker_ok (st sys) w' ->
            (active_phase (w_phase w') = true -> id (w_task w') <> tid) ->
            worker_ok s' w').
  { intros w' Hw' Hne. destruct (active_phase (w_phase w')) eqn:A.
    - apply (worker_ok_transfer _ _ _ Hw'). intros t0 G0. rewrite Ho; auto.
    - unfold worker_ok. destruct (w_phase w'); try discriminate; exact I. }
  split.
  - constructor; cbn [st pool].
    + unfold dict_wf in *. now rewrite Hk.
    + intros k t0 G0. destruct (Z.eq_dec k tid) as [->|Hne].
      * rewrite G' in G0. injection G0 as <-. rewrite Eid. now apply Hid.
      * rewrite Ho in G0 by exact Hne. now apply Hid.
    + intros k t0 G0. rewrite Hc. destruct (Z.eq_dec k tid) as [->|Hne].
      * now apply (F tid t).
      * rewrite Ho in G0 by exact Hne. now apply (F k t0).
    + destruct Hp as [[-> Hb] | ->].
      * eapply pool_ok_move; try eassumption.
        unfold worker_ok. cbn [w_phase w_task]. rewrite Hi.
        destruct ph'; try exact I.
        -- exists t'. split; [exact G' | congruence].
        -- exists t'. split; [exact G'|]. rewrite is_terminal_false, Est. tauto.
      * eapply pool_ok_drop; eassumption.
    + destruct Hp as [[-> _] | ->].
      * apply uniq_active_move; [intros _; exact Hact | exact U].
      * now apply uniq_active_drop.
  - exists t. split; [exact G|]. split; [exact Hw|]. exists t'. tauto.
Qed.

Lemma run_task_begin_tasks utcnow task s :
  let s' := run_task_begin utcnow task s in
  (forall k, k <> id task -> Dict.get k (tasks s') = Dict.get k (tasks s))
  /\ (forall t, Dict.get (id task) (tasks s) = Some t ->
        exists t', Dict.get (id task) (tasks s') = Some t' /\ id t' = id t
                   /\ status t' = "Running"%string).
Proof.
  cbv zeta. unfold run_task_begin.
  pose proof (append_log_fields utcnow ("Starting " ++ url task)%string s) as L.
  cbv zeta in L. destruct L as (L1 & _).
  match goal with |- context [update_task utcnow ?i ?k ?x] =>
    pose proof (update_task_frame utcnow i k x) as U; cbv zeta in U end.
  destruct U as (_ & G & _ & _ & P). rewrite L1 in G, P.
  split; [exact G|].
  intros t Gt. destruct (P t Gt) as [Pg _]. eexists. split; [exact Pg|].
  split; reflexivity.
Qed.

Lemma progress_hook_tasks utcnow tid info s :
  let s' := _progress_hook utcnow tid info s in
  (forall k, k <> tid -> Dict.get k (tasks s') = Dict.get k (tasks s))
  /\ (forall t, Dict.get tid (tasks s) = Some t ->
        exists t', Dict.get tid (tasks s') = Some t' /\ id t' = id t
                   /\ status t' = hook_status info).
Proof.
  cbv zeta. unfold _progress_hook.
  pose proof (update_task_frame utcnow tid (hook_kwargs info) s) as U. cbv zeta in U.
  destruct U as (_ & G & _ & _ & P).
  split; [exact G|].
  intros t Gt. destruct (P t Gt) as [Pg _]. eexists. split; [exact Pg|].
  pose proof (hook_kwargs_apply t info) as H. cbv zeta in H.
  destruct H as (_ & H2 & _).
  pose proof (apply_kwargs_id (hook_kwargs info) t) as Hid.
  remember (apply_kwargs t (hook_kwargs info)) as updated eqn:E. clear E.
  cbn [id status set_last_update]. split; [exact Hid | exact H2].
Qed.

Lemma dict_wf_filter {V} (P : Z * V -> bool) (d : list (Z * V)) :
  dict_wf d -> dict_wf (filter P d).
Proof.
  unfold dict_wf. induction d as [|[k v] d IH]; cbn; [auto|].
  intros H. inversion H as [|? ? Hk Hd]; subst.
  destruct (P (k, v)); cbn; [|now apply IH].
  constructor; [|now apply IH]. intros Hin. apply Hk.
  eapply keys_filter_incl. exact Hin.
Qed.

Lemma queue_sound utcnow dir fos payload sys created s' :
  Inv sys ->
  queue_tasks utcnow dir fos payload (st sys) = Some (created, s') ->
  Inv {| st := s'; pool := pool sys |}
  /\ kept_or_cleared (EvQueue payload) (st sys) s'
  /\ born_queued (EvQueue payload) (st sys) s'.
Proof.
  intros [W Hid F P U] Q.
  destruct (queue_tasks_spec _ _ _ _ _ _ _ Q) as (Q1 & _ & _ & Q4 & Q5 & Q6).
  split; [|split].
  - constructor; cbn [st pool].
    + now apply Q6.
    + intros k t G. destruct (Q5 k t G) as [G0|(_ & E & _)]; [now apply Hid | exact E].
    + intros k t G. destruct (Q5 k t G) as [G0|(B & _)]; [|lia].
      specialize (F k t G0). lia.
    + eapply Forall_impl; [|exact P]. intros w Hw.
      apply (worker_ok_transfer _ _ _ Hw). intros t G. rewrite Q4; [exact G|].
      now apply (F _ t).
    + exact U.
  - intros tid t G. left. exists t. split; [|split; [now left | reflexivity]].
    rewrite Q4; [exact G | now apply (F _ t)].
  - intros tid t' G G'. destruct (Q5 tid t' G') as [G0|(B & _ & S)]; [congruence|].
    split; [exact S|]. split; [now exists payload | lia].
Qed.

Lemma uniq_active_new ts : NoDup (map id ts) -> uniq_active (map new_worker ts).
Proof.
  induction ts as [|t ts IH]; cbn; [auto|]. intros H.
  inversion H as [|? ? Hn Hd]; subst. split; [|now apply IH].
  intros _ w' Hin _ E. apply in_map_iff in Hin. destruct Hin as (t' & <- & Hin).
  cbn in E. apply Hn. rewrite <- E. now apply in_map.
Qed.

Lemma pass_sound utcnow ev s p0 :
  Inv {| st := s; pool := p0 |} ->
  ev = EvSchedule \/ (exists k, ev = EvReschedule k) ->
  Inv {| st := snd (try_schedule_next utcnow s);
         pool := submit_all (fst (try_schedule_next utcnow s)) p0 |}
  /\ kept_or_cleared ev s (snd (try_schedule_next utcnow s))
  /\ born_queued ev s (snd (try_schedule_next utcnow s)).
Proof.
  intros [W Hid F P U] Hev. cbn [st pool] in *.
  destruct (try_schedule_next_spec utcnow s)
    as (adm & H1 & H2 & _ & _ & H5 & H6 & H7 & H8).
  destruct H2 as (_ & Hc & _).
  rewrite Forall_forall in H7.
  assert (Hadm : forall e, In e adm ->
            exists t stamp, Dict.get (fst e) (tasks s) = Some t
              /\ status t = "Queued"%string /\ snd e = scheduled_from t stamp
              /\ Dict.get (fst e) (tasks (snd (try_schedule_next utcnow s))) = Some (snd e)
              /\ id (snd e) = fst e).
  { intros e He. destruct (H7 e He) as [_ (t & stamp & G & S & E & G')].
    exists t, stamp. repeat split; try assumption.
    rewrite E. cbn. now apply Hid. }
  assert (Hkeep : forall k t, Dict.get k (tasks s) = Some t ->
            status t <> "Queued"%string ->
            Dict.get k (tasks (snd (try_schedule_next utcnow s))) = Some t)
    by (intros; now apply try_schedule_next_keeps).
  assert (Hids : map id (map snd adm) = map fst adm).
  { rewrite map_map. apply map_ext_in. intros e He.
    destruct (Hadm e He) as (_ & _ & _ & _ & _ & _ & E). exact E. }
  split; [|split].
  - constructor; cbn [st pool].
    + unfold dict_wf in *. now rewrite H5.
    + intros k t' G'. destruct (in_dec Z.eq_dec k (map fst adm)) as [Hin|Hnin].
      * apply in_map_iff in Hin. destruct Hin as (e & <- & He).
        destruct (Hadm e He) as (_ & _ & _ & _ & _ & Ge & E). congruence.
      * rewrite H6 in G' by exact Hnin. now apply Hid.
    + intros k t' G'. rewrite Hc.
      assert (Hk : In k (Dict.keys (tasks s)))
        by (rewrite <- H5; apply get_Some_keys; now exists t').
      apply get_Some_keys in Hk. destruct Hk as [t G]. now apply (F k t).
    + unfold submit_all. apply Forall_app. split.
      * eapply Forall_impl; [|exact P]. intros w Hw.
        destruct (active_phase (w_phase w)) eqn:A.
        -- destruct (worker_ok_active _ _ Hw A) as (t & G & S & _).
           apply (worker_ok_transfer _ _ _ Hw). intros t0 G0.
           apply Hkeep; [exact G0 | congruence].
        -- unfold worker_ok. destruct (w_phase w); try discriminate; exact I.
      * rewrite H1. rewrite Forall_forall. intros w Hin.
        apply in_map_iff in Hin. destruct Hin as (t' & <- & Hin).
        apply in_map_iff in Hin. destruct Hin as (e & <- & He).
        destruct (Hadm e He) as (t & stamp & _ & _ & E & G' & Ei).
        unfold worker_ok. cbn. exists (snd e). rewrite Ei. split; [exact G'|].
        rewrite E. reflexivity.
    + unfold submit_all. apply uniq_active_app; [exact U | |].
      * rewrite H1. apply (uniq_active_new (map snd adm)). now rewrite Hids.
      * intros w w' Hw Hw' A _ E. rewrite H1 in Hw'.
        apply in_map_iff in Hw'. destruct Hw' as (t' & <- & Hin).
        apply in_map_iff in Hin. destruct Hin as (e & <- & He).
        destruct (Hadm e He) as (t & stamp & G & S & _ & _ & Ei).
        cbn in E. rewrite Ei in E.
        rewrite Forall_forall in P.
        destruct (worker_ok_active _ _ (P w Hw) A) as (t0 & G0 & S0 & _).
        rewrite <- E, G in G0. injection G0 as <-. contradiction.
  - intros tid t G. left.
    destruct (in_dec Z.eq_dec tid (map fst adm)) as [Hin|Hnin].
    + apply in_map_iff in Hin. destruct Hin as (e & <- & He).
      destruct (Hadm e He) as (t0 & stamp & G0 & S & E & G' & _).
      rewrite G in G0. injection G0 as <-.
      exists (snd e). split; [exact G'|]. split.
      * right. left. rewrite E. cbn. tauto.
      * intros T. apply is_terminal_not_queued in T. contradiction.
    + exists t. rewrite H6 by exact Hnin. split; [exact G|].
      split; [now left | reflexivity].
  - intros tid t' G G'.
    assert (Hk : In tid (Dict.keys (tasks s)))
      by (rewrite <- H5; apply get_Some_keys; now exists t').
    apply get_None_keys in G. contradiction.
Qed.

Lemma clear_sound utcnow sys :
  Inv sys ->
  Inv {| st := snd (clear_completed_tasks utcnow (st sys)); pool := pool sys |}
  /\ kept_or_cleared EvClear (st sys) (snd (clear_completed_tasks utcnow (st sys)))
  /\ born_queued EvClear (st sys) (snd (clear_completed_tasks utcnow (st sys))).
Proof.
  intros [W Hid F P U].
  pose proof (clear_completed_tasks_fields utcnow (st sys)) as C. cbv zeta in C.
  destruct C as (_ & C1 & _ & C9 & _).
  rewrite (pop_all_terminal _ W) in C1.
  assert (C3 : forall tid t, Dict.get tid (tasks (st sys)) = Some t ->
            is_terminal t = false ->
            Dict.get tid (tasks (snd (clear_completed_tasks utcnow (st sys)))) = Some t)
    by (intros tid t G T; rewrite C1, (get_filter_live _ _ W), G, T; reflexivity).
  assert (C4 : forall tid t, Dict.get tid (tasks (st sys)) = Some t ->
            is_terminal t = true ->
            Dict.get tid (tasks (snd (clear_completed_tasks utcnow (st sys)))) = None)
    by (intros tid t G T; rewrite C1, (get_filter_live _ _ W), G, T; reflexivity).
  assert (C5 : forall tid, Dict.get tid (tasks (st sys)) = None ->
            Dict.get tid (tasks (snd (clear_completed_tasks utcnow (st sys)))) = None)
    by (intros tid G; rewrite C1, (get_filter_live _ _ W), G; reflexivity).
  assert (Hsub : forall k t,
            Dict.get k (tasks (snd (clear_completed_tasks utcnow (st sys)))) = Some t ->
            Dict.get k (tasks (st sys)) = Some t).
  { intros k t G. rewrite C1, (get_filter_live _ _ W) in G.
    destruct (Dict.get k (tasks (st sys))) as [t0|]; [|discriminate].
    destruct (is_terminal t0); [discriminate | exact G]. }
  split; [|split].
  - constructor; cbn [st pool].
    + rewrite C1. now apply dict_wf_filter.
    + intros k t G. apply Hid. now apply Hsub.
    + intros k t G. rewrite C9. apply (F k t). now apply Hsub.
    + eapply Forall_impl; [|exact P]. intros w Hw.
      destruct (active_phase (w_phase w)) eqn:A.
      * destruct (worker_ok_active _ _ Hw A) as (t & G & _ & T).
        apply (worker_ok_transfer _ _ _ Hw). intros t0 G0.
        apply C3; [exact G0 | congruence].
      * unfold worker_ok. destruct (w_phase w); try discriminate; exact I.
    + exact U.
  - intros tid t G. destruct (is_terminal t) eqn:T.
    + right. split; [reflexivity|]. split; [reflexivity|]. now apply (C4 tid t).
    + left. exists t. split; [now apply C3|]. split; [now left | discriminate].
  - intros tid t' G G'. rewrite (C5 tid G) in G'. discriminate.
Qed.

(** Every transition keeps the invariant and changes the statuses as
    [status_step] allows. *)
Lemma step_sound utcnow dir fos ev sys sys' :
  Inv sys -> event_ok ev -> step utcnow dir fos ev sys = Some sys' ->
  Inv sys'
  /\ kept_or_cleared ev (st sys) (st sys')
  /\ born_queued ev (st sys) (st sys').
Proof.
  intros HI Hok. pose proof HI as [W Hid F P U].
  destruct sys as [s p]. cbn [st pool] in *.
  destruct ev as [payload| |n| |tid ok|tid info|tid o|tid|tid]; cbn [step st pool].
  - (* queue_tasks *)
    destruct (queue_tasks utcnow dir fos payload s) as [[created s1]|] eqn:Q.
    + intros [= <-]. apply (queue_sound _ _ _ _ _ _ _ HI Q).
    + intros [= <-]. split; [exact HI|]. now apply kept_same.
  - (* try_schedule_next *)
    pose proof (pass_sound utcnow EvSchedule s p HI (or_introl eq_refl)) as H.
    destruct (try_schedule_next utcnow s) as [to_start s1]. cbn [fst snd] in H.
    intros [= <-]. exact H.
  - (* set_concurrency *)
    intros [= <-]. cbn [st].
    pose proof (set_concurrency_fields utcnow n s) as C. cbv zeta in C.
    destruct C as (_ & C2 & _ & C4 & _).
    split; [|now apply kept_same].
    apply (inv_same_tasks {| st := s; pool := p |}); assumption.
  - (* clear_completed_tasks *)
    intros [= <-]. apply (clear_sound utcnow _ HI).
  - (* the worker enters _run_task *)
    destruct (find_worker tid Submitted p) as [w|] eqn:Hfind; [|discriminate].
    intros [= <-]. cbn [st].
    destruct (find_worker_some _ _ _ _ Hfind) as (_ & Hi & _).
    destruct (run_task_begin_frame utcnow (w_task w) s) as (K & _ & _ & _ & C).
    pose proof (run_task_begin_tasks utcnow (w_task w) s) as T. cbv zeta in T.
    rewrite Hi in T. destruct T as (T1 & T2).
    destruct (update_at_sound {| st := s; pool := p |}
                (run_task_begin utcnow (w_task w) s)
                (if ok then move_worker tid Submitted Downloading p
                 else drop_worker tid Submitted p)
                tid Submitted Downloading w "Running" HI Hfind eq_refl K T1 C T2)
      as (HI' & t & G & Hw & t' & G' & S').
    { destruct ok; [left | right; reflexivity].
      split; [reflexivity|]. repeat split; discriminate. }
    cbn [st pool] in G, Hw.
    split; [exact HI'|]. split.
    + intros k t0 G0. left. destruct (Z.eq_dec k tid) as [->|Hne].
      * rewrite G in G0. injection G0 as <-. exists t'. split; [exact G'|].
        unfold worker_ok in Hw.
        destruct (find_worker_some _ _ _ _ Hfind) as (_ & _ & Hp). rewrite Hp, Hi in Hw.
        destruct Hw as (t1 & G1 & S1). rewrite G in G1. injection G1 as <-.
        split.
        -- right. right. left. split; [exact S1|]. split; [exact S'|]. now exists ok.
        -- intros T. apply is_terminal_true in T. rewrite S1 in T.
           destruct T as [T|T]; discriminate T.
      * exists t0. rewrite T1 by exact Hne. split; [exact G0|].
        split; [now left | reflexivity].
    + intros k t0 G0 G0'.
      assert (Hk : In k (Dict.keys (tasks s)))
        by (rewrite <- K; apply get_Some_keys; now exists t0).
      apply get_None_keys in G0. contradiction.
  - (* a progress record *)
    destruct (find_worker tid Downloading p) as [w|] eqn:Hfind; [|discriminate].
    intros [= <-]. cbn [st].
    destruct (find_worker_some _ _ _ _ Hfind) as (_ & Hi & Hp).
    destruct (progress_hook_frame utcnow (id (w_task w)) info s)
      as (K & (_ & C & _)).
    pose proof (progress_hook_tasks utcnow (id (w_task w)) info s) as T. cbv zeta in T.
    rewrite Hi in *. destruct T as (T1 & T2).
    destruct Hok as (O1 & O2 & O3).
    destruct (update_at_sound {| st := s; pool := p |}
                (_progress_hook utcnow tid info s) p
                tid Downloading Downloading w (hook_status info)
                HI Hfind eq_refl K T1 C T2)
      as (HI' & t & G & Hw & t' & G' & S').
    { left. split; [symmetry; apply move_worker_same | tauto]. }
    cbn [st pool] in G, Hw.
    split; [exact HI'|]. split.
    + intros k t0 G0. left. destruct (Z.eq_dec k tid) as [->|Hne].
      * rewrite G in G0. injection G0 as <-. exists t'. split; [exact G'|].
        unfold worker_ok in Hw. rewrite Hp, Hi in Hw.
        destruct Hw as (t1 & G1 & S1 & N1). rewrite G in G1. injection G1 as <-.
        apply is_terminal_false in N1.
        split.
        -- right. right. right. left. exists info. tauto.
        -- intros T. apply is_terminal_true in T. tauto.
      * exists t0. rewrite T1 by exact Hne. split; [exact G0|].
        split; [now left | reflexivity].
    + intros k t0 G0 G0'.
      assert (Hk : In k (Dict.keys (tasks s)))
        by (rewrite <- K; apply get_Some_keys; now exists t0).
      apply get_None_keys in G0. contradiction.
  - (* the engine returns or raises *)
    destruct (find_worker tid Downloading p) as [w|] eqn:Hfind; [|discriminate].
    intros [= <-]. cbn [st].
    destruct (find_worker_some _ _ _ _ Hfind) as (_ & Hi & Hp).
    pose proof (run_task_outcome_frame utcnow (w_task w) o s) as T. cbv zeta in T.
    rewrite Hi in T. destruct T as (K & T1 & _ & C & _ & _ & T2).
    destruct (update_at_sound {| st := s; pool := p |}
                (run_task_outcome utcnow (w_task w) o s)
                (move_worker tid Downloading Finishing p)
                tid Downloading Finishing w
                (match o with Returned => "Completed" | Raised _ => "Failed" end)%string
                HI Hfind eq_refl K T1 C T2)
      as (HI' & t & G & Hw & t' & G' & S').
    { left. split; [reflexivity | exact I]. }
    cbn [st pool] in G, Hw.
    split; [exact HI'|]. split.
    + intros k t0 G0. left. destruct (Z.eq_dec k tid) as [->|Hne].
      * rewrite G in G0. injection G0 as <-. exists t'. split; [exact G'|].
        unfold worker_ok in Hw. rewrite Hp, Hi in Hw.
        destruct Hw as (t1 & G1 & S1 & N1). rewrite G in G1. injection G1 as <-.
        apply is_terminal_false in N1.
        split.
        -- right. right. right. right. exists o. tauto.
        -- intros T. apply is_terminal_true in T. tauto.
      * exists t0. rewrite T1 by exact Hne. split; [exact G0|].
        split; [now left | reflexivity].
    + intros k t0 G0 G0'.
      assert (Hk : In k (Dict.keys (tasks s)))
        by (rewrite <- K; apply get_Some_keys; now exists t0).
      apply get_None_keys in G0. contradiction.
  - (* the finally clause *)
    destruct (find_worker tid Finishing p) as [w|] eqn:Hfind; [|discriminate].
    intros [= <-]. cbn [st].
    split; [|now apply kept_same].
    apply (inv_same_tasks {| st := s; pool := p |}); try reflexivity; try assumption.
    + now apply pool_ok_move_inactive.
    + apply uniq_active_move; [discriminate | exact U].
  - (* the final admission pass *)
    destruct (find_worker tid Releasing p) as [w|] eqn:Hfind; [|discriminate].
    assert (HI0 : Inv {| st := s; pool := drop_worker tid Releasing p |}).
    { apply (inv_same_tasks {| st := s; pool := p |}); try reflexivity; try assumption.
      - eapply pool_ok_sub; [|exact P]. intros w0. apply In_drop_worker.
      - now apply uniq_active_drop. }
    pose proof (pass_sound utcnow (EvReschedule tid) s _ HI0
                  (or_intror (ex_intro _ tid eq_refl))) as H.
    destruct (try_schedule_next utcnow s) as [to_start s1]. cbn [fst snd] in H.
    intros [= <-]. exact H.
Qed.

Lemma inv_initial : Inv initial_system.
Proof.
  constructor; cbn.
  - constructor.
  - discriminate.
  - discriminate.
  - constructor.
  - exact I.
Qed.

Lemma run_inv utcnow dir fos evs : forall sys sys',
  Inv sys -> Forall event_ok evs ->
  run utcnow dir fos evs sys = Some sys' -> Inv sys'.
Proof.
  induction evs as [|ev evs IH]; intros sys sys' HI Hok; cbn [run].
  - now intros [= <-].
  - inversion Hok as [|? ? Hev Hrest]; subst.
    destruct (step utcnow dir fos ev sys) as [sys1|] eqn:E; [|discriminate].
    apply IH; [|exact Hrest].
    now destruct (step_sound _ _ _ _ _ _ HI Hev E).
Qed.

Lemma step_counter_mono utcnow dir fos ev sys sys' :
  step utcnow dir fos ev sys = Some sys' ->
  task_counter (st sys) <= task_counter (st sys').
Proof.
  destruct sys as [s p]. cbn [st pool].
  destruct ev as [payload| |n| |tid ok|tid info|tid o|tid|tid]; cbn [step st pool].
  - destruct (queue_tasks utcnow dir fos payload s) as [[created s1]|] eqn:Q.
    + intros [= <-]. cbn [st].
      destruct (queue_tasks_spec _ _ _ _ _ _ _ Q) as (Q1 & _). exact Q1.
    + intros [= <-]. cbn [st]. lia.
  - destruct (try_schedule_next_spec utcnow s) as (adm & _ & (_ & C & _) & _).
    destruct (try_schedule_next utcnow s) as [to_start s1]. cbn [snd] in *.
    intros [= <-]. cbn [st]. lia.
  - intros [= <-]. cbn [st].
    pose proof (set_concurrency_fields utcnow n s) as F. cbv zeta in F.
    destruct F as (_ & _ & _ & C & _). lia.
  - intros [= <-]. cbn [st].
    pose proof (clear_completed_tasks_fields utcnow s) as F. cbv zeta in F.
    destruct F as (_ & _ & _ & C & _). lia.
  - destruct (find_worker tid Submitted p) as [w|]; [|discriminate].
    intros [= <-]. cbn [st].
    destruct (run_task_begin_frame utcnow (w_task w) s) as (_ & _ & _ & _ & C). lia.
  - destruct (find_worker tid Downloading p) as [w|]; [|discriminate].
    intros [= <-]. cbn [st].
    destruct (progress_hook_frame utcnow (id (w_task w)) info s)
      as (_ & _ & C & _). lia.
  - destruct (find_worker tid Downloading p) as [w|]; [|discriminate].
    intros [= <-]. cbn [st].
    pose proof (run_task_outcome_frame utcnow (w_task w) o s) as F. cbv zeta in F.
    destruct F as (_ & _ & _ & C & _). lia.
  - destruct (find_worker tid Finishing p) as [w|]; [|discriminate].
    intros [= <-]. cbn. lia.
  - destruct (find_worker tid Releasing p) as [w|]; [|discriminate].
    destruct (try_schedule_next_spec utcnow s) as (adm & _ & (_ & C & _) & _).
    destruct (try_schedule_next utcnow s) as [to_start s1]. cbn [snd] in *.
    intros [= <-]. cbn [st]. lia.
Qed.

(** A finished task stays as it is until it is cleared, and its id does not
    come back. *)
Lemma finished_stays utcnow dir fos evs : forall sys sys' tid t,
  Inv sys -> Forall event_ok evs ->
  run utcnow dir fos evs sys = Some sys' ->
  is_terminal t = true -> tid < task_counter (st sys) ->
  Dict.get tid (tasks (st sys)) = Some t \/ Dict.get tid (tasks (st sys)) = None ->
  Dict.get tid (tasks (st sys')) = Some t \/ Dict.get tid (tasks (st sys')) = None.
Proof.
  induction evs as [|ev evs IH]; intros sys sys' tid t HI Hok; cbn [run].
  - intros [= <-]. auto.
  - inversion Hok as [|? ? Hev Hrest]; subst.
    destruct (step utcnow dir fos ev sys) as [sys1|] eqn:E; [|discriminate].
    intros Hrun T Hlt Hget.
    destruct (step_sound _ _ _ _ _ _ HI Hev E) as (HI1 & K & B).
    pose proof (step_counter_mono _ _ _ _ _ _ E) as M.
    apply (IH sys1 sys' tid t HI1 Hrest Hrun T); [lia|].
    destruct Hget as [G|G].
    + destruct (K tid t G) as [(t' & G' & _ & Hsame)|(_ & _ & G')]; [|now right].
      left. now rewrite (Hsame T) in G'.
    + destruct (Dict.get tid (tasks (st sys1))) as [t1|] eqn:G1; [|now right].
      destruct (B tid t1 G G1) as (_ & _ & Hfresh). lia.
Qed.

(** C3, as the code has it.  In every state the system reaches, for every
    transition: a task enters the registry only through a submission, as
    Queued; a task of the registry stays, its status either unchanged or
    changed along Queued -> Scheduled (an admission pass), Scheduled ->
    Running (its worker starts), to the capitalised status text of a
    progress record while its worker downloads (this text need not be one
    of the five states), or to Completed or Failed when the engine ends;
    and a task that is Completed or Failed is never changed again: it stays
    as it is, in every later state, until [clear_completed_tasks] removes
    it.  This holds provided the engine reports no status text that reads,
    capitalised, as Queued, Completed or Failed. *)
Theorem status_lifecycle utcnow dir fos (evs : list event) (sys : System) :
  run utcnow dir fos evs initial_system = Some sys ->
  Forall event_ok evs ->
  (forall ev sys',
     event_ok ev -> step utcnow dir fos ev sys = Some sys' ->
     kept_or_cleared ev (st sys) (st sys') /\ born_queued ev (st sys) (st sys'))
  /\ (forall later sys' tid t,
        Forall event_ok later -> run utcnow dir fos later sys = Some sys' ->
        Dict.get tid (tasks (st sys)) = Some t -> is_terminal t = true ->
        Dict.get tid (tasks (st sys')) = Some t
        \/ Dict.get tid (tasks (st sys')) = None).
Proof.
  intros Hrun Hok.
  pose proof (run_inv _ _ _ _ _ _ inv_initial Hok Hrun) as HI.
  split.
  - intros ev sys' Hev Hstep.
    now destruct (step_sound _ _ _ _ _ _ HI Hev Hstep).
  - intros later sys' tid t Hlater Hrun' G T.
    apply (finished_stays _ _ _ _ _ _ _ _ HI Hlater Hrun' T); [|now left].
    now apply (inv_fresh _ HI tid t).
Qed.

(** After a whole download the job is Completed, and the release of its
    worker leaves it so. *)
Lemma status_lifecycle_witness :
  map status (ordered_tasks (st (run_from_start lifecycle_run))) = ["Completed"%string]
  /\ kept_or_cleared (EvRelease 1) (st (run_from_start lifecycle_run))
       (st (run_from_start (lifecycle_run ++ [EvRelease 1])))
  /\ born_queued (EvRelease 1) (st (run_from_start lifecycle_run))
       (st (run_from_start (lifecycle_run ++ [EvRelease 1]))).
Proof.
  split; [vm_compute; reflexivity|].
  assert (Hok : Forall event_ok lifecycle_run).
  { unfold lifecycle_run.
    repeat (apply Forall_cons; [try exact I|]); try apply Forall_nil;
      unfold event_ok, engine_text_ok; vm_compute; repeat split; discriminate. }
  assert (Hrun : run (tick_clock 1) "/srv/downloads" no_float_text lifecycle_run
                   initial_system = Some (run_from_start lifecycle_run))
    by (vm_compute; reflexivity).
  apply (proj1 (status_lifecycle (tick_clock 1) "/srv/downloads" no_float_text
                  lifecycle_run (run_from_start lifecycle_run) Hrun Hok)
           (EvRelease 1) (run_from_start (lifecycle_run ++ [EvRelease 1]))).
  - exact I.
  - vm_compute. reflexivity.
Defined.

(** C3 as stated fails: a progress record with the status text
    ["downloading"] leaves the job with the status ["Downloading"], which is
    none of the five states. *)
Lemma progress_sets_foreign_status :
  exists sys t,
    run (tick_clock 1) "/srv/downloads" no_float_text
      [EvQueue (payload_of "https://a" VNone); EvSchedule; EvBegin 1 true;
       EvProgress 1 (info_of (VFloat 40%float) (Some "downloading"%string) None)]
      initial_system = Some sys
    /\ Dict.get 1 (tasks (st sys)) = Some t
    /\ status t = "Downloading"%string
    /\ ~ In (status t) ["Queued"; "Scheduled"; "Running"; "Completed"; "Failed"]%string.
Proof.
  eexists. eexists. split; [vm_compute; reflexivity|].
  split; [vm_compute; reflexivity|].
  split; [vm_compute; reflexivity|].
  vm_compute. intros H.
  repeat (destruct H as [H|H]; [discriminate H|]). exact H.
Qed.

(* ------------------------------------------------------------------ *)
(** ** The order of admission *)

(** C2 at a failing input.  The limit is 1; two URLs are posted together
    with the same priority.  The clock reads exactly 12:00:01 when the first
    task is created, so its [created_at] is [2024-01-01T12:00:01Z], without
    the fraction that [isoformat()] leaves out when [microsecond] is 0; the
    second task, created 3 microseconds later, gets
    [2024-01-01T12:00:01.000003Z].  As text the second stamp is the smaller
    one (["."] sorts before ["Z"]), so the pass admits the second task and
    leaves the first, submitted earlier, Queued. *)
Lemma fifo_broken_at_whole_second :
  exists s1 created to_start s2,
    api_start_queue (tick_clock 999999) (Some (VInt 1)) initial_state = Some ([], s1)
    /\ api_add_to_queue (tick_clock 999999) "/srv/downloads" no_float_text
         (payload_of ("https://a" ++ LF ++ "https://b") VNone) s1
       = Some (created, to_start, s2)
    /\ map id created = [1; 2]
    /\ map priority created = [3; 3]
    /\ map created_at created
       = ["2024-01-01T12:00:01Z"; "2024-01-01T12:00:01.000003Z"]%string
    /\ map id to_start = [2]
    /\ map (fun t => (id t, status t)) (ordered_tasks s2)
       = [(1, "Queued"); (2, "Scheduled")]%string.
Proof.
  eexists. eexists. eexists. eexists.
  split; [vm_compute; reflexivity|].
  split; [vm_compute; reflexivity|].
  split; [vm_compute; reflexivity|].
  split; [vm_compute; reflexivity|].
  split; [vm_compute; reflexivity|].
  split; vm_compute; reflexivity.
Qed.

(* ------------------------------------------------------------------ *)
(** ** What the order of admission does guarantee *)

Lemma string_compare_trans : forall a b c,
  String.compare a b <> Gt -> String.compare b c <> Gt -> String.compare a c <> Gt.
Proof.
  induction a as [|x a IH]; intros [|y b] [|z c]; cbn; try congruence.
  unfold Ascii.compare.
  destruct (N.compare_spec (N_of_ascii x) (N_of_ascii y)),
           (N.compare_spec (N_of_ascii y) (N_of_ascii z)),
           (N.compare_spec (N_of_ascii x) (N_of_ascii z));
    intros Hab Hbc; try congruence; try lia; eauto.
Qed.

Lemma string_leb_trans a b c :
  String.leb a b = true -> String.leb b c = true -> String.leb a c = true.
Proof.
  unfold String.leb. intros H1 H2.
  pose proof (string_compare_trans a b c) as T.
  destruct (String.compare a b), (String.compare b c), (String.compare a c);
    try reflexivity; try discriminate; exfalso; apply T; congruence.
Qed.

Lemma key_leb_total a b : key_leb a b = false -> key_leb b a = true.
Proof.
  unfold key_leb. destruct a as [a1 a2], b as [b1 b2]. cbn.
  destruct (a1 <? b1) eqn:E1; [discriminate|].
  destruct (a1 =? b1) eqn:E2.
  - apply Z.eqb_eq in E2. subst. rewrite Z.ltb_irrefl, Z.eqb_refl. intros H.
    destruct (String.leb_total a2 b2); congruence.
  - intros _. apply Z.ltb_ge in E1. apply Z.eqb_neq in E2.
    assert (H : (b1 <? a1) = true) by (apply Z.ltb_lt; lia). now rewrite H.
Qed.

Lemma key_leb_trans a b c :
  key_leb a b = true -> key_leb b c = true -> key_leb a c = true.
Proof.
  unfold key_leb. destruct a as [a1 a2], b as [b1 b2], c as [c1 c2]. cbn.
  destruct (a1 <? b1) eqn:E1, (b1 <? c1) eqn:E2, (a1 <? c1) eqn:E3;
    try reflexivity;
    destruct (a1 =? b1) eqn:F1, (b1 =? c1) eqn:F2, (a1 =? c1) eqn:F3;
    try discriminate; intros H1 H2;
    rewrite ?Z.ltb_lt, ?Z.ltb_ge, ?Z.eqb_eq, ?Z.eqb_neq in *; try lia.
  eapply string_leb_trans; eassumption.
Qed.

Lemma key_leb_fst a b : key_leb a b = true -> fst a <= fst b.
Proof.
  unfold key_leb. destruct (fst a <? fst b) eqn:E1; [apply Z.ltb_lt in E1; lia|].
  destruct (fst a =? fst b) eqn:E2; [apply Z.eqb_eq in E2; lia | discriminate].
Qed.

Section SortedOrder.
Context {A K : Type} (key : A -> K) (leb : K -> K -> bool).
Hypothesis leb_total : forall a b, leb a b = false -> leb b a = true.
Hypothesis leb_trans : forall a b c, leb a b = true -> leb b c = true -> leb a c = true.

Lemma insert_by_sorted x l :
  StronglySorted (key_le key leb) l -> StronglySorted (key_le key leb) (insert_by key leb x l).
Proof.
  induction l as [|y r IH]; cbn; intros H.
  - repeat constructor.
  - inversion H as [|? ? Hr Hy]; subst.
    destruct (leb (key x) (key y)) eqn:E.
    + constructor; [exact H|]. constructor; [exact E|].
      eapply Forall_impl; [|exact Hy]. intros z Hz. unfold key_le in *.
      eapply leb_trans; eassumption.
    + constructor; [now apply IH|].
      assert (Hin : forall z, In z (insert_by key leb x r) -> key_le key leb y z).
      { intros z Hz.
        apply (Permutation_in _ (Permutation_sym (insert_by_perm key leb x r))) in Hz.
        destruct Hz as [<-|Hz]; [now apply leb_total|].
        rewrite Forall_forall in Hy. now apply Hy. }
      rewrite Forall_forall. exact Hin.
Qed.

Lemma py_sorted_sorted l : StronglySorted (key_le key leb) (py_sorted key leb l).
Proof.
  induction l as [|x r IH]; cbn; [constructor | now apply insert_by_sorted].
Qed.

Lemma sorted_app_le l1 l2 x y :
  StronglySorted (key_le key leb) (l1 ++ l2) -> In x l1 -> In y l2 -> key_le key leb x y.
Proof.
  induction l1 as [|z l1 IH]; cbn; [contradiction|].
  intros H [<-|Hx] Hy; inversion H as [|? ? Hr Hz]; subst.
  - rewrite Forall_forall in Hz. apply Hz. apply in_or_app. now right.
  - now apply IH.
Qed.

End SortedOrder.

Lemma before_In {A} (a b : A) l : before a b l -> In a l /\ In b l.
Proof.
  induction l as [|x r IH]; cbn; [contradiction|].
  intros [[-> H]|H]; [tauto|]. destruct (IH H). tauto.
Qed.

Section Stable.
Context {A K : Type} (key : A -> K) (leb : K -> K -> bool).

Lemma insert_by_head_before x b l :
  In b l -> leb (key x) (key b) = true -> before x b (insert_by key leb x l).
Proof.
  induction l as [|y r IH]; cbn; [contradiction|].
  intros Hin Hle. destruct (leb (key x) (key y)) eqn:E; cbn.
  - left. tauto.
  - right. destruct Hin as [->|Hin]; [congruence | now apply IH].
Qed.

Lemma insert_by_keeps_before x a b l :
  before a b l -> before a b (insert_by key leb x l).
Proof.
  induction l as [|y r IH]; cbn; [contradiction|].
  intros H. destruct (leb (key x) (key y)); cbn.
  - right. exact H.
  - destruct H as [[-> H]|H].
    + left. split; [reflexivity|].
      apply (Permutation_in _ (insert_by_perm key leb x r)). now right.
    + right. now apply IH.
Qed.

(** Stability: an item that stands before another and has no larger key
    still stands before it after sorting. *)
Lemma py_sorted_keeps_before a b l :
  before a b l -> leb (key a) (key b) = true -> before a b (py_sorted key leb l).
Proof.
  induction l as [|x r IH]; cbn; [contradiction|].
  intros [[-> H]|H] Hle.
  - apply insert_by_head_before; [|exact Hle]. now apply py_sorted_In.
  - apply insert_by_keeps_before. now apply IH.
Qed.

End Stable.

Lemma before_filter {A} (P : A -> bool) a b l :
  before a b l -> P a = true -> P b = true -> before a b (filter P l).
Proof.
  induction l as [|x r IH]; cbn; [contradiction|].
  intros [[-> H]|H] Pa Pb.
  - rewrite Pa. cbn. left. split; [reflexivity|]. apply filter_In. tauto.
  - destruct (P x); cbn; [right|]; now apply IH.
Qed.

Lemma before_firstn {A} (a b : A) l n :
  NoDup l -> before a b l -> In b (firstn n l) -> In a (firstn n l).
Proof.
  revert n. induction l as [|x r IH]; intros n Hnd; cbn; [contradiction|].
  inversion Hnd as [|? ? Hx Hr]; subst.
  destruct n as [|n]; cbn; [contradiction|].
  intros [[-> Hb]|H] Hin; [now left|].
  destruct Hin as [->|Hin].
  - exfalso. apply Hx. now destruct (before_In _ _ _ H).
  - right. now apply (IH n).
Qed.

Lemma list_remove_In x y l : In y (list_remove x l) -> In y l.
Proof.
  induction l as [|z r IH]; cbn; [tauto|].
  destruct (z =? x); cbn; [tauto|]. intros [<-|H]; tauto.
Qed.

Lemma list_remove_NoDup x l : NoDup l -> NoDup (list_remove x l).
Proof.
  induction l as [|z r IH]; cbn; [auto|]. intros H.
  inversion H as [|? ? Hz Hr]; subst.
  destruct (z =? x); [exact Hr|]. constructor; [|now apply IH].
  intros Hin. apply Hz. eapply list_remove_In. exact Hin.
Qed.

Lemma remove_all_ok ks : forall l,
  NoDup l -> NoDup (remove_all ks l) /\ forall y, In y (remove_all ks l) -> In y l.
Proof.
  unfold remove_all. induction ks as [|k ks IH]; intros l H; cbn; [auto|].
  destruct (IH (list_remove k l) (list_remove_NoDup k l H)) as [N I].
  split; [exact N|]. intros y Hy. eapply list_remove_In. apply I. exact Hy.
Qed.

Lemma queue_loop_order utcnow template urls : forall s created,
  order_ok s -> order_ok (snd (queue_loop utcnow template urls s created)).
Proof.
  induction urls as [|u urls IH]; intros s created H; cbn [queue_loop]; [exact H|].
  pose proof (new_task_spec utcnow template u s) as N. cbv zeta in N.
  destruct (new_task utcnow template u s) as [task s1]. cbn [fst snd] in N.
  destruct N as (N1 & _ & _ & N4 & _).
  apply IH. destruct H as [Hn Hb]. unfold order_ok. rewrite N4, N1. split.
  - apply NoDup_app; [exact Hn | repeat constructor; intros [] |].
    intros x Hx [<-|[]]. specialize (Hb _ Hx). lia.
  - intros tid Hin. apply in_app_or in Hin. destruct Hin as [Hin|[<-|[]]]; [|lia].
    specialize (Hb _ Hin). lia.
Qed.

Lemma order_ok_same s s' :
  task_order s' = task_order s -> task_counter s' = task_counter s ->
  order_ok s -> order_ok s'.
Proof. unfold order_ok. intros -> ->. auto. Qed.

Lemma step_order_ok utcnow dir fos ev sys sys' :
  step utcnow dir fos ev sys = Some sys' -> order_ok (st sys) -> order_ok (st sys').
Proof.
  destruct sys as [s p]. cbn [st pool].
  destruct ev as [payload| |n| |tid ok|tid info|tid o|tid|tid]; cbn [step st pool].
  - unfold queue_tasks. destruct (stripped_nonempty _) as [|u urls].
    + intros [= <-]. auto.
    + destruct (request_template dir fos payload) as [template|].
      * pose proof (queue_loop_order utcnow template (u :: urls) s []) as Q.
        destruct (queue_loop utcnow template (u :: urls) s []) as [created s1].
        intros [= <-]. exact Q.
      * intros [= <-]. auto.
  - destruct (try_schedule_next_spec utcnow s) as (adm & _ & (O & C & _) & _).
    destruct (try_schedule_next utcnow s) as [to_start s1]. cbn [snd] in *.
    intros [= <-]. now apply order_ok_same.
  - intros [= <-]. cbn [st].
    pose proof (set_concurrency_fields utcnow n s) as F. cbv zeta in F.
    destruct F as (_ & _ & O & C & _). now apply order_ok_same.
  - intros [= <-]. cbn [st].
    pose proof (clear_completed_tasks_fields utcnow s) as F. cbv zeta in F.
    destruct F as (_ & _ & O & C & _). intros [Hn Hb].
    destruct (remove_all_ok
                (map fst (filter (fun kv => is_terminal (snd kv)) (tasks s)))
                (task_order s) Hn) as [N I].
    unfold order_ok. rewrite O, C. split; [exact N|]. intros y Hy. now apply Hb, I.
  - destruct (find_worker tid Submitted p) as [w|]; [|discriminate].
    intros [= <-]. cbn [st].
    destruct (run_task_begin_frame utcnow (w_task w) s) as (_ & _ & _ & O & C).
    now apply order_ok_same.
  - destruct (find_worker tid Downloading p) as [w|]; [|discriminate].
    intros [= <-]. cbn [st].
    destruct (progress_hook_frame utcnow (id (w_task w)) info s)
      as (_ & O & C & _). now apply order_ok_same.
  - destruct (find_worker tid Downloading p) as [w|]; [|discriminate].
    intros [= <-]. cbn [st].
    pose proof (run_task_outcome_frame utcnow (w_task w) o s) as F. cbv zeta in F.
    destruct F as (_ & _ & O & C & _). now apply order_ok_same.
  - destruct (find_worker tid Finishing p) as [w|]; [|discriminate].
    intros [= <-]. cbn. auto.
  - destruct (find_worker tid Releasing p) as [w|]; [|discriminate].
    destruct (try_schedule_next_spec utcnow s) as (adm & _ & (O & C & _) & _).
    destruct (try_schedule_next utcnow s) as [to_start s1]. cbn [snd] in *.
    intros [= <-]. now apply order_ok_same.
Qed.

Lemma run_order_ok utcnow dir fos evs : forall sys sys',
  run utcnow dir fos evs sys = Some sys' -> order_ok (st sys) -> order_ok (st sys').
Proof.
  induction evs as [|ev evs IH]; intros sys sys'; cbn [run].
  - intros [= <-]. auto.
  - destruct (step utcnow dir fos ev sys) as [sys1|] eqn:E; [|discriminate].
    intros Hrun H. apply (IH sys1 sys' Hrun). eapply step_order_ok; eassumption.
Qed.

Lemma schedule_loop_keeps utcnow queued s acc tid t :
  Dict.get tid (tasks s) = Some t -> status t <> "Queued"%string ->
  Dict.get tid (tasks (snd (schedule_loop utcnow queued s acc))) = Some t.
Proof.
  intros G Hs.
  destruct (schedule_loop_spec utcnow queued s acc)
    as (adm & _ & _ & _ & _ & _ & H6 & H7 & _).
  rewrite H6; [exact G|].
  intros Hin. apply in_map_iff in Hin. destruct Hin as [e [Ee Hin]].
  rewrite Forall_forall in H7. destruct (H7 e Hin) as [_ (t' & stamp & G' & Hq & _)].
  rewrite Ee, G in G'. injection G' as <-. contradiction.
Qed.

(** The loop marks a prefix of the queue Scheduled. *)
Lemma schedule_loop_prefix utcnow queued : forall s acc,
  NoDup queued -> (forall tid, In tid queued -> is_queued s tid = true) ->
  exists n, forall tid, In tid queued ->
    (is_queued (snd (schedule_loop utcnow queued s acc)) tid = false
     <-> In tid (firstn n queued)).
Proof.
  induction queued as [|tid rest IH]; intros s acc Hnd Hq.
  - exists O. intros tid [].
  - inversion Hnd as [|? ? Hfresh Hnd']; subst. cbn [schedule_loop].
    destruct (active_workers s <? current_concurrency s) eqn:Hcap.
    2:{ exists O. intros k Hk. cbn [snd firstn]. rewrite (Hq k Hk).
        split; [discriminate | intros []]. }
    pose proof (Hq tid (or_introl eq_refl)) as Hhead.
    apply is_queued_true in Hhead. destruct Hhead as (task & G & Hst).
    rewrite G. destruct (String.eqb_spec (status task) "Queued") as [_|E];
      [|contradiction].
    cbn [read_clock].
    set (task' := set_last_update (set_status task "Scheduled")
                    (Clock.now_iso (utcnow (clock s)))).
    set (s3 := set_active_workers _ _).
    assert (Ht3 : Dict.get tid (tasks s3) = Some task') by (cbn; apply get_set_same).
    assert (Hq3 : forall k, In k rest -> is_queued s3 k = true).
    { intros k Hk. unfold is_queued.
      replace (Dict.get k (tasks s3)) with (Dict.get k (tasks s)).
      - apply (Hq k). now right.
      - symmetry. cbn. apply get_set_other. intros ->. contradiction. }
    destruct (IH s3 (acc ++ [task']) Hnd' Hq3) as [n Hn].
    exists (S n). intros k Hk. cbn [firstn].
    destruct Hk as [<-|Hk].
    + split; [intros _; now left|]. intros _. unfold is_queued.
      rewrite (schedule_loop_keeps utcnow rest s3 (acc ++ [task']) tid task' Ht3);
        [reflexivity | cbn; discriminate].
    + rewrite (Hn k Hk). split; [intros H; now right|].
      intros [<-|H]; [contradiction | exact H].
Qed.

(** What holds of every admission pass in a reachable state.  The queue is
    the Queued ids of the order sequence, sorted by [(-priority,
    created_at)], and the pass marks a prefix of it Scheduled.  Hence, of
    two Queued jobs, the one of strictly higher priority is admitted
    whenever the other is; and of two Queued jobs of equal priority the one
    submitted earlier is admitted whenever the other is, provided its
    [created_at] text is not the larger one. *)
Theorem admission_order utcnow dir fos (evs : list event) (sys : System) :
  run utcnow dir fos evs initial_system = Some sys ->
  let s := st sys in
  let s' := snd (try_schedule_next utcnow s) in
  StronglySorted
    (fun a b => key_leb (schedule_key s a) (schedule_key s b) = true) (queued_ids s)
  /\ (exists n, forall tid, In tid (queued_ids s) ->
        (is_queued s' tid = false <-> In tid (firstn n (queued_ids s))))
  /\ (forall a b ta tb,
        In a (task_order s) -> In b (task_order s) ->
        Dict.get a (tasks s) = Some ta -> Dict.get b (tasks s) = Some tb ->
        status ta = "Queued"%string -> status tb = "Queued"%string ->
        priority tb < priority ta ->
        is_queued s' b = false -> is_queued s' a = false)
  /\ (forall a b ta tb,
        before a b (task_order s) ->
        Dict.get a (tasks s) = Some ta -> Dict.get b (tasks s) = Some tb ->
        status ta = "Queued"%string -> status tb = "Queued"%string ->
        priority ta = priority tb ->
        String.leb (created_at ta) (created_at tb) = true ->
        is_queued s' b = false -> is_queued s' a = false).
Proof.
  intros Hrun. cbv zeta.
  assert (Hord : order_ok (st sys)).
  { apply (run_order_ok _ _ _ _ _ _ Hrun). split; [constructor | intros tid []]. }
  destruct Hord as [Hnd _].
  set (s := st sys) in *.
  assert (Hsorted : StronglySorted
            (fun a b => key_leb (schedule_key s a) (schedule_key s b) = true)
            (queued_ids s))
    by (apply (py_sorted_sorted (schedule_key s) key_leb key_leb_total key_leb_trans)).
  assert (Hndq : NoDup (queued_ids s)).
  { eapply Permutation_NoDup; [apply py_sorted_perm|]. now apply NoDup_filter. }
  assert (Hallq : forall tid, In tid (queued_ids s) -> is_queued s tid = true)
    by (intros tid H; now apply queued_ids_In in H).
  destruct (schedule_loop_prefix utcnow (queued_ids s) s [] Hndq Hallq) as [n Hn].
  fold (try_schedule_next utcnow s) in Hn.
  assert (Hmem : forall k t, In k (task_order s) -> Dict.get k (tasks s) = Some t ->
            status t = "Queued"%string -> In k (queued_ids s)).
  { intros k t Hin G S. apply queued_ids_In. split; [exact Hin|].
    apply is_queued_true. now exists t. }
  split; [exact Hsorted|]. split; [now exists n|]. split.
  - intros a b ta tb Ha Hb Ga Gb Sa Sb Hp Hadm.
    pose proof (Hmem a ta Ha Ga Sa) as Qa. pose proof (Hmem b tb Hb Gb Sb) as Qb.
    apply (Hn a Qa). apply (Hn b Qb) in Hadm.
    destruct (in_dec Z.eq_dec a (firstn n (queued_ids s))) as [Hin|Hnin]; [exact Hin|].
    exfalso.
    assert (Hsuf : In a (skipn n (queued_ids s))).
    { rewrite <- (firstn_skipn n (queued_ids s)) in Qa.
      apply in_app_or in Qa. tauto. }
    rewrite <- (firstn_skipn n (queued_ids s)) in Hsorted.
    pose proof (sorted_app_le (schedule_key s) key_leb _ _ b a Hsorted Hadm Hsuf) as Hle.
    unfold key_le in Hle. apply key_leb_fst in Hle.
    unfold schedule_key in Hle. rewrite Ga, Gb in Hle. cbn in Hle. lia.
  - intros a b ta tb Hbef Ga Gb Sa Sb Hp Hle Hadm.
    destruct (before_In _ _ _ Hbef) as [Ha Hb].
    pose proof (Hmem a ta Ha Ga Sa) as Qa. pose proof (Hmem b tb Hb Gb Sb) as Qb.
    apply (Hn a Qa). apply (Hn b Qb) in Hadm.
    apply (before_firstn a b _ n Hndq); [|exact Hadm].
    unfold queued_ids. apply py_sorted_keeps_before.
    + apply before_filter; [exact Hbef | |]; apply is_queued_true; eauto.
    + unfold schedule_key, key_leb. rewrite Ga, Gb. cbn.
      rewrite Hp, Z.ltb_irrefl, Z.eqb_refl. exact Hle.
Qed.

(** Scenario A: two jobs of priority 3 wait; a job of priority 5 is
    submitted; with the limit 1 the pass admits the job of priority 5. *)
Lemma scenario_a_priority_first :
  exists created to_start s1,
    api_add_to_queue (tick_clock 5) "/srv/downloads" no_float_text
      (payload_of "https://c" (VInt 5))
      (state_of [sample_task 1 3 "Queued" "2024-01-01T12:00:00.000001Z";
                 sample_task 2 3 "Queued" "2024-01-01T12:00:00.000002Z"] 1 0)
    = Some (created, to_start, s1)
    /\ map id created = [3]
    /\ map id to_start = [3]
    /\ map (fun t => (id t, priority t, status t)) (ordered_tasks s1)
       = [(1, 3, "Queued"); (2, 3, "Queued"); (3, 5, "Scheduled")]%string.
Proof.
  eexists. eexists. eexists.
  split; [vm_compute; reflexivity|].
  split; [vm_compute; reflexivity|].
  split; vm_compute; reflexivity.
Qed.
(* ------------------------------------------------------------------ *)
(** ** A pass after a pass *)

Lemma schedule_loop_full utcnow q s acc :
  (active_workers s <? current_concurrency s) = false ->
  schedule_loop utcnow q s acc = (acc, s).
Proof. intros H. destruct q; cbn [schedule_loop]; [reflexivity | now rewrite H]. Qed.

Lemma schedule_loop_absent utcnow queued s acc tid :
  Dict.get tid (tasks s) = None ->
  Dict.get tid (tasks (snd (schedule_loop utcnow queued s acc))) = None.
Proof.
  intros G. destruct (schedule_loop_spec utcnow queued s acc)
    as (adm & _ & _ & _ & _ & K & _).
  apply get_None_keys. rewrite K. now apply get_None_keys.
Qed.

(** When the loop ends there is no room left, or nothing of its queue is
    Queued any more. *)
Lemma schedule_loop_done utcnow queued : forall s acc,
  (active_workers (snd (schedule_loop utcnow queued s acc))
   <? current_concurrency (snd (schedule_loop utcnow queued s acc))) = false
  \/ forall tid, In tid queued ->
       is_queued (snd (schedule_loop utcnow queued s acc)) tid = false.
Proof.
  induction queued as [|tid rest IH]; intros s acc.
  - right. intros tid [].
  - cbn [schedule_loop].
    destruct (active_workers s <? current_concurrency s) eqn:Hcap;
      [|left; exact Hcap].
    destruct (Dict.get tid (tasks s)) as [task|] eqn:G.
    + destruct (String.eqb_spec (status task) "Queued") as [Hq|Hq].
      * cbn [read_clock].
        set (task' := set_last_update (set_status task "Scheduled")
                        (Clock.now_iso (utcnow (clock s)))).
        set (s3 := set_active_workers _ _).
        destruct (IH s3 (acc ++ [task'])) as [L|R]; [left; exact L|].
        right. intros k [<-|Hk]; [|now apply R].
        unfold is_queued.
        rewrite (schedule_loop_keeps utcnow rest s3 (acc ++ [task']) tid task');
          [reflexivity | cbn; apply get_set_same | cbn; discriminate].
      * destruct (IH s acc) as [L|R]; [left; exact L|].
        right. intros k [<-|Hk]; [|now apply R].
        unfold is_queued.
        rewrite (schedule_loop_keeps utcnow rest s acc tid task G Hq).
        now apply String.eqb_neq.
    + destruct (IH s acc) as [L|R]; [left; exact L|].
      right. intros k [<-|Hk]; [|now apply R].
      unfold is_queued. now rewrite (schedule_loop_absent utcnow rest s acc tid G).
Qed.

(** A pass turns no task into a Queued one. *)
Lemma pass_never_queues utcnow s tid :
  is_queued s tid = false ->
  is_queued (snd (try_schedule_next utcnow s)) tid = false.
Proof.
  unfold is_queued at 1. intros H. unfold try_schedule_next.
  destruct (Dict.get tid (tasks s)) as [t|] eqn:G.
  - apply String.eqb_neq in H. unfold is_queued.
    rewrite (schedule_loop_keeps utcnow (queued_ids s) s [] tid t G H).
    now apply String.eqb_neq.
  - unfold is_queued. now rewrite (schedule_loop_absent utcnow _ s [] tid G).
Qed.

Lemma filter_nil {A} (P : A -> bool) l :
  (forall x, In x l -> P x = false) -> filter P l = [].
Proof.
  induction l as [|x r IH]; intros H; cbn; [reflexivity|].
  rewrite (H x (or_introl eq_refl)). apply IH. intros y Hy. apply H. now right.
Qed.

(** X1.  A pass that follows a pass admits nothing and changes nothing:
    [try_schedule_next] run twice in a row is [try_schedule_next] run
    once. *)
Theorem try_schedule_next_twice utcnow (s : State) :
  try_schedule_next utcnow (snd (try_schedule_next utcnow s))
  = ([], snd (try_schedule_next utcnow s)).
Proof.
  pose proof (pass_never_queues utcnow s) as Hnq.
  destruct (try_schedule_next_spec utcnow s) as (adm & _ & (O & _) & _).
  pose proof (schedule_loop_done utcnow (queued_ids s) s []) as D.
  fold (try_schedule_next utcnow s) in D.
  remember (snd (try_schedule_next utcnow s)) as s' eqn:E. clear E.
  unfold try_schedule_next.
  destruct D as [L|R]; [now apply schedule_loop_full|].
  assert (Q : queued_ids s' = []).
  { unfold queued_ids. rewrite (filter_nil (is_queued s')); [reflexivity|].
    rewrite O. intros tid Hin.
    destruct (is_queued s tid) eqn:Hq; [|now apply Hnq].
    apply R. apply queued_ids_In. now split. }
  rewrite Q. reflexivity.
Qed.

(* ------------------------------------------------------------------ *)
(** ** The order sequence and the registry *)

Lemma remove_all_cons_other ks k l :
  ~ In k ks -> remove_all ks (k :: l) = k :: remove_all ks l.
Proof.
  unfold remove_all. revert l. induction ks as [|x ks IH]; intros l H; cbn; [reflexivity|].
  destruct (Z.eqb_spec k x) as [->|Hne]; [exfalso; apply H; now left|].
  apply IH. intros Hin. apply H. now right.
Qed.

(** Removing the ids of the finished tasks from the key sequence leaves the
    keys of the other tasks. *)
Lemma remove_all_terminal (d : list (Z * DownloadTask)) :
  dict_wf d ->
  remove_all (map fst (filter (fun kv => is_terminal (snd kv)) d)) (Dict.keys d)
  = Dict.keys (filter live d).
Proof.
  unfold dict_wf. induction d as [|[k v] r IH]; intros H; [reflexivity|].
  cbn in H. inversion H as [|? ? Hk Hr]; subst.
  cbn [filter snd live Dict.keys map fst]. unfold live at 1. cbn [snd].
  destruct (is_terminal v); cbn [negb map fst].
  - unfold remove_all. cbn [fold_left list_remove]. rewrite Z.eqb_refl.
    apply (IH Hr).
  - rewrite remove_all_cons_other.
    + f_equal. apply (IH Hr).
    + intros Hin. apply Hk. eapply keys_filter_incl. exact Hin.
Qed.

Lemma flat_map_agree {A B} (f g : A -> list B) l :
  (forall a, In a l -> f a = g a) -> flat_map f l = flat_map g l.
Proof.
  induction l as [|x r IH]; intros H; cbn; [reflexivity|].
  rewrite (H x (or_introl eq_refl)), IH; [reflexivity|].
  intros a Ha. apply H. now right.
Qed.

Lemma values_by_keys (d : list (Z * DownloadTask)) :
  dict_wf d -> flat_map (lookup_list d) (Dict.keys d) = Dict.values d.
Proof.
  unfold dict_wf, Dict.keys, Dict.values.
  induction d as [|[k v] r IH]; intros H; [reflexivity|].
  cbn in H. inversion H as [|? ? Hk Hr]; subst.
  cbn [map fst snd flat_map].
  unfold lookup_list at 1. cbn [Dict.get]. rewrite Z.eqb_refl. cbn [app]. f_equal.
  rewrite <- (IH Hr). apply flat_map_agree. intros a Ha.
  unfold lookup_list. cbn [Dict.get].
  destruct (Z.eqb_spec k a) as [->|_]; [contradiction | reflexivity].
Qed.

Lemma queue_loop_keys utcnow template urls : forall s created,
  order_ok s -> task_order s = Dict.keys (tasks s) ->
  task_order (snd (queue_loop utcnow template urls s created))
  = Dict.keys (tasks (snd (queue_loop utcnow template urls s created))).
Proof.
  induction urls as [|u urls IH]; intros s created Ho Hk; cbn [queue_loop]; [exact Hk|].
  pose proof (queue_loop_order utcnow template [u] s []) as O1.
  cbn [queue_loop] in O1.
  pose proof (new_task_spec utcnow template u s) as N. cbv zeta in N.
  destruct (new_task utcnow template u s) as [task s1]. cbn [fst snd] in N, O1.
  destruct N as (_ & _ & _ & N4 & N5 & _).
  apply IH; [now apply O1|].
  rewrite N4, N5, Hk. symmetry. apply keys_set_absent.
  apply get_None_keys. rewrite <- Hk. intros Hin.
  destruct Ho as [_ Hb]. specialize (Hb _ Hin). lia.
Qed.

Lemma step_keys utcnow dir fos ev sys sys' :
  step utcnow dir fos ev sys = Some sys' ->
  order_ok (st sys) -> task_order (st sys) = Dict.keys (tasks (st sys)) ->
  task_order (st sys') = Dict.keys (tasks (st sys')).
Proof.
  destruct sys as [s p]. cbn [st pool].
  destruct ev as [payload| |n| |tid ok|tid info|tid o|tid|tid]; cbn [step st pool].
  - unfold queue_tasks. destruct (stripped_nonempty _) as [|u urls].
    + intros [= <-]. auto.
    + destruct (request_template dir fos payload) as [template|].
      * pose proof (queue_loop_keys utcnow template (u :: urls) s []) as Q.
        destruct (queue_loop utcnow template (u :: urls) s []) as [created s1].
        intros [= <-]. exact Q.
      * intros [= <-]. auto.
  - destruct (try_schedule_next_spec utcnow s) as (adm & _ & (O & _) & _ & _ & K & _).
    destruct (try_schedule_next utcnow s) as [to_start s1]. cbn [snd] in *.
    intros [= <-]. cbn [st]. intros _ E. now rewrite O, K.
  - intros [= <-]. cbn [st].
    pose proof (set_concurrency_fields utcnow n s) as F. cbv zeta in F.
    destruct F as (_ & T & O & _). intros _ E. now rewrite O, T.
  - intros [= <-]. cbn [st].
    pose proof (clear_completed_tasks_fields utcnow s) as F. cbv zeta in F.
    destruct F as (_ & T & O & _). intros [Hn _] E.
    assert (W : dict_wf (tasks s)) by (unfold dict_wf; now rewrite <- E).
    rewrite O, T, E, (pop_all_terminal _ W). now apply remove_all_terminal.
  - destruct (find_worker tid Submitted p) as [w|]; [|discriminate].
    intros [= <-]. cbn [st].
    destruct (run_task_begin_frame utcnow (w_task w) s) as (K & _ & _ & O & _).
    intros _ E. now rewrite O, K.
  - destruct (find_worker tid Downloading p) as [w|]; [|discriminate].
    intros [= <-]. cbn [st].
    destruct (progress_hook_frame utcnow (id (w_task w)) info s)
      as (K & O & _). intros _ E. now rewrite O, K.
  - destruct (find_worker tid Downloading p) as [w|]; [|discriminate].
    intros [= <-]. cbn [st].
    pose proof (run_task_outcome_frame utcnow (w_task w) o s) as F. cbv zeta in F.
    destruct F as (K & _ & O & _). intros _ E. now rewrite O, K.
  - destruct (find_worker tid Finishing p) as [w|]; [|discriminate].
    intros [= <-]. cbn. auto.
  - destruct (find_worker tid Releasing p) as [w|]; [|discriminate].
    destruct (try_schedule_next_spec utcnow s) as (adm & _ & (O & _) & _ & _ & K & _).
    destruct (try_schedule_next utcnow s) as [to_start s1]. cbn [snd] in *.
    intros [= <-]. cbn [st]. intros _ E. now rewrite O, K.
Qed.

Lemma run_keys utcnow dir fos evs : forall sys sys',
  run utcnow dir fos evs sys = Some sys' ->
  order_ok (st sys) -> task_order (st sys) = Dict.keys (tasks (st sys)) ->
  order_ok (st sys') /\ task_order (st sys') = Dict.keys (tasks (st sys')).
Proof.
  induction evs as [|ev evs IH]; intros sys sys'; cbn [run].
  - intros [= <-]. auto.
  - destruct (step utcnow dir fos ev sys) as [sys1|] eqn:E; [|discriminate].
    intros Hrun Ho Hk. apply (IH sys1 sys' Hrun).
    + eapply step_order_ok; eassumption.
    + eapply step_keys; eassumption.
Qed.

Lemma order_ok_initial : order_ok initial_state.
Proof. split; [constructor | intros tid []]. Qed.

(** X2.  In every state the server reaches, [task_order] is the sequence of
    the keys of [tasks], each once: the guard [tid in tasks] of the status
    view never fails, and the view lists every task of the registry once,
    in the order of submission. *)
Theorem status_lists_registry utcnow dir fos (evs : list event) (sys : System) :
  run utcnow dir fos evs initial_system = Some sys ->
  task_order (st sys) = Dict.keys (tasks (st sys))
  /\ NoDup (task_order (st sys))
  /\ ordered_tasks (st sys) = Dict.values (tasks (st sys))
  /\ (forall isfile view, api_status isfile (st sys) = Some view ->
        sv_tasks view = map (to_dict isfile) (Dict.values (tasks (st sys)))).
Proof.
  intros Hrun.
  destruct (run_keys utcnow dir fos evs initial_system sys Hrun order_ok_initial
              eq_refl) as [[Hn _] Hk].
  assert (V : ordered_tasks (st sys) = Dict.values (tasks (st sys))).
  { unfold ordered_tasks. rewrite Hk. apply values_by_keys.
    unfold dict_wf. now rewrite <- Hk. }
  split; [exact Hk|]. split; [exact Hn|]. split; [exact V|].
  intros isfile view. unfold api_status.
  destruct (gather_insights (st sys)); [|discriminate].
  intros [= <-]. cbn [sv_tasks]. now rewrite V.
Qed.

(** Four jobs, the first run to its end and cleared. *)
Lemma status_lists_registry_witness :
  exists sys,
    run (tick_clock 1) "/srv/downloads" no_float_text cleared_run initial_system
    = Some sys
    /\ task_order (st sys) = [2; 3; 4]
    /\ task_order (st sys) = Dict.keys (tasks (st sys)).
Proof.
  eexists. split; [vm_compute; reflexivity|].
  split; [vm_compute; reflexivity|].
  apply (status_lists_registry (tick_clock 1) "/srv/downloads" no_float_text cleared_run).
  vm_compute. reflexivity.
Defined.

(* ------------------------------------------------------------------ *)
(** ** The bounded buffers: the log and the history file *)

Lemma lastn_length {A} n (l : list A) : (List.length (lastn n l) <= n)%nat.
Proof. unfold lastn. rewrite length_skipn. lia. Qed.

Lemma bounded_append_last {A} n (l : list A) x :
  (0 < n)%nat -> exists kept, bounded_append n l x = kept ++ [x].
Proof.
  intros Hn. unfold bounded_append, lastn. rewrite length_app. cbn [List.length].
  rewrite skipn_app.
  replace (List.length l + 1 - n - List.length l)%nat with O by lia.
  cbn [skipn]. now eexists.
Qed.

(** The log and the history within their limits. *)
Lemma append_log_bounded utcnow msg s :
  (List.length (log_lines (append_log utcnow msg s)) <= LOG_LIMIT)%nat
  /\ history (append_log utcnow msg s) = history s.
Proof.
  pose proof (append_log_fields utcnow msg s) as F. cbv zeta in F.
  destruct F as (_ & _ & _ & _ & _ & H & L & _). rewrite L. split; [|exact H].
  apply lastn_length.
Qed.

Lemma update_task_buffers utcnow tid kwargs s :
  log_lines (snd (update_task utcnow tid kwargs s)) = log_lines s
  /\ history (snd (update_task utcnow tid kwargs s)) = history s.
Proof.
  pose proof (update_task_frame utcnow tid kwargs s) as F. cbv zeta in F.
  destruct F as (_ & _ & (_ & _ & _ & _ & L & H) & _). now split.
Qed.

Lemma new_task_buffers utcnow template u s :
  (List.length (log_lines (snd (new_task utcnow template u s))) <= LOG_LIMIT)%nat
  /\ history (snd (new_task utcnow template u s)) = history s.
Proof.
  unfold new_task. cbn [read_clock snd].
  match goal with |- context [append_log utcnow ?m ?x] =>
    destruct (append_log_bounded utcnow m x) as [L H] end.
  split; [exact L | rewrite H; reflexivity].
Qed.

Lemma queue_loop_buffers utcnow template urls : forall s created,
  (List.length (log_lines s) <= LOG_LIMIT)%nat ->
  (List.length (log_lines (snd (queue_loop utcnow template urls s created)))
   <= LOG_LIMIT)%nat
  /\ history (snd (queue_loop utcnow template urls s created)) = history s.
Proof.
  induction urls as [|u urls IH]; intros s created Hl; cbn [queue_loop]; [now split|].
  destruct (new_task_buffers utcnow template u s) as [L H].
  destruct (new_task utcnow template u s) as [task s1]. cbn [snd] in L, H.
  destruct (IH s1 (created ++ [task]) L) as [L' H']. split; [exact L' | congruence].
Qed.

Lemma run_task_outcome_buffers utcnow task o s :
  (List.length (history s) <= HISTORY_LIMIT)%nat ->
  (List.length (log_lines (run_task_outcome utcnow task o s)) <= LOG_LIMIT)%nat
  /\ (List.length (history (run_task_outcome utcnow task o s)) <= HISTORY_LIMIT)%nat.
Proof.
  intros Hh. destruct o as [|msg]; unfold run_task_outcome.
  - cbn [read_clock].
    match goal with |- context [append_log utcnow ?m ?x] =>
      destruct (append_log_bounded utcnow m x) as [L H] end.
    split; [exact L|]. rewrite H. unfold history_append. cbn [history set_history].
    apply lastn_length.
  - match goal with |- context [append_log utcnow ?m ?x] =>
      destruct (append_log_bounded utcnow m x) as [L H] end.
    split; [exact L|]. rewrite H.
    now rewrite (proj2 (update_task_buffers utcnow _ _ s)).
Qed.

Lemma clear_buffers utcnow s :
  (List.length (log_lines s) <= LOG_LIMIT)%nat ->
  (List.length (log_lines (snd (clear_completed_tasks utcnow s))) <= LOG_LIMIT)%nat
  /\ history (snd (clear_completed_tasks utcnow s)) = history s.
Proof.
  intros Hl. unfold clear_completed_tasks.
  pose proof (clear_loop_spec
                (map fst (filter (fun kv => is_terminal (snd kv)) (tasks s))) s 0) as F.
  cbv zeta in F. destruct F as (_ & _ & _ & _ & _ & _ & L & H & _).
  destruct (clear_loop _ s 0) as [removed s1]. cbn [fst snd] in L, H.
  destruct (removed =? 0); cbn [snd].
  - split; congruence.
  - destruct (append_log_bounded utcnow
                ("Cleared " ++ PyStr.of_Z removed ++ " finished task(s)") s1) as [L' H'].
    split; [exact L' | congruence].
Qed.

Lemma step_buffers utcnow dir fos ev sys sys' :
  step utcnow dir fos ev sys = Some sys' ->
  (List.length (log_lines (st sys)) <= LOG_LIMIT)%nat
  /\ (List.length (history (st sys)) <= HISTORY_LIMIT)%nat ->
  (List.length (log_lines (st sys')) <= LOG_LIMIT)%nat
  /\ (List.length (history (st sys')) <= HISTORY_LIMIT)%nat.
Proof.
  destruct sys as [s p]. cbn [st pool].
  destruct ev as [payload| |n| |tid ok|tid info|tid o|tid|tid]; cbn [step st pool].
  - unfold queue_tasks. destruct (stripped_nonempty _) as [|u urls].
    + intros [= <-]. auto.
    + destruct (request_template dir fos payload) as [template|].
      * pose proof (queue_loop_buffers utcnow template (u :: urls) s []) as Q.
        destruct (queue_loop utcnow template (u :: urls) s []) as [created s1].
        intros [= <-] [Hl Hh]. cbn [st snd] in *. destruct (Q Hl) as [L H].
        split; [exact L | now rewrite H].
      * intros [= <-]. auto.
  - destruct (try_schedule_next_spec utcnow s) as (adm & _ & (_ & _ & _ & L & H) & _).
    destruct (try_schedule_next utcnow s) as [to_start s1]. cbn [snd] in *.
    intros [= <-]. cbn [st]. now rewrite L, H.
  - intros [= <-]. cbn [st]. intros [_ Hh].
    destruct (append_log_bounded utcnow
                ("Concurrency tuned to "
                 ++ PyStr.of_Z (current_concurrency
                      (set_current_concurrency s (Z.max 1 (Z.min n MAX_WORKERS)))))
                (set_current_concurrency s (Z.max 1 (Z.min n MAX_WORKERS))))
      as [L H].
    unfold set_concurrency. split; [exact L | now rewrite H].
  - intros [= <-]. cbn [st]. intros [Hl Hh].
    destruct (clear_buffers utcnow s Hl) as [L H]. split; [exact L | now rewrite H].
  - destruct (find_worker tid Submitted p) as [w|]; [|discriminate].
    intros [= <-]. cbn [st]. intros [_ Hh]. unfold run_task_begin.
    destruct (update_task_buffers utcnow (id (w_task w))
                [kw_status "Running"; kw_message "Preparing download";
                 kw_progress (NFloat 0%float)]
                (append_log utcnow ("Starting " ++ url (w_task w)) s)) as [L H].
    rewrite L, H.
    destruct (append_log_bounded utcnow ("Starting " ++ url (w_task w)) s) as [L' H'].
    split; [exact L' | now rewrite H'].
  - destruct (find_worker tid Downloading p) as [w|]; [|discriminate].
    intros [= <-]. cbn [st]. unfold _progress_hook.
    destruct (update_task_buffers utcnow (id (w_task w)) (hook_kwargs info) s) as [L H].
    now rewrite L, H.
  - destruct (find_worker tid Downloading p) as [w|]; [|discriminate].
    intros [= <-]. cbn [st]. intros [_ Hh].
    now apply run_task_outcome_buffers.
  - destruct (find_worker tid Finishing p) as [w|]; [|discriminate].
    intros [= <-]. cbn. auto.
  - destruct (find_worker tid Releasing p) as [w|]; [|discriminate].
    destruct (try_schedule_next_spec utcnow s) as (adm & _ & (_ & _ & _ & L & H) & _).
    destruct (try_schedule_next utcnow s) as [to_start s1]. cbn [snd] in *.
    intros [= <-]. cbn [st]. now rewrite L, H.
Qed.

(** X3.  The log never holds more than [LOG_LIMIT] lines and the history
    file never more than 200 records, in any state the server reaches; a
    line or a record that is appended is the last one afterwards. *)
Theorem buffers_bounded utcnow dir fos :
  (forall evs sys,
     run utcnow dir fos evs initial_system = Some sys ->
     (List.length (log_lines (st sys)) <= LOG_LIMIT)%nat
     /\ (List.length (history (st sys)) <= HISTORY_LIMIT)%nat)
  /\ (forall msg s,
        (List.length (log_lines (append_log utcnow msg s)) <= LOG_LIMIT)%nat
        /\ exists kept,
             log_lines (append_log utcnow msg s)
             = kept ++ ["[" ++ Clock.hms (utcnow (clock s)) ++ "] " ++ msg]%string)
  /\ (forall r s,
        (List.length (history (history_append r s)) <= HISTORY_LIMIT)%nat
        /\ exists kept, history (history_append r s) = kept ++ [r]).
Proof.
  split.
  { intros evs. 
    assert (G : forall sys sys',
      run utcnow dir fos evs sys = Some sys' ->
      (List.length (log_lines (st sys)) <= LOG_LIMIT)%nat
      /\ (List.length (history (st sys)) <= HISTORY_LIMIT)%nat ->
      (List.length (log_lines (st sys')) <= LOG_LIMIT)%nat
      /\ (List.length (history (st sys')) <= HISTORY_LIMIT)%nat).
    { induction evs as [|ev evs IH]; intros sys sys'; cbn [run].
      - intros [= <-]. auto.
      - destruct (step utcnow dir fos ev sys) as [sys1|] eqn:E; [|discriminate].
        intros Hrun H. apply (IH sys1 sys' Hrun). eapply step_buffers; eassumption. }
    intros sys Hrun. apply (G initial_system sys Hrun). cbn. split; apply Nat.le_0_l. }
  split.
  - intros msg s. split; [apply append_log_bounded|].
    pose proof (append_log_fields utcnow msg s) as F. cbv zeta in F.
    destruct F as (_ & _ & _ & _ & _ & _ & L & _). rewrite L.
    apply bounded_append_last. unfold LOG_LIMIT. lia.
  - intros r s. unfold history_append. cbn [history set_history].
    split; [apply lastn_length|]. apply bounded_append_last. unfold HISTORY_LIMIT. lia.
Qed.

(* ------------------------------------------------------------------ *)
(** ** The tail of the history *)

Lemma slice_from_suffix {A} start (l : list A) :
  exists older, l = older ++ slice_from start l.
Proof. unfold slice_from. eexists. symmetry. apply firstn_skipn. Qed.

(** X4.  [tail(limit)] returns the last [limit] records when [limit] is
    positive (all of them when there are fewer), every record when [limit]
    is 0, and all but the first [-limit] when [limit] is negative; right
    after [append(r)], [tail(1)] is [r] alone. *)
Theorem history_tail_spec (s : State) :
  (forall limit, 0 < limit ->
     (exists older, history s = older ++ history_tail limit s)
     /\ Z.of_nat (List.length (history_tail limit s))
        = Z.min limit (Z.of_nat (List.length (history s))))
  /\ history_tail 0 s = history s
  /\ (forall limit, limit < 0 ->
        history_tail limit s = skipn (Z.to_nat (- limit)) (history s))
  /\ (forall r, history_tail 1 (history_append r s) = [r]).
Proof.
  split.
  { intros limit Hl. split; [apply slice_from_suffix|].
    unfold history_tail, slice_from.
    destruct (Z.ltb_spec (- limit) 0) as [_|]; [|lia].
    rewrite length_skipn. lia. }
  split.
  { unfold history_tail, slice_from. cbn [Z.opp Z.ltb Z.compare].
    rewrite Z.min_l by lia. reflexivity. }
  split.
  { intros limit Hl. unfold history_tail, slice_from.
    destruct (Z.ltb_spec (- limit) 0) as [|_]; [lia|].
    destruct (Z.min_spec (- limit) (Z.of_nat (List.length (history s))))
      as [[_ ->]|[Hge ->]].
    - reflexivity.
    - rewrite Nat2Z.id. rewrite !skipn_all2; [reflexivity | lia | lia]. }
  intros r. destruct (bounded_append_last HISTORY_LIMIT (history s) r) as [kept E];
    [unfold HISTORY_LIMIT; lia|].
  unfold history_tail, history_append, slice_from. cbn [history set_history].
  rewrite E. cbn [Z.opp Z.ltb Z.compare]. rewrite length_app. cbn [List.length].
  replace (Z.to_nat (Z.max (-1 + Z.of_nat (List.length kept + 1)) 0))
    with (List.length kept) by lia.
  rewrite skipn_app, skipn_all, Nat.sub_diag. reflexivity.
Qed.

(* ------------------------------------------------------------------ *)
(** ** What a submission creates *)

Lemma set_absent_app {V} (d : list (Z * V)) k v :
  ~ In k (Dict.keys d) -> Dict.set k v d = d ++ [(k, v)].
Proof.
  induction d as [|[k' v'] r IH]; intros H; cbn; [reflexivity|].
  destruct (Z.eqb_spec k' k) as [->|_]; [exfalso; apply H; now left|].
  rewrite IH; [reflexivity|]. intros Hin. apply H. now right.
Qed.

(** The fields of a new task: the URL, the next id, the fixed initial
    values, and the request's fields as the template holds them. *)
Lemma new_task_fields utcnow template u s :
  let t := fst (new_task utcnow template u s) in
  url t = u /\ id t = task_counter s
  /\ status t = "Queued"%string /\ message t = "Queued"%string
  /\ progress t = NFloat 0%float /\ filepath t = None
  /\ priority t = priority template /\ tags t = tags template.
Proof. cbv zeta. unfold new_task. cbn. repeat split. Qed.

(** The tasks the loop of [queue_tasks] creates for [urls] from a state [s]
    whose ids are all below [task_counter s]. *)
Lemma queue_loop_creates utcnow template urls : forall s created,
  (forall k, In k (Dict.keys (tasks s)) -> k < task_counter s) ->
  exists news,
    fst (queue_loop utcnow template urls s created) = created ++ news
    /\ map url news = urls
    /\ map id news
       = map (fun i => task_counter s + Z.of_nat i) (seq 0 (List.length urls))
    /\ map created_at news
       = map (fun i => Clock.now_iso (utcnow (clock s + 3 * i)%nat))
           (seq 0 (List.length urls))
    /\ Forall (fun t => status t = "Queued"%string /\ message t = "Queued"%string
                        /\ progress t = NFloat 0%float /\ filepath t = None
                        /\ priority t = priority template
                        /\ tags t = tags template) news
    /\ tasks (snd (queue_loop utcnow template urls s created))
       = tasks s ++ map (fun t => (id t, t)) news
    /\ task_order (snd (queue_loop utcnow template urls s created))
       = task_order s ++ map id news
    /\ task_counter (snd (queue_loop utcnow template urls s created))
       = task_counter s + Z.of_nat (List.length urls).
Proof.
  induction urls as [|u urls IH]; intros s created Hf; cbn [queue_loop].
  - exists []. cbn. rewrite !app_nil_r. repeat split; try constructor. lia.
  - pose proof (new_task_spec utcnow template u s) as N. cbv zeta in N.
    pose proof (new_task_fields utcnow template u s) as F. cbv zeta in F.
    destruct (new_task utcnow template u s) as [task s1]. cbn [fst snd] in N, F.
    destruct N as (N1 & _ & _ & N4 & N5 & _ & _ & _ & N9 & N10).
    destruct F as (F1 & F2 & F3 & F4 & F5 & F6 & F7 & F8).
    assert (E5 : tasks s1 = tasks s ++ [(task_counter s, task)]).
    { rewrite N5. apply set_absent_app. intros Hin. specialize (Hf _ Hin). lia. }
    assert (Hf1 : forall k, In k (Dict.keys (tasks s1)) -> k < task_counter s1).
    { intros k. rewrite E5, N1. unfold Dict.keys. rewrite map_app.
      intros Hin. apply in_app_or in Hin. destruct Hin as [Hin|[<-|[]]]; [|cbn; lia].
      specialize (Hf _ Hin). lia. }
    destruct (IH s1 (created ++ [task]) Hf1)
      as (news & H1 & H2 & H3 & H4 & H5 & H6 & H7 & H8).
    exists (task :: news).
    split; [rewrite H1, <- app_assoc; reflexivity|].
    split; [cbn [map]; now rewrite F1, H2|].
    split.
    { cbn [map List.length seq]. rewrite F2, H3, N1. f_equal; [lia|].
      rewrite <- seq_shift, map_map. apply map_ext. intros i. lia. }
    split.
    { cbn [map List.length seq]. rewrite N9, H4, N10. f_equal; [do 2 f_equal; lia|].
      rewrite <- seq_shift, map_map. apply map_ext. intros i. do 2 f_equal. lia. }
    split; [constructor; [repeat split; assumption | exact H5]|].
    split; [rewrite H6, E5, <- app_assoc; cbn [map app]; now rewrite F2|].
    split; [rewrite H7, N4, <- app_assoc; cbn [map app]; now rewrite F2|].
    rewrite H8, N1. cbn [List.length]. lia.
Qed.

(** X5.  A submission creates one task per non-blank line of [urls], in the
    order of the lines: the tasks carry the stripped lines as URLs and the
    next ids of the counter, each is Queued with progress 0.0 and no output
    file, and they are appended, in that order, to the registry and to the
    order sequence. *)
Theorem queue_tasks_creates utcnow dir fos (payload : Payload) (s s' : State)
  (created : list DownloadTask) :
  (forall k, In k (Dict.keys (tasks s)) -> k < task_counter s) ->
  queue_tasks utcnow dir fos payload s = Some (created, s') ->
  let urls := stripped_nonempty
                (PyStr.splitlines (PyStr.or_default (p_urls payload) "")) in
  map url created = urls
  /\ map id created
     = map (fun i => task_counter s + Z.of_nat i) (seq 0 (List.length urls))
  /\ Forall (fun t => status t = "Queued"%string /\ message t = "Queued"%string
                      /\ progress t = NFloat 0%float /\ filepath t = None) created
  /\ tasks s' = tasks s ++ map (fun t => (id t, t)) created
  /\ task_order s' = task_order s ++ map id created
  /\ task_counter s' = task_counter s + Z.of_nat (List.length urls).
Proof.
  intros Hf. unfold queue_tasks. cbv zeta.
  destruct (stripped_nonempty _) as [|u urls] eqn:E.
  - intros [= <- <-]. cbn. rewrite !app_nil_r. repeat split; try constructor. lia.
  - destruct (request_template dir fos payload) as [template|]; [|discriminate].
    destruct (queue_loop_creates utcnow template (u :: urls) s [] Hf)
      as (news & H1 & H2 & H3 & _ & H5 & H6 & H7 & H8).
    destruct (queue_loop utcnow template (u :: urls) s []) as [c s1].
    cbn [fst snd app] in H1, H6, H7, H8. intros [= <- <-]. subst c.
    split; [exact H2|]. split; [exact H3|].
    split; [eapply Forall_impl; [|exact H5]; cbn; tauto|].
    split; [exact H6|]. split; [exact H7 | exact H8].
Qed.

(** Two blank lines among three URLs, from the start. *)
Lemma queue_tasks_creates_witness :
  exists created s',
    queue_tasks (tick_clock 1) "/srv/downloads" no_float_text
      (payload_of ("  https://a " ++ LF ++ LF ++ "https://b" ++ LF ++ "   " ++ LF
                   ++ "https://c") VNone) initial_state = Some (created, s')
    /\ map url created = ["https://a"; "https://b"; "https://c"]%string
    /\ map id created = [1; 2; 3]
    /\ task_order s' = map id created.
Proof.
  destruct (queue_tasks (tick_clock 1) "/srv/downloads" no_float_text
              (payload_of ("  https://a " ++ LF ++ LF ++ "https://b" ++ LF ++ "   " ++ LF
                           ++ "https://c") VNone) initial_state)
    as [[created s']|] eqn:E; [|vm_compute in E; discriminate E].
  exists created, s'. split; [reflexivity|].
  assert (Hf : forall k, In k (Dict.keys (tasks initial_state)) ->
                         k < task_counter initial_state) by (intros k []).
  pose proof (queue_tasks_creates (tick_clock 1) "/srv/downloads" no_float_text
                _ initial_state s' created Hf E) as H.
  cbv zeta in H. destruct H as (H1 & H2 & _ & _ & H5 & _).
  split; [rewrite H1; vm_compute; reflexivity|].
  split; [rewrite H2; vm_compute; reflexivity|].
  rewrite H5. reflexivity.
Defined.

(** X6.  Every task a submission creates has a priority from 1 to 10: the
    posted value is converted with [int] and clamped, and a value that is
    absent or falsy (0 included) counts as 3. *)
Theorem queue_tasks_priority utcnow dir fos (payload : Payload) (s s' : State)
  (created : list DownloadTask) (t : DownloadTask) :
  queue_tasks utcnow dir fos payload s = Some (created, s') -> In t created ->
  1 <= priority t <= 10
  /\ (PyNum.truthy (p_priority payload) = false -> priority t = 3)
  /\ (forall z, PyNum.truthy (p_priority payload) = true ->
        PyNum.py_int (p_priority payload) = Some z ->
        priority t = Z.max 1 (Z.min z 10)).
Proof.
  unfold queue_tasks.
  destruct (stripped_nonempty _) as [|u urls]; [intros [= <- _] []|].
  destruct (request_template dir fos payload) as [template|] eqn:R; [|discriminate].
  assert (P : 1 <= priority template <= 10
              /\ (PyNum.truthy (p_priority payload) = false -> priority template = 3)
              /\ (forall z, PyNum.truthy (p_priority payload) = true ->
                    PyNum.py_int (p_priority payload) = Some z ->
                    priority template = Z.max 1 (Z.min z 10))).
  { unfold request_template in R.
    destruct (PyNum.py_int (PyNum.or_default (p_playlist_limit payload) (VInt 0)))
      as [lim|]; [|discriminate].
    destruct (py_float fos _) as [rate|]; [|discriminate].
    unfold PyNum.or_default in R at 1.
    destruct (PyNum.truthy (p_priority payload)) eqn:T.
    - destruct (PyNum.py_int (p_priority payload)) as [pv|]; [|discriminate].
      injection R as <-. cbn [priority]. split; [lia|].
      split; [discriminate|]. now intros z _ [= <-].
    - cbn [PyNum.py_int] in R. injection R as <-. cbn [priority]. split; [lia|].
      split; [reflexivity | discriminate]. }
  intros Hq Hin.
  assert (Hp : priority t = priority template).
  { clear P R. revert Hq Hin.
    generalize (u :: urls) as us. intros us.
    assert (G : forall us s0 c0,
              (forall x, In x c0 -> priority x = priority template) ->
              forall x, In x (fst (queue_loop utcnow template us s0 c0)) ->
                        priority x = priority template).
    { clear. induction us as [|u us IH]; intros s0 c0 Hc x; cbn [queue_loop].
      - cbn. apply Hc.
      - pose proof (new_task_fields utcnow template u s0) as F. cbv zeta in F.
        destruct (new_task utcnow template u s0) as [task s1]. cbn [fst] in F.
        apply IH. intros y Hy. apply in_app_or in Hy.
        destruct Hy as [Hy|[<-|[]]]; [now apply Hc | apply F]. }
    intros [= E] Hin. apply (G us s [] (fun x (H : In x []) => match H with end)).
    rewrite E. exact Hin. }
  rewrite Hp. exact P.
Qed.

(** The priority 0 counts as 3, 99 as 10 and -4 as 1. *)
Lemma queue_tasks_priority_witness :
  exists created s' t,
    queue_tasks (tick_clock 1) "/srv/downloads" no_float_text
      (payload_of "https://a" (VInt 0)) initial_state = Some (created, s')
    /\ In t created
    /\ priority t = 3.
Proof.
  destruct (queue_tasks (tick_clock 1) "/srv/downloads" no_float_text
              (payload_of "https://a" (VInt 0)) initial_state)
    as [[[|t created] s']|] eqn:E;
    [vm_compute in E; discriminate E | | vm_compute in E; discriminate E].
  exists (t :: created), s', t. split; [reflexivity|].
  split; [left; reflexivity|].
  apply (queue_tasks_priority (tick_clock 1) "/srv/downloads" no_float_text
           _ initial_state s' (t :: created) t E (or_introl eq_refl)).
  reflexivity.
Defined.

(* ------------------------------------------------------------------ *)
(** ** Stripped text *)

Lemma lstrip_head s :
  PyStr.lstrip s = EmptyString
  \/ exists c r, PyStr.lstrip s = String c r /\ PyStr.is_space c = false.
Proof.
  induction s as [|c r IH]; [now left|]. cbn [PyStr.lstrip].
  destruct (PyStr.is_space c) eqn:E; [exact IH|]. right. now exists c, r.
Qed.

Lemma rstrip_head c r :
  PyStr.is_space c = false -> exists r', PyStr.rstrip (String c r) = String c r'.
Proof.
  intros H. cbn [PyStr.rstrip]. destruct (PyStr.rstrip r); rewrite ?H; now eexists.
Qed.

Lemma rstrip_idem s : PyStr.rstrip (PyStr.rstrip s) = PyStr.rstrip s.
Proof.
  induction s as [|c r IH]; [reflexivity|]. cbn [PyStr.rstrip].
  destruct (PyStr.rstrip r) as [|d r'] eqn:E.
  - destruct (PyStr.is_space c) eqn:Hc; [reflexivity|].
    cbn [PyStr.rstrip]. now rewrite Hc.
  - cbn [PyStr.rstrip] in IH |- *.
    destruct (PyStr.rstrip r') as [|e r'']; rewrite IH; reflexivity.
Qed.

(** Stripping a stripped text changes nothing. *)
Lemma strip_idem s : PyStr.strip (PyStr.strip s) = PyStr.strip s.
Proof.
  unfold PyStr.strip.
  destruct (lstrip_head s) as [->|(c & r & -> & Hc)]; [reflexivity|].
  destruct (rstrip_head c r Hc) as [r' E]. rewrite E.
  cbn [PyStr.lstrip]. rewrite Hc, <- E. apply rstrip_idem.
Qed.

Lemma In_chars_app c a b :
  In c (list_ascii_of_string (a ++ b))
  <-> In c (list_ascii_of_string a) \/ In c (list_ascii_of_string b).
Proof.
  induction a as [|x a IH]; cbn; [tauto|]. rewrite IH. tauto.
Qed.

Lemma lstrip_chars c s :
  In c (list_ascii_of_string (PyStr.lstrip s)) -> In c (list_ascii_of_string s).
Proof.
  induction s as [|x r IH]; cbn [PyStr.lstrip]; [auto|].
  destruct (PyStr.is_space x); [|auto]. intros H. right. now apply IH.
Qed.

Lemma rstrip_chars c s :
  In c (list_ascii_of_string (PyStr.rstrip s)) -> In c (list_ascii_of_string s).
Proof.
  induction s as [|x r IH]; cbn [PyStr.rstrip]; [auto|].
  destruct (PyStr.rstrip r) as [|d r'].
  - destruct (PyStr.is_space x); cbn; tauto.
  - cbn [list_ascii_of_string]. intros [->|H]; [now left|]. right. now apply IH.
Qed.

Lemma strip_chars c s :
  In c (list_ascii_of_string (PyStr.strip s)) -> In c (list_ascii_of_string s).
Proof. intros H. now apply lstrip_chars, rstrip_chars. Qed.

(** The items [stripped_nonempty] keeps: not empty, already stripped, and
    made of characters of an item of the input. *)
Lemma stripped_nonempty_In x xs :
  In x (stripped_nonempty xs) ->
  x <> EmptyString /\ PyStr.strip x = x
  /\ exists y, In y xs
       /\ forall c, In c (list_ascii_of_string x) -> In c (list_ascii_of_string y).
Proof.
  unfold stripped_nonempty. intros H. apply in_map_iff in H.
  destruct H as (y & <- & Hy). apply filter_In in Hy. destruct Hy as [Hy Ht].
  split; [intros E; rewrite E in Ht; discriminate|].
  split; [apply strip_idem|]. exists y. split; [exact Hy|].
  intros c. apply strip_chars.
Qed.

(** No line of [splitlines] holds a line boundary. *)
Lemma splitlines_from_clean s : forall cur after_cr line,
  (forall c, In c (list_ascii_of_string cur) -> PyStr.is_linebreak c = false) ->
  In line (PyStr.splitlines_from s cur after_cr) ->
  forall c, In c (list_ascii_of_string line) -> PyStr.is_linebreak c = false.
Proof.
  induction s as [|x r IH]; intros cur after_cr line Hcur; cbn [PyStr.splitlines_from].
  - destruct cur; [intros []|]. intros [<-|[]]. exact Hcur.
  - destruct (after_cr && (PyStr.code x =? 10)%N)%bool; [now apply IH|].
    destruct (PyStr.is_linebreak x) eqn:Hx.
    + intros [<-|H]; [exact Hcur|]. eapply IH; [|exact H]. intros c [].
    + apply IH. intros c Hc. apply In_chars_app in Hc.
      destruct Hc as [Hc|[<-|[]]]; [now apply Hcur | exact Hx].
Qed.

(** No piece of [split] holds the separator. *)
Lemma split_from_clean sep s : forall cur piece,
  (forall c, In c (list_ascii_of_string cur) -> c <> sep) ->
  In piece (PyStr.split_from sep s cur) ->
  forall c, In c (list_ascii_of_string piece) -> c <> sep.
Proof.
  induction s as [|x r IH]; intros cur piece Hcur; cbn [PyStr.split_from].
  - intros [<-|[]]. exact Hcur.
  - destruct (Ascii.eqb_spec x sep) as [->|Hx].
    + intros [<-|H]; [exact Hcur|]. eapply IH; [|exact H]. intros c [].
    + apply IH. intros c Hc. apply In_chars_app in Hc.
      destruct Hc as [Hc|[<-|[]]]; [now apply Hcur | exact Hx].
Qed.

Lemma queue_loop_urls utcnow template urls : forall s created,
  map url (fst (queue_loop utcnow template urls s created)) = map url created ++ urls
  /\ forall t, In t (fst (queue_loop utcnow template urls s created)) ->
       In t created \/ tags t = tags template.
Proof.
  induction urls as [|u urls IH]; intros s created; cbn [queue_loop].
  - cbn. rewrite app_nil_r. auto.
  - pose proof (new_task_fields utcnow template u s) as F. cbv zeta in F.
    destruct (new_task utcnow template u s) as [task s1]. cbn [fst] in F.
    destruct (IH s1 (created ++ [task])) as [H1 H2]. split.
    + rewrite H1, map_app, <- app_assoc. cbn. now rewrite (proj1 F).
    + intros t Ht. destruct (H2 t Ht) as [Hin|E]; [|now right].
      apply in_app_or in Hin. destruct Hin as [Hin|[<-|[]]]; [now left | right; apply F].
Qed.

(** X7.  The URL of every task a submission creates is a line of [urls]
    with the surrounding white space removed: it is not empty, stripping it
    again changes nothing, and it holds no line boundary.  The same of its
    tags, which hold no comma. *)
Theorem queue_tasks_clean_text utcnow dir fos (payload : Payload) (s s' : State)
  (created : list DownloadTask) (t : DownloadTask) :
  queue_tasks utcnow dir fos payload s = Some (created, s') -> In t created ->
  (url t <> EmptyString /\ PyStr.strip (url t) = url t
   /\ forall c, In c (list_ascii_of_string (url t)) -> PyStr.is_linebreak c = false)
  /\ (forall tag, In tag (tags t) ->
        tag <> EmptyString /\ PyStr.strip tag = tag
        /\ forall c, In c (list_ascii_of_string tag) -> c <> ","%char).
Proof.
  unfold queue_tasks.
  destruct (stripped_nonempty _) as [|u urls] eqn:E; [intros [= <- _] []|].
  destruct (request_template dir fos payload) as [template|] eqn:R; [|discriminate].
  intros Hq Hin.
  assert (Q : queue_loop utcnow template (u :: urls) s [] = (created, s'))
    by congruence.
  clear Hq.
  destruct (queue_loop_urls utcnow template (u :: urls) s []) as [H1 H2].
  rewrite Q in H1, H2. cbn [fst map app] in H1, H2.
  split.
  - assert (Hu : In (url t) (stripped_nonempty
                    (PyStr.splitlines (PyStr.or_default (p_urls payload) "")))).
    { rewrite E, <- H1. now apply in_map. }
    destruct (stripped_nonempty_In _ _ Hu) as (N & I & y & Hy & C).
    split; [exact N|]. split; [exact I|]. intros c Hc.
    apply (splitlines_from_clean (PyStr.or_default (p_urls payload) "")
             EmptyString false y); [intros ? [] | exact Hy | auto].
  - destruct (H2 t Hin) as [[]|Et]. rewrite Et.
    unfold request_template in R.
    destruct (PyNum.py_int (PyNum.or_default (p_playlist_limit payload) (VInt 0)))
      as [lim|]; [|discriminate].
    destruct (py_float fos _) as [rate|]; [|discriminate].
    destruct (PyNum.py_int (PyNum.or_default (p_priority payload) (VInt 3)))
      as [pv|]; [|discriminate].
    injection R as <-. cbn [tags]. intros tag Htag.
    destruct (stripped_nonempty_In _ _ Htag) as (N & I & y & Hy & C).
    split; [exact N|]. split; [exact I|]. intros c Hc.
    apply (split_from_clean ","%char (PyStr.or_default (p_tags payload) "")
             EmptyString y); [intros ? [] | exact Hy | auto].
Qed.

(** A request with padded lines and padded tags. *)
Lemma queue_tasks_clean_text_witness :
  exists created s' t,
    queue_tasks (tick_clock 1) "/srv/downloads" no_float_text tagged_payload
      initial_state = Some (created, s')
    /\ In t created
    /\ url t = "https://a"%string
    /\ tags t = ["music"; "live set"]%string
    /\ PyStr.strip (url t) = url t.
Proof.
  destruct (queue_tasks (tick_clock 1) "/srv/downloads" no_float_text tagged_payload
              initial_state)
    as [[[|t created] s']|] eqn:E;
    [vm_compute in E; discriminate E | | vm_compute in E; discriminate E].
  exists (t :: created), s', t. split; [reflexivity|].
  split; [left; reflexivity|].
  split; [vm_compute in E; injection E as E _; now rewrite <- E|].
  split; [vm_compute in E; injection E as E _; now rewrite <- E|].
  exact (proj1 (proj2 (proj1
           (queue_tasks_clean_text (tick_clock 1) "/srv/downloads" no_float_text
              _ initial_state s' (t :: created) t E (or_introl eq_refl))))).
Defined.

(* ------------------------------------------------------------------ *)
(** ** Clearing twice *)

Lemma filter_terminal_live (d : list (Z * DownloadTask)) :
  filter (fun kv => is_terminal (snd kv)) (filter live d) = [].
Proof.
  apply filter_nil. intros kv H. apply filter_In in H. destruct H as [_ H].
  unfold live in H. now destruct (is_terminal (snd kv)).
Qed.

(** X8.  Clearing right after clearing removes nothing and changes nothing
    (no log line is written for zero removals). *)
Theorem clear_completed_tasks_twice utcnow (s : State) :
  dict_wf (tasks s) ->
  clear_completed_tasks utcnow (snd (clear_completed_tasks utcnow s))
  = (0, snd (clear_completed_tasks utcnow s)).
Proof.
  intros W.
  pose proof (clear_completed_tasks_fields utcnow s) as F. cbv zeta in F.
  destruct F as (_ & T & _). rewrite (pop_all_terminal _ W) in T.
  remember (snd (clear_completed_tasks utcnow s)) as s' eqn:E. clear E.
  unfold clear_completed_tasks. rewrite T, filter_terminal_live. reflexivity.
Qed.

(** Scenario D, then a second clearing. *)
Lemma clear_completed_tasks_twice_witness :
  let s := state_of [sample_task 1 3 "Completed" "a"; sample_task 2 3 "Running" "b";
                     sample_task 3 3 "Failed" "c"; sample_task 4 3 "Completed" "d"] 2 1 in
  fst (clear_completed_tasks (tick_clock 0) s) = 3
  /\ fst (clear_completed_tasks (tick_clock 0)
            (snd (clear_completed_tasks (tick_clock 0) s))) = 0.
Proof.
  cbv zeta. split; [vm_compute; reflexivity|].
  rewrite (clear_completed_tasks_twice (tick_clock 0)); [reflexivity|].
  unfold dict_wf. vm_compute. repeat constructor; cbn; intuition discriminate.
Defined.

(* ------------------------------------------------------------------ *)
(** ** The status view and the download route *)

(** X9.  The flag [download_ready] the status view shows for a task is
    true exactly when the download route serves the task's file; the route
    answers 404 for an id that is not registered. *)
Theorem download_ready_iff_served isfile (s : State) (tid : Z) :
  (forall t, Dict.get tid (tasks s) = Some t ->
     (v_download_ready (to_dict isfile t) = true
      <-> exists path, download_task_file isfile tid s = SendFile path)
     /\ (forall path, download_task_file isfile tid s = SendFile path ->
           filepath t = Some path /\ status t = "Completed"%string
           /\ isfile path = true /\ path <> EmptyString))
  /\ (Dict.get tid (tasks s) = None -> download_task_file isfile tid s = Abort404).
Proof.
  split.
  - intros t G. unfold download_task_file, to_dict. rewrite G. cbn [v_download_ready].
    destruct (String.eqb_spec (status t) "Completed") as [Hs|Hs]; cbn [negb].
    + destruct (filepath t) as [f|].
      * destruct f as [|c f]; cbn [PyStr.truthy negb andb].
        -- split; [split; [discriminate | intros [? [=]]] | intros ? [=]].
        -- destruct (isfile (String c f)) eqn:Hf.
           ++ split; [split; [now eexists | reflexivity]|].
              intros path [= <-]. repeat split; try assumption. discriminate.
           ++ split; [split; [discriminate | intros [? [=]]] | intros ? [=]].
      * split; [split; [discriminate | intros [? [=]]] | intros ? [=]].
    + split.
      * split; [|intros [? [=]]]. destruct (filepath t) as [f|]; [|discriminate].
        rewrite andb_false_r. discriminate.
      * intros ? [=].
  - intros G. unfold download_task_file. now rewrite G.
Qed.

(* ------------------------------------------------------------------ *)
(** ** The counts of the insights *)

(** X10.  The five counts [gather_insights] returns add up to the number
    of tasks whose status is one of the five names; a task with any other
    status text, as a job has while it downloads, is in no count. *)
Theorem gather_insights_buckets (s : State) (ins : Insights) :
  gather_insights s = Some ins ->
  let named t := existsb (String.eqb (status t))
                   ["Queued"; "Scheduled"; "Running"; "Completed"; "Failed"]%string in
  queued ins + scheduled ins + running ins + completed ins + failed ins
  = Z.of_nat (List.length (filter named (Dict.values (tasks s))))
  /\ queued ins + scheduled ins + running ins + completed ins + failed ins
     + Z.of_nat (List.length (filter (fun t => negb (named t)) (Dict.values (tasks s))))
     = Z.of_nat (List.length (tasks s)).
Proof.
  intros G. cbv zeta.
  assert (E : queued ins = count_status "Queued" (Dict.values (tasks s))
              /\ scheduled ins = count_status "Scheduled" (Dict.values (tasks s))
              /\ running ins = count_status "Running" (Dict.values (tasks s))
              /\ completed ins = count_status "Completed" (Dict.values (tasks s))
              /\ failed ins = count_status "Failed" (Dict.values (tasks s))).
  { unfold gather_insights in G.
    destruct (match List.length (Dict.values (tasks s)) with
              | O => Some 0%float
              | S _ => _
              end); [|discriminate].
    injection G as <-. cbn. repeat split. }
  destruct E as (-> & -> & -> & -> & ->).
  replace (List.length (tasks s)) with (List.length (Dict.values (tasks s)))
    by (unfold Dict.values; apply length_map).
  unfold count_status. generalize (Dict.values (tasks s)) as l.
  induction l as [|t l [IH1 IH2]]; [split; reflexivity|].
  cbn [filter existsb] in *.
  destruct (String.eqb_spec (status t) "Queued") as [E1|N1];
    destruct (String.eqb_spec (status t) "Scheduled") as [E2|N2];
    destruct (String.eqb_spec (status t) "Running") as [E3|N3];
    destruct (String.eqb_spec (status t) "Completed") as [E4|N4];
    destruct (String.eqb_spec (status t) "Failed") as [E5|N5];
    try (exfalso; congruence);
    cbn [orb negb List.length] in *; lia.
Qed.

(** A job that downloads (status text ["Downloading"]) beside a Queued one:
    one task of two is counted. *)
Lemma gather_insights_buckets_witness :
  exists ins,
    gather_insights (state_of [sample_task 1 3 "Downloading" "a";
                               sample_task 2 3 "Queued" "b"] 2 1) = Some ins
    /\ queued ins + scheduled ins + running ins + completed ins + failed ins = 1.
Proof.
  destruct (gather_insights (state_of [sample_task 1 3 "Downloading" "a";
                                       sample_task 2 3 "Queued" "b"] 2 1))
    as [ins|] eqn:E; [|vm_compute in E; discriminate E].
  exists ins. split; [reflexivity|].
  rewrite (proj1 (gather_insights_buckets _ ins E)). vm_compute. reflexivity.
Defined.

(* ------------------------------------------------------------------ *)
(** ** The worker body when the engine returns *)

(** X11.  [_run_task(task)] for a task of the registry whose engine run
    returns: the task is Completed with progress 100.0 and the message
    [Download finished] (the output file a progress record named stays),
    one record with the task's URL, directory, preset, notes, tags and
    quality is appended to the history, the line [Finished <url>] is
    logged, [active_workers] is one less (never below 0), and the final
    pass leaves the completed task as it is. *)
Theorem run_task_engine_success utcnow (task : DownloadTask)
  (hooks : list ProgressInfo) (s : State) :
  In (id task) (Dict.keys (tasks s)) ->
  let s1 := run_hooks utcnow (id task) hooks (run_task_begin utcnow task s) in
  let s3 := release_worker (run_task_outcome utcnow task Returned s1) in
  let final := try_schedule_next utcnow s3 in
  _run_task utcnow task true hooks Returned s = (Normal, fst final, snd final)
  /\ (exists t1 t,
        Dict.get (id task) (tasks s1) = Some t1
        /\ Dict.get (id task) (tasks s3) = Some t
        /\ status t = "Completed"%string /\ message t = "Download finished"%string
        /\ progress t = NFloat 100%float /\ filepath t = filepath t1
        /\ Dict.get (id task) (tasks (snd final)) = Some t)
  /\ history s3
     = bounded_append HISTORY_LIMIT (history s)
         {| h_url := url task; h_output := output_dir task;
            h_format := format_mode task; h_notes := notes task;
            h_tags := tags task; h_quality := quality_filter task;
            h_timestamp := Clock.now_iso (utcnow (S (clock s1))) |}
  /\ log_lines s3
     = bounded_append LOG_LIMIT (log_lines s1)
         ("[" ++ Clock.hms (utcnow (S (S (clock s1)))) ++ "] Finished " ++ url task)%string
  /\ active_workers s3 = Z.max (active_workers s - 1) 0.
Proof.
  intros Hin. cbv zeta.
  set (s1 := run_hooks utcnow (id task) hooks (run_task_begin utcnow task s)).
  assert (Hk1 : Dict.keys (tasks s1) = Dict.keys (tasks s)).
  { unfold s1. destruct (run_hooks_frame utcnow (id task) hooks
                           (run_task_begin utcnow task s)) as [K _].
    destruct (run_task_begin_frame utcnow task s) as [K' _]. congruence. }
  assert (Ha1 : active_workers s1 = active_workers s).
  { unfold s1. destruct (run_hooks_frame utcnow (id task) hooks
                           (run_task_begin utcnow task s)) as [_ (_ & _ & _ & A & _)].
    destruct (run_task_begin_frame utcnow task s) as (_ & A' & _). congruence. }
  assert (Hh1 : history s1 = history s).
  { unfold s1. destruct (run_hooks_frame utcnow (id task) hooks
                           (run_task_begin utcnow task s)) as [_ (_ & _ & _ & _ & _ & H)].
    rewrite H. unfold run_task_begin.
    rewrite (proj2 (update_task_buffers utcnow _ _ _)).
    apply append_log_bounded. }
  assert (Hpresent : exists t1, Dict.get (id task) (tasks s1) = Some t1)
    by (apply get_Some_keys; rewrite Hk1; exact Hin).
  destruct Hpresent as [t1 G1].
  set (kws := [kw_status "Completed"; kw_message "Download finished";
               kw_progress (NFloat 100%float)]).
  pose proof (update_task_frame utcnow (id task) kws s1) as U. cbv zeta in U.
  destruct U as (_ & _ & (_ & _ & _ & UA & UL & UH) & _ & UP).
  destruct (UP t1 G1) as [UG UC].
  set (s2 := run_task_outcome utcnow task Returned s1).
  set (tf := set_last_update (apply_kwargs t1 kws) (Clock.now_iso (utcnow (clock s1))))
    in UG.
  assert (E2 : s2 = append_log utcnow ("Finished " ++ url task)
                 (history_append
                    {| h_url := url task; h_output := output_dir task;
                       h_format := format_mode task; h_notes := notes task;
                       h_tags := tags task; h_quality := quality_filter task;
                       h_timestamp := Clock.now_iso (utcnow (S (clock s1))) |}
                    (set_clock (snd (update_task utcnow (id task) kws s1))
                       (S (S (clock s1)))))).
  { unfold s2, run_task_outcome. fold kws. cbn [read_clock]. now rewrite UC. }
  match type of E2 with _ = append_log utcnow ?m ?x =>
    pose proof (append_log_fields utcnow m x) as L end.
  cbv zeta in L. rewrite <- E2 in L. destruct L as (L1 & _ & _ & _ & L5 & L6 & L7 & _).
  cbn [history_append tasks active_workers history log_lines clock set_history
       set_clock] in L1, L5, L6, L7.
  assert (G3 : Dict.get (id task) (tasks (release_worker s2)) = Some tf)
    by (cbn [release_worker tasks set_active_workers]; rewrite L1; exact UG).
  split.
  { unfold _run_task. fold s1. fold s2.
    destruct (try_schedule_next utcnow (release_worker s2)); reflexivity. }
  split.
  { exists t1, tf. split; [exact G1|]. split; [exact G3|].
    split; [reflexivity|]. split; [reflexivity|]. split; [reflexivity|].
    split; [reflexivity|].
    apply try_schedule_next_keeps; [exact G3 | cbn; discriminate]. }
  split; [cbn [release_worker history set_active_workers];
          rewrite L6, UH, Hh1; reflexivity|].
  split; [cbn [release_worker log_lines set_active_workers];
          rewrite L7, UL; reflexivity|].
  cbn [release_worker active_workers set_active_workers]. rewrite L5, UA, Ha1.
  reflexivity.
Qed.

(** One job admitted, one waiting; the engine reports a file and returns. *)
Lemma run_task_engine_success_witness :
  let s := state_of [sample_task 1 3 "Scheduled" "2024-01-01T12:00:00.000001Z";
                     sample_task 2 3 "Queued" "2024-01-01T12:00:00.000002Z"] 1 1 in
  let r := _run_task (tick_clock 5)
             (sample_task 1 3 "Scheduled" "2024-01-01T12:00:00.000001Z") true
             [info_of (VFloat 99.96%float) (Some "finished"%string)
                (Some "/srv/downloads/a.mp4"%string)]
             Returned s in
  In 1 (Dict.keys (tasks s))
  /\ fst (fst r) = Normal
  /\ map (fun t => (status t, filepath t)) (ordered_tasks (snd r))
     = [("Completed", Some "/srv/downloads/a.mp4"); ("Scheduled", None)]%string
  /\ map h_url (history (snd r)) = ["https://example.org/v"%string]
  /\ active_workers (snd r) = 1.
Proof.
  cbv zeta.
  assert (Hin : In 1 (Dict.keys (tasks (state_of
            [sample_task 1 3 "Scheduled" "2024-01-01T12:00:00.000001Z";
             sample_task 2 3 "Queued" "2024-01-01T12:00:00.000002Z"] 1 1))))
    by (now left).
  split; [exact Hin|].
  pose proof (run_task_engine_success (tick_clock 5)
                (sample_task 1 3 "Scheduled" "2024-01-01T12:00:00.000001Z")
                [info_of (VFloat 99.96%float) (Some "finished"%string)
                   (Some "/srv/downloads/a.mp4"%string)] _ Hin) as H.
  cbv zeta in H. destruct H as (Hrun & _).
  split; [rewrite Hrun; reflexivity|].
  split; [vm_compute; reflexivity|].
  split; vm_compute; reflexivity.
Defined.

(* ------------------------------------------------------------------ *)
(** ** When [build_options] raises *)




(** X13.  When [task.build_options()] raises in [_run_task], the exception
    leaves the function before the [try] statement: the task has been set
    to Running with the message [Preparing download], and nothing else
    follows: [active_workers] is not decremented, no admission pass runs,
    the history is not written. *)
Theorem run_task_options_failure default_dir path_join makedirs utcnow
  (task : DownloadTask) (hooks : list ProgressInfo) (o : engine_outcome) (s : State) :
  build_options default_dir path_join makedirs task = None ->
  In (id task) (Dict.keys (tasks s)) ->
  let s1 := run_task_begin utcnow task s in
  _run_task utcnow task (options_ok_for default_dir path_join makedirs task) hooks o s
  = (Propagated, [], s1)
  /\ (exists t, Dict.get (id task) (tasks s1) = Some t
                /\ status t = "Running"%string
                /\ message t = "Preparing download"%string)
  /\ active_workers s1 = active_workers s
  /\ history s1 = history s
  /\ log_lines s1
     = bounded_append LOG_LIMIT (log_lines s)
         ("[" ++ Clock.hms (utcnow (clock s)) ++ "] Starting " ++ url task)%string.
Proof.
  intros B Hin. cbv zeta. unfold _run_task, options_ok_for. rewrite B.
  split; [reflexivity|].
  pose proof (append_log_fields utcnow ("Starting " ++ url task) s) as L.
  cbv zeta in L. destruct L as (L1 & _ & _ & _ & L5 & L6 & L7 & _).
  unfold run_task_begin.
  set (kws := [kw_status "Running"; kw_message "Preparing download";
               kw_progress (NFloat 0%float)]).
  pose proof (update_task_frame utcnow (id task) kws
                (append_log utcnow ("Starting " ++ url task) s)) as U.
  cbv zeta in U. destruct U as (_ & _ & (_ & _ & _ & UA & UL & UH) & _ & UP).
  apply get_Some_keys in Hin. destruct Hin as [t0 G0]. rewrite <- L1 in G0.
  destruct (UP t0 G0) as [UG _].
  split; [eexists; split; [exact UG|]; split; reflexivity|].
  split; [now rewrite UA|]. split; [now rewrite UH|]. now rewrite UL.
Qed.

(** A job with an infinite rate limit, admitted and started. *)
Lemma run_task_options_failure_witness :
  let s := state_of [set_status (limited_task infinity) "Scheduled"] 1 1 in
  let r := _run_task (tick_clock 5) (limited_task infinity)
             (options_ok_for "/srv/downloads" posix_join always (limited_task infinity))
             [] Returned s in
  fst (fst r) = Propagated
  /\ map status (ordered_tasks (snd r)) = ["Running"%string]
  /\ active_workers (snd r) = 1.
Proof.
  cbv zeta.
  pose proof (run_task_options_failure "/srv/downloads"
                posix_join always (tick_clock 5)
                (limited_task infinity) [] Returned
                (state_of [set_status (limited_task infinity) "Scheduled"] 1 1)) as H.
  cbv zeta in H. destruct H as (Hrun & _); [vm_compute; reflexivity | now left |].
  split; [rewrite Hrun; reflexivity|].
  split; vm_compute; reflexivity.
Defined.

(* ------------------------------------------------------------------ *)
(** ** A job whose worker died at the start *)

Lemma drop_worker_others tid ph p w :
  uniq_active p -> find_worker tid ph p = Some w -> active_phase ph = true ->
  forall w', In w' (drop_worker tid ph p) -> active_phase (w_phase w') = true ->
             id (w_task w') <> tid.
Proof.
  unfold find_worker.
  induction p as [|x r IH]; intros U F A w' Hin Hact; [discriminate|].
  cbn [find drop_worker uniq_active] in *. destruct U as [Ux Ur].
  destruct (matches tid ph x) eqn:M.
  - apply matches_true in M. destruct M as [Mi Mp].
    rewrite <- Mi. apply Ux; [rewrite Mp; exact A | exact Hin | exact Hact].
  - destruct Hin as [<-|Hin]; [|now apply (IH Ur F A)].
    destruct (find_worker_some tid ph r w F) as (Hw & Wi & Wp).
    intros E. apply (Ux Hact w Hw); [rewrite Wp; exact A | congruence].
Qed.

Lemma step_keeps_orphan utcnow dir fos ev sys sys' tid t :
  Inv sys -> step utcnow dir fos ev sys = Some sys' ->
  Dict.get tid (tasks (st sys)) = Some t -> status t = "Running"%string ->
  no_worker_of tid (pool sys) ->
  Dict.get tid (tasks (st sys')) = Some t /\ no_worker_of tid (pool sys').
Proof.
  intros I. destruct sys as [s p].
  pose proof (inv_wf _ I) as W. pose proof (inv_id _ I) as Iid.
  pose proof (inv_fresh _ I) as Ifr. cbn [st pool] in *.
  assert (Hq : status t = "Running"%string -> status t <> "Queued"%string)
    by (intros ->; discriminate).
  assert (Hadm : forall adm s1,
            Forall (fun e => In (fst e) (task_order s) /\ admitted_entry s s1 e) adm ->
            Dict.get tid (tasks s) = Some t -> status t = "Running"%string ->
            no_worker_of tid p ->
            forall q, (forall w, In w q -> In w p) ->
            no_worker_of tid (submit_all (map snd adm) q)).
  { intros adm s1 Fa G St N q Hsub w Hin Hact. unfold submit_all in Hin.
    apply in_app_or in Hin. destruct Hin as [Hin|Hin]; [now apply N; auto|].
    apply in_map_iff in Hin. destruct Hin as (t' & <- & Hin). cbn [w_task].
    apply in_map_iff in Hin. destruct Hin as (e & <- & Hin).
    rewrite Forall_forall in Fa. destruct (Fa e Hin) as [_ (t0 & stamp & G0 & S0 & E0 & _)].
    rewrite E0. cbn. rewrite (Iid _ _ G0). intros E.
    rewrite E, G in G0. injection G0 as <-. rewrite St in S0. discriminate. }
  destruct ev as [payload| |n| |k ok|k info|k o|k|k]; cbn [step st pool].
  - destruct (queue_tasks utcnow dir fos payload s) as [[created s1]|] eqn:Q.
    + intros [= <-] G St N. cbn [st pool]. split; [|exact N].
      destruct (queue_tasks_spec utcnow dir fos payload s created s1 Q)
        as (_ & _ & _ & K & _).
      rewrite K; [exact G|]. exact (Ifr _ _ G).
    + intros [= <-] G St N. now split.
  - destruct (try_schedule_next_spec utcnow s) as (adm & F1 & _ & _ & _ & _ & _ & F7 & _).
    pose proof (try_schedule_next_keeps utcnow s tid t) as K.
    destruct (try_schedule_next utcnow s) as [to_start s1]. cbn [fst snd] in *.
    intros [= <-] G St N. cbn [st pool]. split; [apply K; auto|].
    rewrite F1. apply (Hadm adm s1 F7 G St N p). auto.
  - intros [= <-] G St N. cbn [st pool].
    pose proof (set_concurrency_fields utcnow n s) as F. cbv zeta in F.
    destruct F as (_ & T & _). rewrite T. now split.
  - intros [= <-] G St N. cbn [st pool]. split; [|exact N].
    pose proof (clear_completed_tasks_fields utcnow s) as F. cbv zeta in F.
    destruct F as (_ & T & _).
    rewrite T, (pop_all_terminal _ W), (get_filter_live _ _ W), G. unfold is_terminal. rewrite St. reflexivity.
  - destruct (find_worker k Submitted p) as [w|] eqn:F; [|discriminate].
    intros [= <-] G St N. cbn [st pool].
    destruct (find_worker_some k Submitted p w F) as (Hw & Wi & Wp).
    assert (Hk : id (w_task w) <> tid) by (apply N; [exact Hw | now rewrite Wp]).
    split.
    + pose proof (run_task_begin_tasks utcnow (w_task w) s) as B. cbv zeta in B.
      destruct B as [B _]. rewrite B; [exact G | congruence].
    + destruct ok.
      * intros w' Hin Hact. apply In_move_worker in Hin.
        destruct Hin as [Hin|(w0 & Hin0 & M & ->)]; [now apply N|].
        cbn [w_task]. apply matches_true in M. destruct M as [Mi Mp].
        apply N; [exact Hin0 | now rewrite Mp].
      * intros w' Hin Hact. apply In_drop_worker in Hin. now apply N.
  - destruct (find_worker k Downloading p) as [w|] eqn:F; [|discriminate].
    intros [= <-] G St N. cbn [st pool].
    destruct (find_worker_some k Downloading p w F) as (Hw & Wi & Wp).
    assert (Hk : id (w_task w) <> tid) by (apply N; [exact Hw | now rewrite Wp]).
    split; [|exact N].
    pose proof (progress_hook_tasks utcnow (id (w_task w)) info s) as B. cbv zeta in B.
    destruct B as [B _]. rewrite B; [exact G | congruence].
  - destruct (find_worker k Downloading p) as [w|] eqn:F; [|discriminate].
    intros [= <-] G St N. cbn [st pool].
    destruct (find_worker_some k Downloading p w F) as (Hw & Wi & Wp).
    assert (Hk : id (w_task w) <> tid) by (apply N; [exact Hw | now rewrite Wp]).
    split.
    + pose proof (run_task_outcome_frame utcnow (w_task w) o s) as B. cbv zeta in B.
      destruct B as (_ & B & _). rewrite B; [exact G | congruence].
    + intros w' Hin Hact. apply In_move_worker in Hin.
      destruct Hin as [Hin|(w0 & Hin0 & M & ->)]; [now apply N | discriminate Hact].
  - destruct (find_worker k Finishing p) as [w|] eqn:F; [|discriminate].
    intros [= <-] G St N. cbn [st pool release_worker tasks set_active_workers].
    split; [exact G|].
    intros w' Hin Hact. apply In_move_worker in Hin.
    destruct Hin as [Hin|(w0 & Hin0 & M & ->)]; [now apply N | discriminate Hact].
  - destruct (find_worker k Releasing p) as [w|] eqn:F; [|discriminate].
    destruct (try_schedule_next_spec utcnow s) as (adm & F1 & _ & _ & _ & _ & _ & F7 & _).
    pose proof (try_schedule_next_keeps utcnow s tid t) as K.
    destruct (try_schedule_next utcnow s) as [to_start s1]. cbn [fst snd] in *.
    intros [= <-] G St N. cbn [st pool]. split; [apply K; auto|].
    rewrite F1. apply (Hadm adm s1 F7 G St N). intros w0. apply In_drop_worker.
Qed.

Lemma run_keeps_orphan utcnow dir fos evs tid t : forall sys sys',
  Inv sys -> Forall event_ok evs -> run utcnow dir fos evs sys = Some sys' ->
  Dict.get tid (tasks (st sys)) = Some t -> status t = "Running"%string ->
  no_worker_of tid (pool sys) ->
  Dict.get tid (tasks (st sys')) = Some t.
Proof.
  induction evs as [|ev evs IH]; intros sys sys' I Ok; cbn [run].
  - intros [= <-]. auto.
  - destruct (step utcnow dir fos ev sys) as [sys1|] eqn:E; [|discriminate].
    inversion Ok as [|? ? Ok1 Ok2]; subst.
    intros Hrun G St N.
    destruct (step_keeps_orphan utcnow dir fos ev sys sys1 tid t I E G St N) as [G1 N1].
    destruct (step_sound utcnow dir fos ev sys sys1 I Ok1 E) as [I1 _].
    now apply (IH sys1 sys' I1 Ok2 Hrun).
Qed.

(** X14.  When [build_options] raises at the start of a worker (the event
    [EvBegin tid false]), the job is left Running with no thread behind it:
    the worker count is not given back, and whatever happens afterwards the
    job stays in the registry exactly as the failed start left it (it is
    never completed, failed, re-admitted or cleared). *)
Theorem failed_start_orphans_job utcnow dir fos (evs : list event)
  (sys sys1 : System) (tid : Z) :
  run utcnow dir fos evs initial_system = Some sys -> Forall event_ok evs ->
  step utcnow dir fos (EvBegin tid false) sys = Some sys1 ->
  exists t,
    Dict.get tid (tasks (st sys1)) = Some t
    /\ status t = "Running"%string
    /\ active_workers (st sys1) = active_workers (st sys)
    /\ forall later sys2,
         Forall event_ok later -> run utcnow dir fos later sys1 = Some sys2 ->
         Dict.get tid (tasks (st sys2)) = Some t.
Proof.
  intros Hrun Ok Hstep.
  pose proof (run_inv utcnow dir fos evs initial_system sys inv_initial Ok Hrun) as I.
  destruct (step_sound utcnow dir fos (EvBegin tid false) sys sys1 I Logic.I Hstep)
    as [I1 _].
  destruct sys as [s p]. cbn [step st pool] in Hstep.
  destruct (find_worker tid Submitted p) as [w|] eqn:F; [|discriminate].
  injection Hstep as <-. cbn [st pool] in *.
  destruct (find_worker_some tid Submitted p w F) as (Hw & Wi & Wp).
  pose proof (inv_pool _ I) as P. cbn [pool st] in P. rewrite Forall_forall in P.
  pose proof (P w Hw) as Wok. unfold worker_ok in Wok. rewrite Wp in Wok.
  destruct Wok as (t0 & G0 & _).
  pose proof (run_task_begin_tasks utcnow (w_task w) s) as B. cbv zeta in B.
  destruct B as [_ B]. destruct (B t0 G0) as (t & G & _ & St).
  rewrite Wi in G. exists t. split; [exact G|]. split; [exact St|].
  split; [apply run_task_begin_frame|].
  intros later sys2 Ok2 Hrun2.
  apply (run_keeps_orphan utcnow dir fos later tid t _ sys2 I1 Ok2 Hrun2 G St).
  exact (drop_worker_others tid Submitted p w (inv_uniq _ I) F eq_refl).
Qed.

(** One job is admitted and its start fails; the limit is raised, a second
    job runs to its end and the finished jobs are cleared: the first job is
    still Running. *)
Lemma failed_start_orphans_job_witness :
  exists sys sys1 sys2 t,
    run (tick_clock 1) "/srv/downloads" no_float_text
      [EvQueue (payload_of ("https://a" ++ LF ++ "https://b") VNone); EvSchedule]
      initial_system = Some sys
    /\ step (tick_clock 1) "/srv/downloads" no_float_text (EvBegin 1 false) sys
       = Some sys1
    /\ run (tick_clock 1) "/srv/downloads" no_float_text after_failed_start sys1
       = Some sys2
    /\ Dict.get 1 (tasks (st sys2)) = Some t
    /\ status t = "Running"%string
    /\ map id (ordered_tasks (st sys2)) = [1].
Proof.
  destruct (run (tick_clock 1) "/srv/downloads" no_float_text
              [EvQueue (payload_of ("https://a" ++ LF ++ "https://b") VNone); EvSchedule]
              initial_system) as [sys|] eqn:E0; [|vm_compute in E0; discriminate E0].
  destruct (step (tick_clock 1) "/srv/downloads" no_float_text (EvBegin 1 false) sys)
    as [sys1|] eqn:E1;
    [|vm_compute in E0; injection E0 as <-; vm_compute in E1; discriminate E1].
  destruct (run (tick_clock 1) "/srv/downloads" no_float_text after_failed_start sys1)
    as [sys2|] eqn:E2;
    [|vm_compute in E0; injection E0 as <-; vm_compute in E1; injection E1 as <-;
      vm_compute in E2; discriminate E2].
  assert (Ok0 : Forall event_ok
                  [EvQueue (payload_of ("https://a" ++ LF ++ "https://b") VNone);
                   EvSchedule]) by (repeat constructor).
  assert (Ok2 : Forall event_ok after_failed_start) by (repeat constructor).
  destruct (failed_start_orphans_job (tick_clock 1) "/srv/downloads" no_float_text
              _ sys sys1 1 E0 Ok0 E1) as (t & _ & St & _ & K).
  exists sys, sys1, sys2, t.
  split; [reflexivity|]. split; [exact E1|]. split; [exact E2|].
  split; [exact (K _ sys2 Ok2 E2)|]. split; [exact St|].
  vm_compute in E0; injection E0 as <-; vm_compute in E1; injection E1 as <-;
    vm_compute in E2; injection E2 as <-. vm_compute. reflexivity.
Defined.

(* ------------------------------------------------------------------ *)
(** ** The identity of a job *)

Lemma apply_kwargs_request kwargs : forall t,
  request_of (apply_kwargs t kwargs) = request_of t.
Proof.
  induction kwargs as [|kw r IH]; intros t; cbn [apply_kwargs]; [reflexivity|].
  rewrite IH. destruct (hasattr_task (kw_key kw)); [|reflexivity].
  destruct kw; reflexivity.
Qed.

Lemma update_task_request utcnow tid kwargs s k t t' :
  Dict.get k (tasks s) = Some t ->
  Dict.get k (tasks (snd (update_task utcnow tid kwargs s))) = Some t' ->
  request_of t' = request_of t.
Proof.
  intros G G'.
  pose proof (update_task_frame utcnow tid kwargs s) as U. cbv zeta in U.
  destruct U as (_ & Uo & _ & _ & Up).
  destruct (Z.eq_dec k tid) as [->|Hne].
  - destruct (Up t G) as [E _]. rewrite E in G'. injection G' as <-.
    apply (apply_kwargs_request kwargs t).
  - rewrite (Uo k Hne), G in G'. now injection G' as <-.
Qed.

Lemma run_task_outcome_tasks utcnow task o s :
  tasks (run_task_outcome utcnow task o s)
  = tasks (snd (update_task utcnow (id task)
                  match o with
                  | Returned => [kw_status "Completed"; kw_message "Download finished";
                                 kw_progress (NFloat 100%float)]
                  | Raised msg => [kw_status "Failed"; kw_message msg]
                  end s)).
Proof.
  destruct o as [|msg]; unfold run_task_outcome; cbn [read_clock];
    match goal with |- context [append_log utcnow ?m ?x] =>
      rewrite (proj1 (append_log_fields utcnow m x)) end; reflexivity.
Qed.

Lemma step_request utcnow dir fos ev sys sys' tid t t' :
  step utcnow dir fos ev sys = Some sys' ->
  order_ok (st sys) -> task_order (st sys) = Dict.keys (tasks (st sys)) ->
  Dict.get tid (tasks (st sys)) = Some t ->
  Dict.get tid (tasks (st sys')) = Some t' ->
  request_of t' = request_of t.
Proof.
  destruct sys as [s p]. cbn [st pool]. intros Hstep [Hn Hb] Hk G.
  assert (W : dict_wf (tasks s)) by (unfold dict_wf; now rewrite <- Hk).
  assert (Hlt : tid < task_counter s).
  { apply Hb. rewrite Hk. apply get_Some_keys. now exists t. }
  assert (Hpass : forall G', Dict.get tid (tasks (snd (try_schedule_next utcnow s))) = Some G' ->
                             request_of G' = request_of t).
  { intros t1 G1.
    destruct (try_schedule_next_spec utcnow s) as (adm & _ & _ & _ & _ & _ & F6 & F7 & _).
    destruct (in_dec Z.eq_dec tid (map fst adm)) as [Hin|Hni].
    - apply in_map_iff in Hin. destruct Hin as (e & Ee & Hin).
      rewrite Forall_forall in F7.
      destruct (F7 e Hin) as [_ (t0 & stamp & G0 & _ & E0 & G0')].
      rewrite Ee in G0, G0'. rewrite G in G0. injection G0 as <-.
      rewrite G1 in G0'. injection G0' as ->. rewrite E0. reflexivity.
    - rewrite (F6 tid Hni), G in G1. now injection G1 as <-. }
  revert Hstep.
  destruct ev as [payload| |n| |k ok|k info|k o|k|k]; cbn [step st pool].
  - destruct (queue_tasks utcnow dir fos payload s) as [[created s1]|] eqn:Q.
    + intros [= <-]. cbn [st].
      destruct (queue_tasks_spec utcnow dir fos payload s created s1 Q)
        as (_ & _ & _ & K & _).
      rewrite (K tid Hlt), G. now intros [= <-].
    + intros [= <-]. cbn [st]. rewrite G. now intros [= <-].
  - destruct (try_schedule_next utcnow s) as [to_start s1]. cbn [snd] in Hpass.
    intros [= <-]. cbn [st]. apply Hpass.
  - intros [= <-]. cbn [st].
    pose proof (set_concurrency_fields utcnow n s) as F. cbv zeta in F.
    destruct F as (_ & T & _). rewrite T, G. now intros [= <-].
  - intros [= <-]. cbn [st].
    pose proof (clear_completed_tasks_fields utcnow s) as F. cbv zeta in F.
    destruct F as (_ & T & _).
    rewrite T, (pop_all_terminal _ W), (get_filter_live _ _ W), G.
    destruct (is_terminal t); [discriminate | now intros [= <-]].
  - destruct (find_worker k Submitted p) as [w|]; [|discriminate].
    intros [= <-]. cbn [st]. unfold run_task_begin.
    apply update_task_request.
    now rewrite (proj1 (append_log_fields utcnow _ s)).
  - destruct (find_worker k Downloading p) as [w|]; [|discriminate].
    intros [= <-]. cbn [st]. unfold _progress_hook.
    now apply update_task_request.
  - destruct (find_worker k Downloading p) as [w|]; [|discriminate].
    intros [= <-]. cbn [st]. rewrite run_task_outcome_tasks.
    now apply update_task_request.
  - destruct (find_worker k Finishing p) as [w|]; [|discriminate].
    intros [= <-]. cbn [st release_worker tasks set_active_workers].
    rewrite G. now intros [= <-].
  - destruct (find_worker k Releasing p) as [w|]; [|discriminate].
    destruct (try_schedule_next utcnow s) as [to_start s1]. cbn [snd] in Hpass.
    intros [= <-]. cbn [st]. apply Hpass.
Qed.

(** An id below the counter that names no task names none after a step. *)
Lemma step_absent utcnow dir fos ev sys sys' tid :
  step utcnow dir fos ev sys = Some sys' ->
  order_ok (st sys) -> task_order (st sys) = Dict.keys (tasks (st sys)) ->
  tid < task_counter (st sys) -> Dict.get tid (tasks (st sys)) = None ->
  Dict.get tid (tasks (st sys')) = None.
Proof.
  destruct sys as [s p]. cbn [st pool]. intros Hstep [Hn Hb] Hk Hlt Hnone.
  assert (W : dict_wf (tasks s)) by (unfold dict_wf; now rewrite <- Hk).
  assert (Hkeys : forall s1, Dict.keys (tasks s1) = Dict.keys (tasks s) ->
                             Dict.get tid (tasks s1) = None).
  { intros s1 K. apply get_None_keys. rewrite K. now apply get_None_keys. }
  revert Hstep.
  destruct ev as [payload| |n| |k ok|k info|k o|k|k]; cbn [step st pool].
  - destruct (queue_tasks utcnow dir fos payload s) as [[created s1]|] eqn:Q.
    + intros [= <-]. cbn [st].
      destruct (queue_tasks_spec utcnow dir fos payload s created s1 Q)
        as (_ & _ & _ & K & _).
      now rewrite (K tid Hlt).
    + intros [= <-]. exact Hnone.
  - destruct (try_schedule_next_spec utcnow s) as (adm & _ & _ & _ & _ & K & _).
    destruct (try_schedule_next utcnow s) as [to_start s1]. cbn [snd] in K.
    intros [= <-]. cbn [st]. now apply Hkeys.
  - intros [= <-]. cbn [st]. apply Hkeys.
    pose proof (set_concurrency_fields utcnow n s) as F. cbv zeta in F.
    destruct F as (_ & T & _). now rewrite T.
  - intros [= <-]. cbn [st].
    pose proof (clear_completed_tasks_fields utcnow s) as F. cbv zeta in F.
    destruct F as (_ & T & _).
    now rewrite T, (pop_all_terminal _ W), (get_filter_live _ _ W), Hnone.
  - destruct (find_worker k Submitted p) as [w|]; [|discriminate].
    intros [= <-]. cbn [st]. apply Hkeys. apply run_task_begin_frame.
  - destruct (find_worker k Downloading p) as [w|]; [|discriminate].
    intros [= <-]. cbn [st]. apply Hkeys. apply progress_hook_frame.
  - destruct (find_worker k Downloading p) as [w|]; [|discriminate].
    intros [= <-]. cbn [st]. apply Hkeys.
    pose proof (run_task_outcome_frame utcnow (w_task w) o s) as F. cbv zeta in F.
    apply F.
  - destruct (find_worker k Finishing p) as [w|]; [|discriminate].
    intros [= <-]. exact Hnone.
  - destruct (find_worker k Releasing p) as [w|]; [|discriminate].
    destruct (try_schedule_next_spec utcnow s) as (adm & _ & _ & _ & _ & K & _).
    destruct (try_schedule_next utcnow s) as [to_start s1]. cbn [snd] in K.
    intros [= <-]. cbn [st]. now apply Hkeys.
Qed.

Lemma run_absent utcnow dir fos evs tid : forall sys sys',
  run utcnow dir fos evs sys = Some sys' ->
  order_ok (st sys) -> task_order (st sys) = Dict.keys (tasks (st sys)) ->
  tid < task_counter (st sys) -> Dict.get tid (tasks (st sys)) = None ->
  Dict.get tid (tasks (st sys')) = None.
Proof.
  induction evs as [|ev evs IH]; intros sys sys'; cbn [run].
  - intros [= <-]. auto.
  - destruct (step utcnow dir fos ev sys) as [sys1|] eqn:E; [|discriminate].
    intros Hrun Ho Hk Hlt Hnone. apply (IH sys1 sys' Hrun).
    + eapply step_order_ok; eassumption.
    + eapply step_keys; eassumption.
    + pose proof (step_counter_mono utcnow dir fos ev sys sys1 E). lia.
    + eapply step_absent; eassumption.
Qed.

(** An id that names a task before and after a run names the same job. *)
Lemma run_request utcnow dir fos evs tid : forall sys sys' t t',
  run utcnow dir fos evs sys = Some sys' ->
  order_ok (st sys) -> task_order (st sys) = Dict.keys (tasks (st sys)) ->
  Dict.get tid (tasks (st sys)) = Some t ->
  Dict.get tid (tasks (st sys')) = Some t' ->
  request_of t' = request_of t.
Proof.
  induction evs as [|ev evs IH]; intros sys sys' t t'; cbn [run].
  - intros [= <-] _ _ G G'. rewrite G in G'. now injection G' as <-.
  - destruct (step utcnow dir fos ev sys) as [sys1|] eqn:E; [|discriminate].
    intros Hrun Ho Hk G G'.
    pose proof (step_order_ok utcnow dir fos ev sys sys1 E Ho) as Ho1.
    pose proof (step_keys utcnow dir fos ev sys sys1 E Ho Hk) as Hk1.
    destruct (Dict.get tid (tasks (st sys1))) as [t1|] eqn:G1.
    + rewrite (IH sys1 sys' t1 t' Hrun Ho1 Hk1 G1 G').
      apply (step_request utcnow dir fos ev sys sys1 tid t t1 E Ho Hk G G1).
    + exfalso.
      assert (Hlt : tid < task_counter (st sys1)).
      { pose proof (step_counter_mono utcnow dir fos ev sys sys1 E).
        destruct Ho as [_ Hb]. specialize (Hb tid). rewrite Hk in Hb.
        assert (tid < task_counter (st sys))
          by (apply Hb, get_Some_keys; now exists t).
        lia. }
      rewrite (run_absent utcnow dir fos evs tid sys1 sys' Hrun Ho1 Hk1 Hlt G1) in G'.
      discriminate.
Qed.

(** X15.  An id names one job for ever: whatever a task of the registry
    becomes, it keeps its URL, its id, its priority, its creation stamp and
    every other field of the request that created it; and an id that was
    given out and has left the registry is never given to another job. *)
Theorem task_identity_stable utcnow dir fos (evs later : list event)
  (sys sys' : System) :
  run utcnow dir fos evs initial_system = Some sys ->
  run utcnow dir fos later sys = Some sys' ->
  (forall tid t t',
     Dict.get tid (tasks (st sys)) = Some t ->
     Dict.get tid (tasks (st sys')) = Some t' ->
     request_of t' = request_of t)
  /\ (forall tid,
        tid < task_counter (st sys) -> Dict.get tid (tasks (st sys)) = None ->
        Dict.get tid (tasks (st sys')) = None).
Proof.
  intros Hrun Hlater.
  destruct (run_keys utcnow dir fos evs initial_system sys Hrun order_ok_initial
              eq_refl) as [Ho Hk].
  split.
  - intros tid t t'. now apply (run_request utcnow dir fos later tid sys sys').
  - intros tid. now apply (run_absent utcnow dir fos later tid sys sys').
Qed.

(** Job 1 from its submission to the end of its download. *)
Lemma task_identity_stable_witness :
  exists sys sys' t t',
    run (tick_clock 1) "/srv/downloads" no_float_text
      [EvQueue (payload_of "https://a" VNone)] initial_system = Some sys
    /\ run (tick_clock 1) "/srv/downloads" no_float_text (tl lifecycle_run) sys
       = Some sys'
    /\ Dict.get 1 (tasks (st sys)) = Some t
    /\ Dict.get 1 (tasks (st sys')) = Some t'
    /\ status t = "Queued"%string /\ status t' = "Completed"%string
    /\ request_of t' = request_of t.
Proof.
  destruct (run (tick_clock 1) "/srv/downloads" no_float_text
              [EvQueue (payload_of "https://a" VNone)] initial_system)
    as [sys|] eqn:E0; [|vm_compute in E0; discriminate E0].
  destruct (run (tick_clock 1) "/srv/downloads" no_float_text (tl lifecycle_run) sys)
    as [sys'|] eqn:E1;
    [|vm_compute in E0; injection E0 as <-; vm_compute in E1; discriminate E1].
  destruct (Dict.get 1 (tasks (st sys))) as [t|] eqn:G;
    [|vm_compute in E0; injection E0 as <-; vm_compute in G; discriminate G].
  destruct (Dict.get 1 (tasks (st sys'))) as [t'|] eqn:G';
    [|vm_compute in E0; injection E0 as <-; vm_compute in E1; injection E1 as <-;
      vm_compute in G'; discriminate G'].
  exists sys, sys', t, t'.
  split; [reflexivity|]. split; [exact E1|]. split; [exact G|]. split; [exact G'|].
  split; [vm_compute in E0; injection E0 as <-; vm_compute in G; injection G as <-;
          reflexivity|].
  split; [vm_compute in E0; injection E0 as <-; vm_compute in E1; injection E1 as <-;
          vm_compute in G'; injection G' as <-; reflexivity|].
  exact (proj1 (task_identity_stable (tick_clock 1) "/srv/downloads" no_float_text
                  _ _ sys sys' E0 E1) 1 t t' G G').
Defined.

(* ------------------------------------------------------------------ *)
(** ** The options [build_options] returns *)

Lemma opts_get_set k k' v d :
  Opts.get k (Opts.set k' v d) = if (k' =? k)%string then Some v else Opts.get k d.
Proof.
  induction d as [|[a x] r IH]; cbn [Opts.set Opts.get]; [reflexivity|].
  destruct (String.eqb_spec a k') as [->|Hne]; cbn [Opts.get].
  - destruct (k' =? k)%string; reflexivity.
  - rewrite IH. destruct (String.eqb_spec a k) as [->|_]; [|reflexivity].
    destruct (String.eqb_spec k' k) as [->|_]; [contradiction | reflexivity].
Qed.

Lemma opts_get_set_if (c : bool) k k' v d :
  Opts.get k (Opts.set_if c k' v d)
  = if (c && (k' =? k)%string)%bool then Some v else Opts.get k d.
Proof. destruct c; [apply opts_get_set | reflexivity]. Qed.

(** The comparisons of two literal texts, computed. *)
Ltac literal_eqb :=
  repeat match goal with
         | |- context [String.eqb ?a ?b] =>
             let r := eval vm_compute in (String.eqb a b) in
             lazymatch r with
             | true => change (String.eqb a b) with true
             | false => change (String.eqb a b) with false
             end
         end.

(** The keys the preset chain may add are the three of the subtitle and
    playlist presets. *)
Lemma preset_options_get mode d k :
  k <> "writesubtitles"%string -> k <> "writeautomaticsub"%string ->
  k <> "flat_playlist"%string ->
  Opts.get k (snd (preset_options mode d)) = Opts.get k d.
Proof.
  intros H1 H2 H3. unfold preset_options.
  repeat match goal with |- context [if ?c then _ else _] => destruct c end;
    cbn [snd Opts.update fold_left fst]; rewrite ?opts_get_set;
    repeat match goal with
           | |- context [String.eqb ?a k] =>
               destruct (String.eqb_spec a k); [congruence|]
           end; reflexivity.
Qed.

(** The preset's format string. *)
Lemma preset_options_format mode d :
  fst (preset_options mode d)
  = (if (mode =? "Smart (best combined)")%string then "bv*+ba/b"
     else if (mode =? "Video + Audio (muxed)")%string
     then "bestvideo[ext=mp4]+bestaudio[ext=m4a]/best"
     else if (mode =? "Audio only")%string then "bestaudio"
     else if (mode =? "Playlist (flat)")%string then "bestaudio/best"
     else "best")%string.
Proof.
  unfold preset_options.
  repeat match goal with
         | |- context [String.eqb mode ?a] =>
             destruct (String.eqb_spec mode a) as [->|?]
         end; try reflexivity; congruence.
Qed.

(** Looking a key up in a result of [build_options]. *)
Ltac options_lookup H Pf Pg :=
  unfold build_options in H;
  destruct (normalize_output _ _ _) as [resolved_dir|]; [|discriminate H];
  match type of H with context [preset_options ?m ?b] =>
    pose proof (preset_options_format m b) as Pf;
    pose proof (fun k => preset_options_get m b k) as Pg;
    destruct (preset_options m b) as [format_string o0]
  end;
  cbn [fst snd] in Pf, Pg;
  destruct (PyStr.truthy (subtitle_lang _));
  destruct (float_truthy (rate_limit _));
  try destruct (PyNum.int_of_float _) as [z|]; try discriminate H;
  injection H as <-;
  repeat first [rewrite opts_get_set_if | rewrite opts_get_set]; literal_eqb;
  rewrite ?andb_false_r, ?andb_true_r; cbn match.

(** X16.  The format [build_options] hands to the engine: for the presets
    [Audio only] and [Playlist (flat)] it is the preset's own format
    whatever the quality filter says; for every other preset it is the
    quality filter when one is set and is not ["best"], and the preset's
    format otherwise (["best"] for a preset name the code does not know). *)
Theorem build_options_format default_dir path_join makedirs (t : DownloadTask)
  (options : list (string * optval)) :
  build_options default_dir path_join makedirs t = Some options ->
  exists fmt,
    Opts.get "format" options = Some (OStr fmt)
    /\ (format_mode t = "Audio only"%string -> fmt = "bestaudio"%string)
    /\ (format_mode t = "Playlist (flat)"%string -> fmt = "bestaudio/best"%string)
    /\ (format_mode t <> "Audio only"%string ->
        format_mode t <> "Playlist (flat)"%string ->
        quality_filter t <> EmptyString -> quality_filter t <> "best"%string ->
        fmt = quality_filter t)
    /\ (quality_filter t = EmptyString \/ quality_filter t = "best"%string ->
        fmt = if (format_mode t =? "Smart (best combined)")%string then "bv*+ba/b"
              else if (format_mode t =? "Video + Audio (muxed)")%string
              then "bestvideo[ext=mp4]+bestaudio[ext=m4a]/best"
              else if (format_mode t =? "Audio only")%string then "bestaudio"
              else if (format_mode t =? "Playlist (flat)")%string then "bestaudio/best"
              else "best")%string.
Proof.
  intros H.
  exists (if quality_applies t then quality_filter t
          else fst (preset_options (format_mode t) [])).
  split.
  { options_lookup H ident:(Pf) ident:(Pg); rewrite Pf, preset_options_format; reflexivity. }
  clear H. rewrite preset_options_format. unfold quality_applies.
  split.
  { intros ->. rewrite andb_false_r. reflexivity. }
  split.
  { intros ->. literal_eqb. cbn [orb negb]. rewrite andb_false_r. reflexivity. }
  split.
  { intros N1 N2 N3 N4.
    apply String.eqb_neq in N1, N2, N4. rewrite N1, N2, N4.
    destruct (quality_filter t); [contradiction | reflexivity]. }
  intros [->| ->]; reflexivity.
Qed.

(** An audio job with a 720p quality filter gets the audio format. *)
Lemma build_options_format_witness :
  exists options,
    build_options "/srv/downloads" posix_join always audio_task = Some options
    /\ Opts.get "format" options = Some (OStr "bestaudio")
    /\ Opts.get "outtmpl" options = Some (OStr "/srv/downloads/%(title)s.%(ext)s").
Proof.
  destruct (build_options "/srv/downloads" posix_join always audio_task)
    as [options|] eqn:E; [|vm_compute in E; discriminate E].
  exists options. split; [reflexivity|].
  destruct (build_options_format "/srv/downloads" posix_join always audio_task
              options E) as (fmt & G & A & _).
  split; [rewrite G, (A eq_refl); reflexivity|].
  vm_compute in E. injection E as <-. reflexivity.
Defined.

Lemma truthy_false s : PyStr.truthy s = false -> s = EmptyString.
Proof. destruct s; [reflexivity | discriminate]. Qed.

(** X17.  The optional keys of the options.  [postprocessors] is set for an
    [Audio only] job with a codec, and for no other; [subtitleslangs] holds
    the comma-separated pieces of [subtitle_lang] that are not blank,
    stripped, and is absent when none is left; [proxy] is the stripped
    proxy (the empty text for a blank one); [download_sections] holds the
    one marker [start-end], with ["00:00"] for a missing start;
    [max_downloads] is set for a positive playlist limit only; [ratelimit]
    is [rate_limit * 1024] truncated to an integer, absent for the rate 0. *)
Theorem build_options_optional default_dir path_join makedirs (t : DownloadTask)
  (options : list (string * optval)) :
  build_options default_dir path_join makedirs t = Some options ->
  Opts.get "postprocessors" options
  = (if (PyStr.truthy (audio_codec t) && (format_mode t =? "Audio only")%string)%bool
     then Some (OPostprocessors
                  [[("key", "FFmpegExtractAudio"); ("preferredcodec", audio_codec t);
                    ("preferredquality", "192")]%string])
     else None)
  /\ Opts.get "subtitleslangs" options
     = match stripped_nonempty (PyStr.split ","%char (subtitle_lang t)) with
       | [] => None
       | languages => Some (OList languages)
       end
  /\ (forall languages lang,
        Opts.get "subtitleslangs" options = Some (OList languages) ->
        In lang languages ->
        lang <> EmptyString /\ PyStr.strip lang = lang
        /\ forall c, In c (list_ascii_of_string lang) -> c <> ","%char)
  /\ Opts.get "proxy" options
     = (if PyStr.truthy (proxy t) then Some (OStr (PyStr.strip (proxy t))) else None)
  /\ Opts.get "download_sections" options
     = (if (PyStr.truthy (start_time t) || PyStr.truthy (end_time t))%bool
        then Some (OList [(if PyStr.truthy (start_time t) then start_time t
                           else "00:00") ++ "-" ++ end_time t])%string
        else None)
  /\ Opts.get "max_downloads" options
     = (if 0 <? playlist_limit t then Some (OInt (playlist_limit t)) else None)
  /\ Opts.get "ratelimit" options
     = (if float_truthy (rate_limit t)
        then option_map OInt
               (PyNum.int_of_float (PrimFloat.mul (rate_limit t) 1024%float))
        else None)
  /\ Opts.get "progress_hooks" options = Some (OHooks []).
Proof.
  intros H.
  assert (L : Opts.get "subtitleslangs" options
              = match stripped_nonempty (PyStr.split ","%char (subtitle_lang t)) with
                | [] => None
                | languages => Some (OList languages)
                end).
  { destruct (PyStr.truthy (subtitle_lang t)) eqn:T.
    - unfold build_options in H. rewrite T in H.
      destruct (normalize_output _ _ _) as [resolved_dir|]; [|discriminate H].
      match type of H with context [preset_options ?m ?b] =>
        pose proof (fun k => preset_options_get m b k) as Pg;
        destruct (preset_options m b) as [format_string o0]
      end.
      cbn [fst snd] in Pg.
      destruct (float_truthy (rate_limit t));
        try destruct (PyNum.int_of_float _) as [z|]; try discriminate H;
        injection H as <-;
        repeat first [rewrite opts_get_set_if | rewrite opts_get_set]; literal_eqb;
        rewrite ?andb_false_r, ?andb_true_r; cbn match;
        (rewrite Pg by discriminate);
        destruct (stripped_nonempty _); reflexivity.
    - rewrite (truthy_false _ T). cbn [PyStr.split PyStr.split_from].
      unfold build_options in H. rewrite T in H.
      destruct (normalize_output _ _ _) as [resolved_dir|]; [|discriminate H].
      match type of H with context [preset_options ?m ?b] =>
        pose proof (fun k => preset_options_get m b k) as Pg;
        destruct (preset_options m b) as [format_string o0]
      end.
      cbn [fst snd] in Pg.
      destruct (float_truthy (rate_limit t));
        try destruct (PyNum.int_of_float _) as [z|]; try discriminate H;
        injection H as <-;
        repeat first [rewrite opts_get_set_if | rewrite opts_get_set]; literal_eqb;
        rewrite ?andb_false_r, ?andb_true_r; cbn match;
        (rewrite Pg by discriminate); reflexivity. }
  split.
  { options_lookup H ident:(Pf) ident:(Pg); (rewrite Pg by discriminate);
      destruct (PyStr.truthy (audio_codec t) && (format_mode t =? "Audio only")%string)%bool;
      reflexivity. }
  split; [exact L|].
  split.
  { intros languages lang G Hin. rewrite L in G.
    destruct (stripped_nonempty (PyStr.split ","%char (subtitle_lang t)))
      as [|l0 ls] eqn:E; [discriminate|].
    injection G as <-. rewrite <- E in Hin.
    destruct (stripped_nonempty_In _ _ Hin) as (N & I & y & Hy & C).
    split; [exact N|]. split; [exact I|]. intros c Hc.
    apply (split_from_clean ","%char (subtitle_lang t) EmptyString y);
      [intros ? [] | exact Hy | auto]. }
  split.
  { options_lookup H ident:(Pf) ident:(Pg); (rewrite Pg by discriminate);
      destruct (PyStr.truthy (proxy t)); reflexivity. }
  split.
  { clear L.
    options_lookup H ident:(Pf) ident:(Pg); (rewrite Pg by discriminate);
      unfold section_marker;
      destruct (PyStr.truthy (start_time t)); cbn [orb list_truthy andb];
      try reflexivity;
      destruct (end_time t) as [|c e]; cbn [PyStr.truthy list_truthy andb];
      reflexivity. }
  split.
  { options_lookup H ident:(Pf) ident:(Pg); (rewrite Pg by discriminate);
      destruct (0 <? playlist_limit t); reflexivity. }
  split.
  { unfold build_options in H.
    destruct (normalize_output _ _ _) as [resolved_dir|]; [|discriminate H].
    match type of H with context [preset_options ?m ?b] =>
      pose proof (fun k => preset_options_get m b k) as Pg;
      destruct (preset_options m b) as [format_string o0]
    end.
    cbn [fst snd] in Pg.
    destruct (PyStr.truthy (subtitle_lang t));
      destruct (float_truthy (rate_limit t));
      try destruct (PyNum.int_of_float _) as [z|]; try discriminate H;
      injection H as <-;
      repeat first [rewrite opts_get_set_if | rewrite opts_get_set]; literal_eqb;
      rewrite ?andb_false_r, ?andb_true_r; cbn match;
      try (rewrite Pg by discriminate); reflexivity. }
  options_lookup H ident:(Pf) ident:(Pg); (rewrite Pg by discriminate); reflexivity.
Qed.

(** The audio job: a codec, two languages, an empty proxy, the section
    [00:00-01:30], five downloads at most, 2560 bytes per second. *)
Lemma build_options_optional_witness :
  exists options,
    build_options "/srv/downloads" posix_join always audio_task = Some options
    /\ Opts.get "subtitleslangs" options = Some (OList ["en"; "de"]%string)
    /\ Opts.get "proxy" options = Some (OStr "")
    /\ Opts.get "download_sections" options = Some (OList ["00:00-01:30"%string])
    /\ Opts.get "max_downloads" options = Some (OInt 5)
    /\ Opts.get "ratelimit" options = Some (OInt 2560).
Proof.
  destruct (build_options "/srv/downloads" posix_join always audio_task)
    as [options|] eqn:E; [|vm_compute in E; discriminate E].
  exists options. split; [reflexivity|].
  destruct (build_options_optional "/srv/downloads" posix_join always audio_task
              options E) as (_ & H2 & _ & H4 & H5 & H6 & H7 & _).
  split; [rewrite H2; vm_compute; reflexivity|].
  split; [rewrite H4; vm_compute; reflexivity|].
  split; [rewrite H5; vm_compute; reflexivity|].
  split; [rewrite H6; vm_compute; reflexivity|].
  rewrite H7. vm_compute. reflexivity.
Defined.

(* ------------------------------------------------------------------ *)
(** ** The order of the time stamps *)

Lemma string_app_assoc (a b c : string) : ((a ++ b) ++ c = a ++ (b ++ c))%string.
Proof. induction a as [|x a IH]; cbn; [reflexivity | now rewrite IH]. Qed.

Lemma string_app_length (a b : string) :
  String.length (a ++ b) = (String.length a + String.length b)%nat.
Proof. induction a as [|x a IH]; cbn; [reflexivity | now rewrite IH]. Qed.

Lemma digits_from_acc w : forall n acc,
  PyStr.digits_from w n acc = (PyStr.digits_from w n EmptyString ++ acc)%string.
Proof.
  induction w as [|w IH]; intros n acc; cbn [PyStr.digits_from]; [reflexivity|].
  rewrite (IH _ (String _ acc)), (IH _ (String _ EmptyString)), string_app_assoc.
  reflexivity.
Qed.

Lemma zero_padded_succ w n :
  PyStr.zero_padded (S w) n
  = (PyStr.zero_padded w (n / 10)%N ++ String (PyStr.digit n) EmptyString)%string.
Proof. unfold PyStr.zero_padded. cbn [PyStr.digits_from]. apply digits_from_acc. Qed.

Lemma zero_padded_length w : forall n, String.length (PyStr.zero_padded w n) = w.
Proof.
  induction w as [|w IH]; intros n; [reflexivity|].
  rewrite zero_padded_succ, string_app_length, IH. cbn. lia.
Qed.

(** Two texts that start with parts of the same length compare as the
    parts do, and as the rests when the parts are equal. *)
Lemma compare_app a : forall b x y,
  String.length a = String.length b ->
  String.compare (a ++ x) (b ++ y)
  = match String.compare a b with
    | Eq => String.compare x y
    | c => c
    end.
Proof.
  induction a as [|c a IH]; intros [|d b] x y H; try discriminate H; [reflexivity|].
  cbn [String.append String.compare]. destruct (Ascii.compare c d); try reflexivity.
  apply IH. now injection H.
Qed.

Lemma compare_same_head c x y :
  String.compare (String c x) (String c y) = String.compare x y.
Proof.
  cbn [String.compare]. unfold Ascii.compare. now rewrite N.compare_refl.
Qed.

Lemma digit_compare n m :
  Ascii.compare (PyStr.digit n) (PyStr.digit m) = (n mod 10 ?= m mod 10)%N.
Proof.
  unfold Ascii.compare, PyStr.digit.
  assert (T : (10 <> 0)%N) by discriminate.
  pose proof (N.mod_lt n 10 T) as Hn. pose proof (N.mod_lt m 10 T) as Hm.
  rewrite !N_ascii_embedding by lia.
  revert Hn Hm. generalize (n mod 10)%N (m mod 10)%N. intros rn rm Hn Hm.
  destruct (N.compare_spec rn rm) as [E|L|G].
  - apply N.compare_eq_iff. lia.
  - apply N.compare_lt_iff. lia.
  - apply N.compare_gt_iff. lia.
Qed.

Lemma compare_by_last_digit n m :
  (n ?= m)%N
  = match (n / 10 ?= m / 10)%N with
    | Eq => (n mod 10 ?= m mod 10)%N
    | c => c
    end.
Proof.
  assert (T : (10 <> 0)%N) by discriminate.
  pose proof (N.div_mod n 10 T) as Dn. pose proof (N.div_mod m 10 T) as Dm.
  pose proof (N.mod_lt n 10 T) as Hn. pose proof (N.mod_lt m 10 T) as Hm.
  revert Dn Dm Hn Hm.
  generalize (n / 10)%N (m / 10)%N (n mod 10)%N (m mod 10)%N.
  intros qn qm rn rm Dn Dm Hn Hm.
  destruct (N.compare_spec qn qm) as [E|L|G].
  - destruct (N.compare_spec rn rm) as [E'|L'|G'].
    + apply N.compare_eq_iff. lia.
    + apply N.compare_lt_iff. lia.
    + apply N.compare_gt_iff. lia.
  - apply N.compare_lt_iff. lia.
  - apply N.compare_gt_iff. lia.
Qed.

(** Numbers printed on the same width compare as texts the way they
    compare as numbers. *)
Lemma zero_padded_compare w : forall n m,
  String.compare (PyStr.zero_padded w n) (PyStr.zero_padded w m)
  = ((n mod 10 ^ N.of_nat w) ?= (m mod 10 ^ N.of_nat w))%N.
Proof.
  induction w as [|w IH]; intros n m.
  - cbn. now rewrite !N.mod_1_r.
  - rewrite !zero_padded_succ, compare_app by (now rewrite !zero_padded_length).
    rewrite IH. cbn [String.compare]. rewrite digit_compare.
    rewrite (compare_by_last_digit (n mod 10 ^ N.of_nat (S w))).
    assert (P : (10 ^ N.of_nat (S w) = 10 * 10 ^ N.of_nat w)%N).
    { rewrite Nat2N.inj_succ, N.pow_succ_r'. reflexivity. }
    assert (Q : forall k, ((k mod 10 ^ N.of_nat (S w)) / 10
                           = (k / 10) mod 10 ^ N.of_nat w)%N).
    { intros k. rewrite P. pose proof (N.pow_nonzero 10 (N.of_nat w)) as Z.
      rewrite N.Div0.mod_mul_r, N.mul_comm, N.div_add by lia.
      rewrite N.div_small by (apply N.mod_lt; lia). reflexivity. }
    assert (R : forall k, ((k mod 10 ^ N.of_nat (S w)) mod 10 = k mod 10)%N).
    { intros k. rewrite P. rewrite N.Div0.mod_mul_r.
      rewrite N.mul_comm, N.Div0.mod_add. apply N.Div0.mod_mod. }
    rewrite !Q, !R.
    destruct ((n / 10) mod 10 ^ N.of_nat w ?= (m / 10) mod 10 ^ N.of_nat w)%N;
      try reflexivity.
    destruct (n mod 10 ?= m mod 10)%N; reflexivity.
Qed.

Lemma zero_padded_compare_small w n m :
  (n < 10 ^ N.of_nat w)%N -> (m < 10 ^ N.of_nat w)%N ->
  String.compare (PyStr.zero_padded w n) (PyStr.zero_padded w m) = (n ?= m)%N.
Proof. intros Hn Hm. now rewrite zero_padded_compare, !N.mod_small. Qed.

(** A printed field followed by the same separator on both sides. *)
Lemma compare_field w n m c x y :
  (n < 10 ^ N.of_nat w)%N -> (m < 10 ^ N.of_nat w)%N ->
  String.compare (PyStr.zero_padded w n ++ String c x)
                 (PyStr.zero_padded w m ++ String c y)
  = match (n ?= m)%N with
    | Eq => String.compare x y
    | r => r
    end.
Proof.
  intros Hn Hm. rewrite compare_app by (now rewrite !zero_padded_length).
  rewrite (zero_padded_compare_small w n m Hn Hm), compare_same_head. reflexivity.
Qed.

(** X18.  For two clock readings that both have a fraction of a second, or
    both have none, the texts [now_iso] makes of them are ordered as the
    readings are in time.  (For one reading of each kind they need not be:
    the text of a whole second ends in [Z] where the other has a [.].) *)
Theorem now_iso_order (a b : datetime) :
  printable a -> printable b ->
  (microsecond a =? 0)%N = (microsecond b =? 0)%N ->
  String.compare (Clock.now_iso a) (Clock.now_iso b)
  = lex_compare (chrono a) (chrono b).
Proof.
  intros (A1 & A2 & A3 & A4 & A5 & A6 & A7) (B1 & B2 & B3 & B4 & B5 & B6 & B7) Hs.
  unfold Clock.now_iso, Clock.isoformat, chrono. cbn [lex_compare].
  rewrite !string_app_assoc.
  change ("-" ++ ?x)%string with (String "-" x).
  repeat match goal with
         | |- context [(String ?c EmptyString ++ ?x)%string] =>
             change (String c EmptyString ++ x)%string with (String c x)
         end.
  rewrite (compare_field 4) by assumption.
  destruct (year a ?= year b)%N; try reflexivity.
  rewrite (compare_field 2) by assumption.
  destruct (month a ?= month b)%N; try reflexivity.
  rewrite (compare_field 2) by assumption.
  destruct (day a ?= day b)%N; try reflexivity.
  rewrite (compare_field 2) by assumption.
  destruct (hour a ?= hour b)%N; try reflexivity.
  rewrite (compare_field 2) by assumption.
  destruct (minute a ?= minute b)%N; try reflexivity.
  rewrite Hs. destruct (N.eqb_spec (microsecond b) 0) as [Eb|Nb].
  - apply N.eqb_eq in Hs. rewrite Hs, Eb.
    change (EmptyString ++ "Z")%string with "Z"%string.
    rewrite (compare_field 2) by assumption.
    destruct (second a ?= second b)%N; reflexivity.
  - cbn [String.append].
    rewrite (compare_field 2) by assumption.
    destruct (second a ?= second b)%N; try reflexivity.
    rewrite (compare_field 6) by assumption.
    destruct (microsecond a ?= microsecond b)%N; reflexivity.
Qed.

(** Two readings three microseconds apart. *)
Lemma now_iso_order_witness :
  String.compare (Clock.now_iso (tick_clock 1 0)) (Clock.now_iso (tick_clock 1 3)) = Lt
  /\ String.leb (Clock.now_iso (tick_clock 1 0)) (Clock.now_iso (tick_clock 1 3)) = true.
Proof.
  assert (H : String.compare (Clock.now_iso (tick_clock 1 0))
                (Clock.now_iso (tick_clock 1 3)) = Lt).
  { rewrite (now_iso_order (tick_clock 1 0) (tick_clock 1 3));
      [reflexivity | | | reflexivity];
      unfold printable; vm_compute; repeat split; reflexivity. }
  split; [exact H|]. unfold String.leb. now rewrite H.
Defined.

(* ------------------------------------------------------------------ *)
(** ** A start request without a value *)

(** X19.  In every state the server reaches, a start request that posts no
    [concurrency] reads the current limit and sets it again: the limit
    stays what it was, and the request amounts to one log line and one
    admission pass. *)
Theorem start_without_value utcnow dir fos (evs : list event) (sys : System) :
  run utcnow dir fos evs initial_system = Some sys ->
  let s1 := set_concurrency utcnow (current_concurrency (st sys)) (st sys) in
  api_start_queue utcnow None (st sys) = Some (try_schedule_next utcnow s1)
  /\ current_concurrency s1 = current_concurrency (st sys)
  /\ current_concurrency (snd (try_schedule_next utcnow s1))
     = current_concurrency (st sys)
  /\ tasks s1 = tasks (st sys) /\ active_workers s1 = active_workers (st sys).
Proof.
  intros Hrun. cbv zeta.
  assert (B : 0 <= active_workers (st sys) <= MAX_WORKERS
              /\ 1 <= current_concurrency (st sys) <= MAX_WORKERS).
  { apply (run_keeps_ceiling _ _ _ _ _ _ Hrun). cbn.
    unfold MAX_WORKERS, DEFAULT_CONCURRENCY. lia. }
  destruct B as [_ B].
  pose proof (set_concurrency_fields utcnow (current_concurrency (st sys)) (st sys)) as F.
  cbv zeta in F. destruct F as (F1 & F2 & _ & _ & F5 & _).
  assert (E : current_concurrency
                (set_concurrency utcnow (current_concurrency (st sys)) (st sys))
              = current_concurrency (st sys)) by (rewrite F1; lia).
  split; [reflexivity|]. split; [exact E|].
  split; [|split; assumption].
  rewrite (proj2 (proj2 (try_schedule_next_active utcnow _))). exact E.
Qed.

(** After a start request for five workers, one without a value. *)
Lemma start_without_value_witness :
  exists sys,
    run (tick_clock 1) "/srv/downloads" no_float_text [EvSetConcurrency 5]
      initial_system = Some sys
    /\ option_map (fun r => current_concurrency (snd r))
         (api_start_queue (tick_clock 1) None (st sys)) = Some 5.
Proof.
  destruct (run (tick_clock 1) "/srv/downloads" no_float_text [EvSetConcurrency 5]
              initial_system) as [sys|] eqn:E; [|vm_compute in E; discriminate E].
  pose proof (start_without_value (tick_clock 1) "/srv/downloads" no_float_text
                _ sys E) as H.
  cbv zeta in H. destruct H as (H1 & _ & H3 & _).
  exists sys. split; [reflexivity|].
  rewrite H1. cbn [option_map]. rewrite H3.
  vm_compute in E. injection E as <-. reflexivity.
Defined.

(* ------------------------------------------------------------------ *)
(** ** First in, first out *)

Lemma update_task_clock utcnow tid kwargs s :
  (clock s <= clock (snd (update_task utcnow tid kwargs s)))%nat.
Proof.
  pose proof (update_task_frame utcnow tid kwargs s) as U. cbv zeta in U.
  destruct U as (_ & _ & _ & Ua & Up).
  destruct (Dict.get tid (tasks s)) as [t|] eqn:G.
  - destruct (Up t eq_refl) as [_ ->]. lia.
  - rewrite (Ua eq_refl). lia.
Qed.

Lemma append_log_clock utcnow msg s : clock (append_log utcnow msg s) = S (clock s).
Proof. apply (append_log_fields utcnow msg s). Qed.

Lemma schedule_loop_clock utcnow queued : forall s acc,
  (clock s <= clock (snd (schedule_loop utcnow queued s acc)))%nat.
Proof.
  induction queued as [|tid rest IH]; intros s acc; cbn [schedule_loop]; [cbn; lia|].
  destruct (active_workers s <? current_concurrency s); [|cbn; lia].
  destruct (Dict.get tid (tasks s)) as [task|]; [|apply IH].
  destruct (status task =? "Queued")%string; [|apply IH].
  cbn [read_clock].
  match goal with |- (_ <= clock (snd (schedule_loop _ _ ?x _)))%nat =>
    specialize (IH x (acc ++ [set_last_update (set_status task "Scheduled")
                                (Clock.now_iso (utcnow (clock s)))]));
    assert (E : clock x = S (clock s)) by reflexivity
  end.
  lia.
Qed.

Lemma run_task_outcome_clock utcnow task o s :
  (clock s <= clock (run_task_outcome utcnow task o s))%nat.
Proof.
  destruct o as [|msg]; unfold run_task_outcome; cbn [read_clock];
    rewrite append_log_clock; cbn [history_append clock set_history set_clock];
    match goal with |- context [update_task utcnow ?i ?k s] =>
      pose proof (update_task_clock utcnow i k s) end; lia.
Qed.

Lemma queue_loop_clock utcnow template urls : forall s created,
  (clock s <= clock (snd (queue_loop utcnow template urls s created)))%nat.
Proof.
  induction urls as [|u urls IH]; intros s created; cbn [queue_loop]; [cbn; lia|].
  pose proof (new_task_spec utcnow template u s) as N. cbv zeta in N.
  destruct (new_task utcnow template u s) as [task s1]. cbn [fst snd] in N.
  specialize (IH s1 (created ++ [task])). lia.
Qed.

(** The clock only advances. *)
Lemma step_clock_mono utcnow dir fos ev sys sys' :
  step utcnow dir fos ev sys = Some sys' ->
  (clock (st sys) <= clock (st sys'))%nat.
Proof.
  destruct sys as [s p]. cbn [st pool].
  destruct ev as [payload| |n| |tid ok|tid info|tid o|tid|tid]; cbn [step st pool].
  - unfold queue_tasks. destruct (stripped_nonempty _) as [|u urls].
    + intros [= <-]. cbn. lia.
    + destruct (request_template dir fos payload) as [template|].
      * pose proof (queue_loop_clock utcnow template (u :: urls) s []) as Q.
        destruct (queue_loop utcnow template (u :: urls) s []) as [created s1].
        intros [= <-]. exact Q.
      * intros [= <-]. cbn. lia.
  - pose proof (schedule_loop_clock utcnow (queued_ids s) s []) as Q.
    fold (try_schedule_next utcnow s) in Q.
    destruct (try_schedule_next utcnow s) as [to_start s1].
    intros [= <-]. exact Q.
  - intros [= <-]. cbn [st]. unfold set_concurrency. rewrite append_log_clock.
    cbn. lia.
  - intros [= <-]. cbn [st]. unfold clear_completed_tasks.
    pose proof (clear_loop_spec
                  (map fst (filter (fun kv => is_terminal (snd kv)) (tasks s))) s 0) as F.
    cbv zeta in F. destruct F as (_ & _ & _ & _ & _ & _ & _ & _ & C).
    destruct (clear_loop _ s 0) as [removed s1]. cbn [snd] in C.
    destruct (removed =? 0); cbn [snd]; [lia|]. rewrite append_log_clock. lia.
  - destruct (find_worker tid Submitted p) as [w|]; [|discriminate].
    intros [= <-]. cbn [st]. unfold run_task_begin.
    match goal with |- context [update_task utcnow ?i ?k ?x] =>
      pose proof (update_task_clock utcnow i k x) as U end.
    rewrite append_log_clock in U. lia.
  - destruct (find_worker tid Downloading p) as [w|]; [|discriminate].
    intros [= <-]. cbn [st]. apply update_task_clock.
  - destruct (find_worker tid Downloading p) as [w|]; [|discriminate].
    intros [= <-]. cbn [st]. apply run_task_outcome_clock.
  - destruct (find_worker tid Finishing p) as [w|]; [|discriminate].
    intros [= <-]. cbn. lia.
  - destruct (find_worker tid Releasing p) as [w|]; [|discriminate].
    pose proof (schedule_loop_clock utcnow (queued_ids s) s []) as Q.
    fold (try_schedule_next utcnow s) in Q.
    destruct (try_schedule_next utcnow s) as [to_start s1].
    intros [= <-]. exact Q.
Qed.

Lemma before_list_remove x (a b : Z) l :
  before a b (list_remove x l) -> before a b l.
Proof.
  induction l as [|y r IH]; cbn [list_remove before]; [auto|].
  destruct (y =? x); [intros H; now right|].
  cbn [before]. intros [[E Hin]|H]; [left; split; [exact E|] | right; now apply IH].
  eapply list_remove_In. exact Hin.
Qed.

Lemma before_remove_all ks : forall (a b : Z) l,
  before a b (remove_all ks l) -> before a b l.
Proof.
  unfold remove_all. induction ks as [|k ks IH]; intros a b l; cbn [fold_left]; [auto|].
  intros H. apply (before_list_remove k). now apply IH.
Qed.

Lemma In_remove_all ks : forall (a : Z) l, In a (remove_all ks l) -> In a l.
Proof.
  unfold remove_all. induction ks as [|k ks IH]; intros a l; cbn [fold_left]; [auto|].
  intros H. apply (list_remove_In k). now apply IH.
Qed.

(** But for a submission, a step adds nothing to the order sequence and
    keeps what comes before what. *)
Lemma step_order_sub utcnow dir fos ev sys sys' :
  step utcnow dir fos ev sys = Some sys' ->
  (forall payload, ev <> EvQueue payload) ->
  task_order (st sys') = task_order (st sys)
  \/ exists ks, task_order (st sys') = remove_all ks (task_order (st sys)).
Proof.
  destruct sys as [s p]. cbn [st pool].
  destruct ev as [payload| |n| |tid ok|tid info|tid o|tid|tid]; cbn [step st pool];
    intros Hstep Hq.
  - now contradiction (Hq payload).
  - destruct (try_schedule_next_spec utcnow s) as (adm & _ & (O & _) & _).
    destruct (try_schedule_next utcnow s) as [to_start s1]. cbn [snd] in O.
    injection Hstep as <-. now left.
  - injection Hstep as <-. cbn [st].
    pose proof (set_concurrency_fields utcnow n s) as F. cbv zeta in F.
    destruct F as (_ & _ & O & _). now left.
  - injection Hstep as <-. cbn [st].
    pose proof (clear_completed_tasks_fields utcnow s) as F. cbv zeta in F.
    destruct F as (_ & _ & O & _). right. eexists. exact O.
  - destruct (find_worker tid Submitted p) as [w|]; [|discriminate].
    injection Hstep as <-. cbn [st].
    destruct (run_task_begin_frame utcnow (w_task w) s) as (_ & _ & _ & O & _).
    now left.
  - destruct (find_worker tid Downloading p) as [w|]; [|discriminate].
    injection Hstep as <-. cbn [st].
    destruct (progress_hook_frame utcnow (id (w_task w)) info s) as (_ & O & _).
    now left.
  - destruct (find_worker tid Downloading p) as [w|]; [|discriminate].
    injection Hstep as <-. cbn [st].
    pose proof (run_task_outcome_frame utcnow (w_task w) o s) as F. cbv zeta in F.
    destruct F as (_ & _ & O & _). now left.
  - destruct (find_worker tid Finishing p) as [w|]; [|discriminate].
    injection Hstep as <-. now left.
  - destruct (find_worker tid Releasing p) as [w|]; [|discriminate].
    destruct (try_schedule_next_spec utcnow s) as (adm & _ & (O & _) & _).
    destruct (try_schedule_next utcnow s) as [to_start s1]. cbn [snd] in O.
    injection Hstep as <-. now left.
Qed.

Lemma request_created_at t t' : request_of t' = request_of t -> created_at t' = created_at t.
Proof. unfold request_of. intros H. now injection H. Qed.

Lemma before_app_single {A} (a b c : A) l :
  before a b (l ++ [c]) -> before a b l \/ (In a l /\ b = c).
Proof.
  induction l as [|x r IH]; cbn [app before].
  - intros [[_ []]|[]].
  - intros [[E Hin]|H].
    + apply in_app_or in Hin. destruct Hin as [Hin|[<-|[]]].
      * left. left. now split.
      * right. split; [now left | reflexivity].
    + destruct (IH H) as [Hb|[Hin E]]; [left; now right|].
      right. split; [now right | exact E].
Qed.

Lemma new_task_stamped utcnow template u s :
  order_ok s -> task_order s = Dict.keys (tasks s) -> stamped utcnow s ->
  stamped utcnow (snd (new_task utcnow template u s)).
Proof.
  intros [Hn Hb] Hk [S1 S2].
  pose proof (new_task_spec utcnow template u s) as N. cbv zeta in N.
  destruct (new_task utcnow template u s) as [task s1]. cbn [fst snd] in *.
  destruct N as (_ & _ & _ & N4 & N5 & _ & _ & _ & N9 & N10).
  assert (Hold : forall a, In a (task_order s) ->
            a <> task_counter s /\ Dict.get a (tasks s1) = Dict.get a (tasks s)).
  { intros a Hin. specialize (Hb a Hin).
    split; [lia|]. rewrite N5. apply get_set_other. lia. }
  assert (Hget : forall a ta, Dict.get a (tasks s1) = Some ta ->
            (In a (task_order s) /\ Dict.get a (tasks s) = Some ta)
            \/ (a = task_counter s /\ ta = task)).
  { intros a ta G. rewrite N5 in G.
    destruct (Z.eq_dec a (task_counter s)) as [->|Hne].
    - rewrite get_set_same in G. injection G as <-. now right.
    - rewrite get_set_other in G by congruence. left. split; [|exact G].
      rewrite Hk. apply get_Some_keys. now exists ta. }
  split.
  - intros a ta G. destruct (Hget a ta G) as [[_ G0]|[-> ->]].
    + destruct (S1 a ta G0) as (i & Hi & E). exists i. split; [lia | exact E].
    + exists (clock s). split; [lia | exact N9].
  - intros a b ta tb Hbef Ga Gb. rewrite N4 in Hbef.
    destruct (before_app_single a b _ _ Hbef) as [Hb0|[Hin ->]].
    + destruct (before_In _ _ _ Hb0) as [Ia Ib].
      rewrite (proj2 (Hold a Ia)) in Ga. rewrite (proj2 (Hold b Ib)) in Gb.
      destruct (S2 a b ta tb Hb0 Ga Gb) as (i & j & Hij & Hj & Ea & Eb).
      exists i, j. repeat split; try assumption; lia.
    + rewrite (proj2 (Hold a Hin)) in Ga.
      destruct (S1 a ta Ga) as (i & Hi & Ea).
      rewrite N5, get_set_same in Gb. injection Gb as <-.
      exists i, (clock s). repeat split; try assumption; lia.
Qed.

Lemma queue_loop_stamped utcnow template urls : forall s created,
  order_ok s -> task_order s = Dict.keys (tasks s) -> stamped utcnow s ->
  stamped utcnow (snd (queue_loop utcnow template urls s created)).
Proof.
  induction urls as [|u urls IH]; intros s created Ho Hk Hs; cbn [queue_loop];
    [exact Hs|].
  pose proof (new_task_stamped utcnow template u s Ho Hk Hs) as S1.
  pose proof (queue_loop_order utcnow template [u] s [] Ho) as O1.
  pose proof (queue_loop_keys utcnow template [u] s [] Ho Hk) as K1.
  cbn [queue_loop] in O1, K1.
  destruct (new_task utcnow template u s) as [task s1]. cbn [snd] in *.
  now apply IH.
Qed.

Lemma step_stamped utcnow dir fos ev sys sys' :
  step utcnow dir fos ev sys = Some sys' ->
  order_ok (st sys) -> task_order (st sys) = Dict.keys (tasks (st sys)) ->
  stamped utcnow (st sys) -> stamped utcnow (st sys').
Proof.
  intros Hstep Ho Hk Hs.
  destruct (match ev with EvQueue _ => true | _ => false end) eqn:Q.
  - destruct ev as [payload| | | | | | | | ]; try discriminate Q.
    destruct sys as [s p]. cbn [step st pool] in *. unfold queue_tasks in Hstep.
    destruct (stripped_nonempty _) as [|u urls].
    + injection Hstep as <-. exact Hs.
    + destruct (request_template dir fos payload) as [template|].
      * pose proof (queue_loop_stamped utcnow template (u :: urls) s [] Ho Hk Hs) as L.
        destruct (queue_loop utcnow template (u :: urls) s []) as [created s1].
        injection Hstep as <-. exact L.
      * injection Hstep as <-. exact Hs.
  - assert (Hnq : forall payload, ev <> EvQueue payload)
      by (intros payload ->; discriminate Q).
    pose proof (step_clock_mono utcnow dir fos ev sys sys' Hstep) as Hc.
    pose proof (step_keys utcnow dir fos ev sys sys' Hstep Ho Hk) as Hk'.
    assert (Hsub : (forall a, In a (task_order (st sys')) -> In a (task_order (st sys)))
                   /\ (forall a b, before a b (task_order (st sys')) ->
                                   before a b (task_order (st sys)))).
    { destruct (step_order_sub utcnow dir fos ev sys sys' Hstep Hnq) as [->|[ks ->]].
      - split; auto.
      - split; [intros a; apply In_remove_all | intros a b; apply before_remove_all]. }
    destruct Hsub as [Hin Hbef]. destruct Hs as [S1 S2].
    assert (Hback : forall a ta', Dict.get a (tasks (st sys')) = Some ta' ->
              exists ta, Dict.get a (tasks (st sys)) = Some ta
                         /\ created_at ta' = created_at ta).
    { intros a ta' G'.
      assert (I : In a (Dict.keys (tasks (st sys)))).
      { rewrite <- Hk. apply Hin. rewrite Hk'. apply get_Some_keys. now exists ta'. }
      apply get_Some_keys in I. destruct I as [ta G]. exists ta. split; [exact G|].
      apply request_created_at.
      apply (step_request utcnow dir fos ev sys sys' a ta ta' Hstep Ho Hk G G'). }
    split.
    + intros a ta' G'. destruct (Hback a ta' G') as (ta & G & E).
      destruct (S1 a ta G) as (i & Hi & Ei). exists i. split; [lia | congruence].
    + intros a b ta' tb' Hb Ga' Gb'.
      destruct (Hback a ta' Ga') as (ta & Ga & Ea).
      destruct (Hback b tb' Gb') as (tb & Gb & Eb).
      destruct (S2 a b ta tb (Hbef a b Hb) Ga Gb) as (i & j & Hij & Hj & Ei & Ej).
      exists i, j. repeat split; try congruence; lia.
Qed.

Lemma run_stamped utcnow dir fos evs : forall sys sys',
  run utcnow dir fos evs sys = Some sys' ->
  order_ok (st sys) -> task_order (st sys) = Dict.keys (tasks (st sys)) ->
  stamped utcnow (st sys) -> stamped utcnow (st sys').
Proof.
  induction evs as [|ev evs IH]; intros sys sys'; cbn [run].
  - intros [= <-]. auto.
  - destruct (step utcnow dir fos ev sys) as [sys1|] eqn:E; [|discriminate].
    intros Hrun Ho Hk Hs. apply (IH sys1 sys' Hrun).
    + eapply step_order_ok; eassumption.
    + eapply step_keys; eassumption.
    + eapply step_stamped; eassumption.
Qed.

(** X20.  First in, first out.  In a state the server reaches, if the texts
    of the clock readings taken so far are in the order of the readings,
    then of two Queued jobs of equal priority the one submitted first is
    admitted by a pass whenever the other is; and whatever the clock reads,
    a job of strictly higher priority is admitted whenever a lower one is. *)
Theorem admission_fifo utcnow dir fos (evs : list event) (sys : System) :
  run utcnow dir fos evs initial_system = Some sys ->
  stamps_ordered utcnow (clock (st sys)) ->
  let s := st sys in
  let s' := snd (try_schedule_next utcnow s) in
  (forall a b ta tb,
     before a b (task_order s) ->
     Dict.get a (tasks s) = Some ta -> Dict.get b (tasks s) = Some tb ->
     status ta = "Queued"%string -> status tb = "Queued"%string ->
     priority ta = priority tb ->
     is_queued s' b = false -> is_queued s' a = false)
  /\ (forall a b ta tb,
        In a (task_order s) -> In b (task_order s) ->
        Dict.get a (tasks s) = Some ta -> Dict.get b (tasks s) = Some tb ->
        status ta = "Queued"%string -> status tb = "Queued"%string ->
        priority tb < priority ta ->
        is_queued s' b = false -> is_queued s' a = false).
Proof.
  intros Hrun Hclock. cbv zeta.
  pose proof (admission_order utcnow dir fos evs sys Hrun) as A. cbv zeta in A.
  destruct A as (_ & _ & A3 & A4).
  split; [|exact A3].
  intros a b ta tb Hbef Ga Gb Sa Sb Hp.
  apply (A4 a b ta tb Hbef Ga Gb Sa Sb Hp).
  assert (Hs : stamped utcnow (st sys)).
  { apply (run_stamped utcnow dir fos evs initial_system sys Hrun order_ok_initial
             eq_refl).
    split; [intros a0 ta0 [=] | intros a0 b0 ta0 tb0 []]. }
  destruct Hs as [_ S2].
  destruct (S2 a b ta tb Hbef Ga Gb) as (i & j & Hij & Hj & -> & ->).
  now apply Hclock.
Qed.

(** Three URLs under the limit 2: the second is admitted, hence the first. *)
Lemma admission_fifo_witness :
  exists sys,
    run (tick_clock 1) "/srv/downloads" no_float_text three_waiting initial_system
    = Some sys
    /\ clock (st sys) = 9%nat
    /\ is_queued (snd (try_schedule_next (tick_clock 1) (st sys))) 1 = false.
Proof.
  destruct (run (tick_clock 1) "/srv/downloads" no_float_text three_waiting
              initial_system) as [sys|] eqn:E; [|vm_compute in E; discriminate E].
  exists sys. split; [reflexivity|].
  assert (C : clock (st sys) = 9%nat)
    by (vm_compute in E; injection E as <-; reflexivity).
  split; [exact C|].
  assert (Hclock : stamps_ordered (tick_clock 1) (clock (st sys))).
  { rewrite C. intros i j Hij Hj.
    do 9 (destruct j as [|j];
          [do 9 (destruct i as [|i];
                 [first [exfalso; lia | vm_compute; reflexivity]|]);
           exfalso; lia|]).
    exfalso. lia. }
  pose proof (admission_fifo (tick_clock 1) "/srv/downloads" no_float_text
                three_waiting sys E Hclock) as H.
  cbv zeta in H. destruct H as [H _].
  vm_compute in E. injection E as <-.
  eapply (H 1 2); try (vm_compute; reflexivity).
  vm_compute. left. split; [reflexivity|]. now left.
Defined.

(* ------------------------------------------------------------------ *)
(** ** The answer to a submission *)

Lemma get_app_fresh {V} (d1 d2 : list (Z * V)) k :
  ~ In k (Dict.keys d1) -> Dict.get k (d1 ++ d2) = Dict.get k d2.
Proof.
  induction d1 as [|[k' v'] r IH]; intros H; cbn; [reflexivity|].
  destruct (Z.eqb_spec k' k) as [->|_]; [exfalso; apply H; now left|].
  apply IH. intros Hin. apply H. now right.
Qed.

Lemma get_by_id (ts : list DownloadTask) t :
  NoDup (map id ts) -> In t ts ->
  Dict.get (id t) (map (fun x => (id x, x)) ts) = Some t.
Proof.
  induction ts as [|x r IH]; intros Hn Hin; [destruct Hin|].
  cbn in Hn. inversion Hn as [|? ? Hx Hr]; subst. cbn [map Dict.get].
  destruct Hin as [->|Hin]; [now rewrite Z.eqb_refl|].
  destruct (Z.eqb_spec (id x) (id t)) as [E|_]; [|now apply IH].
  exfalso. apply Hx. rewrite E. now apply in_map.
Qed.

Lemma NoDup_offsets c n : forall a, NoDup (map (fun i => c + Z.of_nat i) (seq a n)).
Proof.
  induction n as [|n IH]; intros a; cbn [seq map]; constructor; [|apply IH].
  intros H. apply in_map_iff in H. destruct H as (i & E & Hi).
  apply in_seq in Hi. lia.
Qed.

(** X21.  The answer to [POST /api/queue] lists the created jobs as the
    admission pass of the same request has left them: one entry per created
    job, in order, with the job's id and URL, and with the status
    [Scheduled] when the pass handed the job to the executor and [Queued]
    when it did not.  (The registry holds every id below the counter, under
    its own id, as in every state the server reaches.) *)
Theorem queue_answer_shows_admission default_dir isfile utcnow fos
  (payload : Payload) (s s2 : State) (created to_start : list DownloadTask) :
  (forall k, In k (Dict.keys (tasks s)) -> k < task_counter s) ->
  (forall k t, Dict.get k (tasks s) = Some t -> id t = k) ->
  api_add_to_queue utcnow default_dir fos payload s = Some (created, to_start, s2) ->
  exists views,
    api_add_to_queue_answer default_dir isfile utcnow fos payload s
    = Some (views, Z.of_nat (List.length created), s2)
    /\ map v_id views = map id created
    /\ map v_url views = map url created
    /\ Forall (fun v => (v_status v = "Scheduled"%string
                         /\ In (v_id v) (map id to_start))
                        \/ (v_status v = "Queued"%string
                            /\ ~ In (v_id v) (map id to_start))) views.
Proof.
  intros Hf Hid H. unfold api_add_to_queue_answer. rewrite H.
  eexists. split; [reflexivity|].
  unfold api_add_to_queue in H.
  destruct (queue_tasks utcnow default_dir fos payload s) as [[c s1]|] eqn:Q;
    [|discriminate].
  destruct (try_schedule_next_spec utcnow s1)
    as (adm & F1 & _ & _ & _ & _ & F6 & F7 & F8).
  destruct (try_schedule_next utcnow s1) as [ts s2'] eqn:P. cbn [fst snd] in *.
  injection H as -> -> ->.
  (* the registry after the submission *)
  assert (Hreg : forall t, In t created ->
            Dict.get (id t) (tasks s1) = Some t /\ status t = "Queued"%string).
  { unfold queue_tasks in Q.
    destruct (stripped_nonempty _) as [|u urls]; [injection Q as <- <-; intros t []|].
    destruct (request_template default_dir fos payload) as [template|]; [|discriminate].
    destruct (queue_loop_creates utcnow template (u :: urls) s [] Hf)
      as (news & H1 & _ & H3 & _ & H5 & H6 & _).
    assert (E : queue_loop utcnow template (u :: urls) s [] = (created, s1))
      by congruence.
    rewrite E in H1, H6. cbn [fst snd app] in H1, H6. subst news.
    intros t Hin. split.
    - rewrite H6, get_app_fresh.
      + apply get_by_id; [|exact Hin]. rewrite H3. apply NoDup_offsets.
      + intros Hk. specialize (Hf _ Hk).
        assert (I : In (id t) (map id created)) by now apply in_map.
        rewrite H3 in I. apply in_map_iff in I. destruct I as (i & Ei & _). lia.
    - rewrite Forall_forall in H5. apply (H5 t Hin). }
  assert (Hid1 : forall k t, Dict.get k (tasks s1) = Some t -> id t = k).
  { intros k t G.
    destruct (queue_tasks_spec utcnow default_dir fos payload s created s1 Q)
      as (_ & _ & _ & _ & K & _).
    destruct (K k t G) as [G0|(_ & E & _)]; [now apply (Hid k) | exact E]. }
  assert (Hstart : map id (map snd adm) = map fst adm).
  { rewrite map_map. apply map_ext_in. intros e Hin.
    rewrite Forall_forall in F7. destruct (F7 e Hin) as [_ (t0 & stamp & G0 & _ & E0 & _)].
    rewrite E0. cbn. now apply Hid1. }
  rewrite F1, Hstart. clear P Q F1.
  induction created as [|t r IH]; [repeat split; constructor|].
  destruct (Hreg t (or_introl eq_refl)) as [G1 St].
  destruct IH as (I1 & I2 & I3); [intros x Hx; apply Hreg; now right|].
  cbn [flat_map].
  destruct (in_dec Z.eq_dec (id t) (map fst adm)) as [Hin|Hni].
  - pose proof Hin as Hin'. apply in_map_iff in Hin'. destruct Hin' as (e & Ee & He).
    rewrite Forall_forall in F7.
    destruct (F7 e He) as [_ (t0 & stamp & G0 & _ & E0 & G2)].
    rewrite Ee in G0, G2. rewrite G1 in G0. injection G0 as <-.
    rewrite G2, E0. cbn [app map]. split; [cbn; now rewrite I1|].
    split; [cbn; now rewrite I2|].
    constructor; [left; split; [reflexivity | exact Hin] | exact I3].
  - rewrite (F6 _ Hni), G1. cbn [app map]. split; [cbn; now rewrite I1|].
    split; [cbn; now rewrite I2|].
    constructor; [right; split; [exact St | exact Hni] | exact I3].
Qed.

(** Three URLs under the default limit 2: two are reported Scheduled. *)
Lemma queue_answer_shows_admission_witness :
  exists views n s2,
    api_add_to_queue_answer "/srv/downloads" always (tick_clock 1) no_float_text
      (payload_of ("https://a" ++ LF ++ "https://b" ++ LF ++ "https://c") VNone)
      initial_state = Some (views, n, s2)
    /\ n = 3
    /\ map v_status views = ["Scheduled"; "Scheduled"; "Queued"]%string
    /\ map v_id views = [1; 2; 3].
Proof.
  destruct (api_add_to_queue (tick_clock 1) "/srv/downloads" no_float_text
              (payload_of ("https://a" ++ LF ++ "https://b" ++ LF ++ "https://c") VNone)
              initial_state) as [[[created to_start] s2]|] eqn:E;
    [|vm_compute in E; discriminate E].
  destruct (queue_answer_shows_admission "/srv/downloads" always (tick_clock 1)
              no_float_text
              (payload_of ("https://a" ++ LF ++ "https://b" ++ LF ++ "https://c") VNone)
              initial_state s2 created to_start)
    as (views & A & I & _); [intros k [] | intros k t [=] | exact E |].
  exists views, (Z.of_nat (List.length created)), s2.
  split; [exact A|].
  vm_compute in E. injection E as <- <- <-.
  split; [reflexivity|].
  split; [vm_compute in A; injection A as <-; reflexivity|].
  rewrite I. reflexivity.
Defined.

(* ------------------------------------------------------------------ *)
(** ** What the worker count counts *)

Lemma busy_move tid ph ph' p w :
  find_worker tid ph p = Some w ->
  (List.length (filter busy (move_worker tid ph ph' p))
   + (if phase_eqb ph Releasing then 0 else 1)
   = List.length (filter busy p) + (if phase_eqb ph' Releasing then 0 else 1))%nat.
Proof.
  unfold find_worker. revert w.
  induction p as [|x r IH]; intros w F; [discriminate|].
  cbn [find move_worker] in *. destruct (matches tid ph x) eqn:M.
  - apply matches_true in M. destruct M as [_ Mp].
    assert (Bx : busy x = negb (phase_eqb ph Releasing))
      by (unfold busy; now rewrite Mp).
    assert (Bn : busy {| w_task := w_task x; w_phase := ph' |}
                 = negb (phase_eqb ph' Releasing)) by reflexivity.
    cbn [filter]. rewrite Bx, Bn.
    destruct (phase_eqb ph Releasing), (phase_eqb ph' Releasing); cbn; lia.
  - cbn [filter]. specialize (IH w F). destruct (busy x); cbn [List.length]; lia.
Qed.

Lemma busy_drop tid ph p w :
  find_worker tid ph p = Some w ->
  (List.length (filter busy (drop_worker tid ph p))
   + (if phase_eqb ph Releasing then 0 else 1)
   = List.length (filter busy p))%nat.
Proof.
  unfold find_worker. revert w.
  induction p as [|x r IH]; intros w F; [discriminate|].
  cbn [find drop_worker] in *. destruct (matches tid ph x) eqn:M.
  - apply matches_true in M. destruct M as [_ Mp].
    assert (Bx : busy x = negb (phase_eqb ph Releasing))
      by (unfold busy; now rewrite Mp).
    cbn [filter]. rewrite Bx.
    destruct (phase_eqb ph Releasing); cbn; lia.
  - cbn [filter]. specialize (IH w F). destruct (busy x); cbn [List.length]; lia.
Qed.

Lemma busy_submit ts p :
  List.length (filter busy (submit_all ts p))
  = (List.length (filter busy p) + List.length ts)%nat.
Proof.
  unfold submit_all. rewrite filter_app, length_app. f_equal.
  induction ts as [|t r IH]; [reflexivity|]. cbn. now rewrite IH.
Qed.

Lemma step_accounts utcnow dir fos ev sys sys' n :
  step utcnow dir fos ev sys = Some sys' -> 0 <= n ->
  active_workers (st sys) = Z.of_nat (List.length (filter busy (pool sys))) + n ->
  active_workers (st sys')
  = Z.of_nat (List.length (filter busy (pool sys')))
    + (n + if failed_start ev then 1 else 0).
Proof.
  destruct sys as [s p]. cbn [st pool]. intros Hstep Hn A.
  assert (Hpass : forall q,
            active_workers s = Z.of_nat (List.length (filter busy q)) + n ->
            active_workers (snd (try_schedule_next utcnow s))
            = Z.of_nat (List.length
                          (filter busy (submit_all (fst (try_schedule_next utcnow s)) q)))
              + (n + 0)).
  { intros q Aq.
    destruct (try_schedule_next_spec utcnow s) as (adm & F1 & _ & F3 & _).
    rewrite F3, F1, busy_submit, length_map. lia. }
  revert Hstep.
  destruct ev as [payload| |k| |tid ok|tid info|tid o|tid|tid];
    cbn [step st pool failed_start].
  - destruct (queue_tasks utcnow dir fos payload s) as [[created s1]|] eqn:Q.
    + intros [= <-]. cbn [st pool].
      destruct (queue_tasks_spec utcnow dir fos payload s created s1 Q)
        as (_ & _ & E & _). lia.
    + intros [= <-]. cbn [st pool]. lia.
  - specialize (Hpass p A).
    destruct (try_schedule_next utcnow s) as [to_start s1]. cbn [fst snd] in Hpass.
    intros [= <-]. exact Hpass.
  - intros [= <-]. cbn [st pool].
    pose proof (set_concurrency_fields utcnow k s) as F. cbv zeta in F.
    destruct F as (_ & _ & _ & _ & E & _). lia.
  - intros [= <-]. cbn [st pool].
    pose proof (clear_completed_tasks_fields utcnow s) as F. cbv zeta in F.
    destruct F as (_ & _ & _ & _ & _ & E & _). lia.
  - destruct (find_worker tid Submitted p) as [w|] eqn:F; [|discriminate].
    intros [= <-]. cbn [st pool].
    destruct (run_task_begin_frame utcnow (w_task w) s) as (_ & E & _). rewrite E.
    destruct ok.
    + pose proof (busy_move tid Submitted Downloading p w F) as B. cbn in B. lia.
    + pose proof (busy_drop tid Submitted p w F) as B. cbn in B. lia.
  - destruct (find_worker tid Downloading p) as [w|] eqn:F; [|discriminate].
    intros [= <-]. cbn [st pool].
    destruct (progress_hook_frame utcnow (id (w_task w)) info s)
      as (_ & _ & _ & _ & E & _). lia.
  - destruct (find_worker tid Downloading p) as [w|] eqn:F; [|discriminate].
    intros [= <-]. cbn [st pool].
    pose proof (run_task_outcome_frame utcnow (w_task w) o s) as R. cbv zeta in R.
    destruct R as (_ & _ & _ & _ & _ & E & _). rewrite E.
    pose proof (busy_move tid Downloading Finishing p w F) as B. cbn in B. lia.
  - destruct (find_worker tid Finishing p) as [w|] eqn:F; [|discriminate].
    intros [= <-]. cbn [st pool release_worker active_workers set_active_workers].
    pose proof (busy_move tid Finishing Releasing p w F) as B. cbn in B. lia.
  - destruct (find_worker tid Releasing p) as [w|] eqn:F; [|discriminate].
    pose proof (busy_drop tid Releasing p w F) as B. cbn in B.
    specialize (Hpass (drop_worker tid Releasing p)).
    destruct (try_schedule_next utcnow s) as [to_start s1]. cbn [fst snd] in Hpass.
    intros [= <-]. cbn [st pool]. apply Hpass. lia.
Qed.

Lemma run_accounts utcnow dir fos evs : forall sys sys' n,
  run utcnow dir fos evs sys = Some sys' -> 0 <= n ->
  active_workers (st sys) = Z.of_nat (List.length (filter busy (pool sys))) + n ->
  active_workers (st sys')
  = Z.of_nat (List.length (filter busy (pool sys')))
    + (n + Z.of_nat (List.length (filter failed_start evs))).
Proof.
  induction evs as [|ev evs IH]; intros sys sys' n; cbn [run].
  - intros [= <-] Hn A. cbn. lia.
  - destruct (step utcnow dir fos ev sys) as [sys1|] eqn:E; [|discriminate].
    intros Hrun Hn A.
    pose proof (step_accounts utcnow dir fos ev sys sys1 n E Hn A) as A1.
    rewrite (IH sys1 sys' _ Hrun) with (2 := A1);
      cbn [filter]; destruct (failed_start ev); cbn [List.length]; lia.
Qed.

(** X22.  What [active_workers] counts.  In every state the server reaches,
    the counter equals the number of worker threads that have not yet run
    the decrement of their [finally] clause, plus the number of workers
    whose [build_options] raised (they ended without the decrement).  With
    no such failure it is exactly the number of those threads, and the
    [max(..., 0)] of the decrement never has to act. *)
Theorem active_workers_accounts utcnow dir fos (evs : list event) (sys : System) :
  run utcnow dir fos evs initial_system = Some sys ->
  active_workers (st sys)
  = Z.of_nat (List.length (filter busy (pool sys)))
    + Z.of_nat (List.length (filter failed_start evs)).
Proof.
  intros Hrun.
  rewrite (run_accounts utcnow dir fos evs initial_system sys 0 Hrun); [lia | lia|].
  reflexivity.
Qed.

(** The failed start of job 1, then job 2 run to its end: no thread is
    left, and the counter reads 1. *)
Lemma active_workers_accounts_witness :
  exists sys,
    run (tick_clock 1) "/srv/downloads" no_float_text
      ([EvQueue (payload_of ("https://a" ++ LF ++ "https://b") VNone); EvSchedule;
        EvBegin 1 false] ++ after_failed_start) initial_system = Some sys
    /\ filter busy (pool sys) = []
    /\ active_workers (st sys) = 1.
Proof.
  destruct (run (tick_clock 1) "/srv/downloads" no_float_text
              ([EvQueue (payload_of ("https://a" ++ LF ++ "https://b") VNone);
                EvSchedule; EvBegin 1 false] ++ after_failed_start) initial_system)
    as [sys|] eqn:E; [|vm_compute in E; discriminate E].
  exists sys. split; [reflexivity|].
  pose proof (active_workers_accounts (tick_clock 1) "/srv/downloads" no_float_text
                _ sys E) as H.
  assert (B : filter busy (pool sys) = [])
    by (vm_compute in E; injection E as <-; reflexivity).
  split; [exact B|]. rewrite H, B. reflexivity.
Defined.

(* ------------------------------------------------------------------ *)
(** ** A pass leaves no slot idle *)

(** X23.  An admission pass is work-conserving: in a state the server
    reaches, after [try_schedule_next] either no slot is free
    ([active_workers] is not below the limit) or no job of the registry is
    Queued. *)
Theorem pass_leaves_no_slot_idle utcnow dir fos (evs : list event) (sys : System) :
  run utcnow dir fos evs initial_system = Some sys ->
  let s' := snd (try_schedule_next utcnow (st sys)) in
  current_concurrency s' <= active_workers s'
  \/ forall tid t, Dict.get tid (tasks s') = Some t -> status t <> "Queued"%string.
Proof.
  intros Hrun. cbv zeta.
  destruct (run_keys utcnow dir fos evs initial_system sys Hrun order_ok_initial
              eq_refl) as [_ Hk].
  pose proof (schedule_loop_done utcnow (queued_ids (st sys)) (st sys) []) as D.
  fold (try_schedule_next utcnow (st sys)) in D.
  destruct D as [L|R]; [left; now apply Z.ltb_ge|].
  right. intros tid t G St.
  destruct (try_schedule_next_spec utcnow (st sys)) as (adm & _ & _ & _ & _ & K & _).
  assert (Q' : is_queued (snd (try_schedule_next utcnow (st sys))) tid = true)
    by (apply is_queued_true; now exists t).
  destruct (is_queued (st sys) tid) eqn:Q.
  - rewrite R in Q'; [discriminate|]. apply queued_ids_In. split; [|exact Q].
    rewrite Hk, <- K. apply get_Some_keys. now exists t.
  - rewrite (pass_never_queues utcnow (st sys) tid Q) in Q'. discriminate.
Qed.

(** Three URLs under the limit 2: the pass fills both slots. *)
Lemma pass_leaves_no_slot_idle_witness :
  exists sys,
    run (tick_clock 1) "/srv/downloads" no_float_text three_waiting initial_system
    = Some sys
    /\ active_workers (snd (try_schedule_next (tick_clock 1) (st sys))) = 2
    /\ (current_concurrency (snd (try_schedule_next (tick_clock 1) (st sys)))
        <= active_workers (snd (try_schedule_next (tick_clock 1) (st sys)))
        \/ forall tid t,
             Dict.get tid (tasks (snd (try_schedule_next (tick_clock 1) (st sys))))
             = Some t -> status t <> "Queued"%string).
Proof.
  destruct (run (tick_clock 1) "/srv/downloads" no_float_text three_waiting
              initial_system) as [sys|] eqn:E; [|vm_compute in E; discriminate E].
  exists sys. split; [reflexivity|].
  split; [vm_compute in E; injection E as <-; vm_compute; reflexivity|].
  exact (pass_leaves_no_slot_idle (tick_clock 1) "/srv/downloads" no_float_text
           three_waiting sys E).
Defined.

(* ------------------------------------------------------------------ *)
(** ** One worker per job *)

Lemma uniq_active_split p1 : forall w1 p2,
  uniq_active (p1 ++ w1 :: p2) -> active_phase (w_phase w1) = true ->
  forall w2, In w2 p2 -> active_phase (w_phase w2) = true ->
             id (w_task w2) <> id (w_task w1).
Proof.
  induction p1 as [|x r IH]; intros w1 p2; cbn [app uniq_active].
  - intros [H _] A1 w2 Hin A2. now apply H.
  - intros [_ H]. now apply IH.
Qed.

(** X24.  No job is run twice at once.  As long as the engine reports no
    status text that reads as Queued, Completed or Failed, in every state
    the server reaches the job of a worker that has not finished is in the
    registry and is neither Queued (no pass admits it again) nor Completed
    or Failed (it is not cleared), and no two such workers hold the same
    job. *)
Theorem one_worker_per_job utcnow dir fos (evs : list event) (sys : System) :
  run utcnow dir fos evs initial_system = Some sys -> Forall event_ok evs ->
  (forall w, In w (pool sys) -> active_phase (w_phase w) = true ->
     exists t, Dict.get (id (w_task w)) (tasks (st sys)) = Some t
               /\ status t <> "Queued"%string /\ is_terminal t = false)
  /\ (forall p1 w1 p2 w2 p3,
        pool sys = p1 ++ w1 :: p2 ++ w2 :: p3 ->
        active_phase (w_phase w1) = true -> active_phase (w_phase w2) = true ->
        id (w_task w1) <> id (w_task w2)).
Proof.
  intros Hrun Ok.
  pose proof (run_inv utcnow dir fos evs initial_system sys inv_initial Ok Hrun) as I.
  split.
  - intros w Hin A. apply worker_ok_active; [|exact A].
    pose proof (inv_pool _ I) as P. rewrite Forall_forall in P. now apply P.
  - intros p1 w1 p2 w2 p3 E A1 A2 Eid.
    pose proof (inv_uniq _ I) as U. rewrite E in U.
    apply (uniq_active_split p1 w1 _ U A1 w2); [|exact A2 | now symmetry].
    apply in_or_app. right. now left.
Qed.

(** Two jobs admitted under the limit 2 and started. *)
Lemma one_worker_per_job_witness :
  exists sys w1 w2,
    run (tick_clock 1) "/srv/downloads" no_float_text
      (three_waiting ++ [EvSchedule; EvBegin 1 true]) initial_system = Some sys
    /\ pool sys = [w1; w2]
    /\ id (w_task w1) = 1 /\ id (w_task w2) = 2
    /\ id (w_task w1) <> id (w_task w2).
Proof.
  destruct (run (tick_clock 1) "/srv/downloads" no_float_text
              (three_waiting ++ [EvSchedule; EvBegin 1 true]) initial_system)
    as [[s [|w1 [|w2 [|w3 p]]]]|] eqn:E;
    try (vm_compute in E; discriminate E).
  exists {| st := s; pool := [w1; w2] |}, w1, w2.
  split; [reflexivity|]. split; [reflexivity|].
  assert (Ok : Forall event_ok (three_waiting ++ [EvSchedule; EvBegin 1 true]))
    by (repeat constructor).
  destruct (one_worker_per_job (tick_clock 1) "/srv/downloads" no_float_text
              _ _ E Ok) as [_ U].
  split; [vm_compute in E; injection E as _ <- _; reflexivity|].
  split; [vm_compute in E; injection E as _ _ <-; reflexivity|].
  apply (U [] w1 [] w2 []); [reflexivity | |];
    vm_compute in E; [injection E as _ <- _ | injection E as _ _ <-]; reflexivity.
Defined.
